(** * Verification model of [backend/server.py] (pharma forecasting API)

    The model follows the Python source: Python text is a list of code
    points, Python runtime values are the inductive [pyval], Python
    exceptions are the inductive [exc], and code that may raise runs in the
    result type [res].  External collaborators (the language-model client,
    the chart library, the PDF and spreadsheet writers) are section
    variables: every theorem holds for every behaviour they may have. *)

From Stdlib Require Import String Ascii ZArith Bool Lia List.
From Stdlib Require Import Floats.
Import ListNotations.
Open Scope string_scope.
Open Scope list_scope.
Open Scope Z_scope.
Set Warnings "-register-all,-inexact-float".

(* ------------------------------------------------------------------ *)
(** ** Python text *)

(** A Python [str] is a sequence of Unicode code points. *)
Definition pystr := list Z.

(** Literals of the source are ASCII; [t "..."] is the code-point list. *)
Definition t (s : string) : pystr :=
  map (fun c => Z.of_nat (nat_of_ascii c)) (list_ascii_of_string s).

(** [s.find(c)] for a one-character [c]: first index, or -1. *)
Fixpoint find_from (c : Z) (s : pystr) (i : Z) : Z :=
  match s with
  | [] => -1
  | x :: r => if x =? c then i else find_from c r (i + 1)
  end.

Definition py_find (s : pystr) (c : Z) : Z := find_from c s 0.

(** [s.rfind(c)]: last index, or -1. *)
Definition py_rfind (s : pystr) (c : Z) : Z :=
  let k := py_find (rev s) c in
  if k <? 0 then -1 else Z.of_nat (length s) - 1 - k.

(** Index normalisation of a Python slice bound (step 1). *)
Definition norm_index (n i : Z) : Z :=
  if i <? 0 then Z.max 0 (i + n) else Z.min i n.

(** [s[a:b]] on a sequence. *)
Definition py_slice {A} (s : list A) (a b : Z) : list A :=
  let n := Z.of_nat (length s) in
  let a' := norm_index n a in
  let b' := norm_index n b in
  firstn (Z.to_nat (b' - a')) (skipn (Z.to_nat a') s).

(** [s[:b]] *)
Definition py_upto {A} (s : list A) (b : Z) : list A := py_slice s 0 b.

Fixpoint is_prefix (p s : pystr) : bool :=
  match p, s with
  | [], _ => true
  | x :: p', y :: s' => (x =? y) && is_prefix p' s'
  | _ :: _, [] => false
  end.

(** [sub in s] *)
Fixpoint py_contains (sub s : pystr) : bool :=
  is_prefix sub s ||
  match s with
  | [] => false
  | _ :: s' => py_contains sub s'
  end.

(** [s.split(sep)] for a non-empty separator: the pieces between the
    non-overlapping occurrences of [sep], scanned left to right.  [cur] is
    the current piece, reversed.  Each step consumes a character, so
    [S (length s)] steps suffice. *)
Fixpoint split_go (fuel : nat) (sep s cur : pystr) : list pystr :=
  match fuel with
  | O => [rev cur ++ s]
  | S f =>
      match s with
      | [] => [rev cur]
      | x :: r =>
          if is_prefix sep s
          then rev cur :: split_go f sep (skipn (length sep) s) []
          else split_go f sep r (x :: cur)
      end
  end.

(** The source only splits on non-empty separators ("\n" and "## "); Python
    raises ValueError on an empty one, which never happens here. *)
Definition py_split (s sep : pystr) : list pystr :=
  match sep with
  | [] => [s]
  | _ => split_go (S (length s)) sep s []
  end.

(** [s.replace(old, new)]: every non-overlapping occurrence, left to right. *)
Fixpoint replace_go (fuel : nat) (old new s : pystr) : pystr :=
  match fuel with
  | O => s
  | S f =>
      match s with
      | [] => []
      | x :: r =>
          if is_prefix old s
          then new ++ replace_go f old new (skipn (length old) s)
          else x :: replace_go f old new r
      end
  end.

Definition py_replace (s old new : pystr) : pystr :=
  match old with
  | [] => new ++ flat_map (fun c => c :: new) s
  | _ => replace_go (S (length s)) old new s
  end.

(** [str.isspace] on one code point. *)
Definition py_isspace (c : Z) : bool :=
  ((9 <=? c) && (c <=? 13)) || ((28 <=? c) && (c <=? 31)) || (c =? 32)
  || (c =? 133) || (c =? 160) || (c =? 5760)
  || ((8192 <=? c) && (c <=? 8202)) || (c =? 8232) || (c =? 8233)
  || (c =? 8239) || (c =? 8287) || (c =? 12288).

Fixpoint lstrip (s : pystr) : pystr :=
  match s with
  | [] => []
  | x :: r => if py_isspace x then lstrip r else s
  end.

(** [s.strip()] *)
Definition py_strip (s : pystr) : pystr := rev (lstrip (rev (lstrip s))).

(** Upper-case form of one code point.  Exact on ASCII and on every code
    point whose upper-case form contains an ASCII letter (the special
    casings of U+00DF, U+0149, U+01F0, U+1E96..U+1E9A, U+FB00..U+FB06 and the
    simple mappings of U+0131 and U+017F); any other code point is kept, and
    its upper-case form, like itself, has no ASCII character.  The source
    only tests ASCII keywords for membership in [line.upper()], for which
    this is exact. *)
Definition upper_char (c : Z) : pystr :=
  if (97 <=? c) && (c <=? 122) then [c - 32]
  else if c =? 223 then [83; 83]
  else if c =? 305 then [73]
  else if c =? 383 then [83]
  else if c =? 329 then [700; 78]
  else if c =? 496 then [74; 780]
  else if c =? 7830 then [72; 817]
  else if c =? 7831 then [84; 776]
  else if c =? 7832 then [87; 778]
  else if c =? 7833 then [89; 778]
  else if c =? 7834 then [65; 702]
  else if c =? 64256 then [70; 70]
  else if c =? 64257 then [70; 73]
  else if c =? 64258 then [70; 76]
  else if c =? 64259 then [70; 70; 73]
  else if c =? 64260 then [70; 70; 76]
  else if c =? 64261 then [83; 84]
  else if c =? 64262 then [83; 84]
  else [c].

(** [s.upper()] *)
Definition py_upper (s : pystr) : pystr := flat_map upper_char s.

Definition is_ascii_upper (c : Z) : bool := (65 <=? c) && (c <=? 90).

(* ------------------------------------------------------------------ *)
(** ** Unicode character data (Unicode 14.0.0, as in CPython 3.11)

    The tables below are the character properties the source relies on,
    taken from CPython 3.11's [unicodedata] database: the decimal digits
    (category Nd, in blocks of ten consecutive code points from a zero), the
    code points [str.isprintable] refuses (from U+0080 on), the cased and the
    case-ignorable code points, and the title-case and lower-case mappings.
    A run [(lo, hi, stride, delta)] maps [lo], [lo + stride], ..., [hi] to
    the code point [delta] further; the title-case forms of more than one
    code point are listed one by one. *)

Definition decimal_zeros : list Z :=
  [48; 1632; 1776; 1984; 2406; 2534; 2662; 2790; 2918; 3046; 3174; 3302;
   3430; 3558; 3664; 3792; 3872; 4160; 4240; 6112; 6160; 6470; 6608; 6784;
   6800; 6992; 7088; 7232; 7248; 42528; 43216; 43264; 43472; 43504; 43600; 44016;
   65296; 66720; 68912; 69734; 69872; 69942; 70096; 70384; 70736; 70864; 71248; 71360;
   71472; 71904; 72016; 72784; 73040; 73120; 92768; 92864; 93008; 120782; 120792; 120802;
   120812; 120822; 123200; 123632; 125264; 130032].

Definition nonprintable_ranges : list (Z * Z) :=
  [(128, 160); (173, 173); (888, 889); (896, 899); (907, 907); (909, 909);
   (930, 930); (1328, 1328); (1367, 1368); (1419, 1420); (1424, 1424); (1480, 1487);
   (1515, 1518); (1525, 1541); (1564, 1564); (1757, 1757); (1806, 1807); (1867, 1868);
   (1970, 1983); (2043, 2044); (2094, 2095); (2111, 2111); (2140, 2141); (2143, 2143);
   (2155, 2159); (2191, 2199); (2274, 2274); (2436, 2436); (2445, 2446); (2449, 2450);
   (2473, 2473); (2481, 2481); (2483, 2485); (2490, 2491); (2501, 2502); (2505, 2506);
   (2511, 2518); (2520, 2523); (2526, 2526); (2532, 2533); (2559, 2560); (2564, 2564);
   (2571, 2574); (2577, 2578); (2601, 2601); (2609, 2609); (2612, 2612); (2615, 2615);
   (2618, 2619); (2621, 2621); (2627, 2630); (2633, 2634); (2638, 2640); (2642, 2648);
   (2653, 2653); (2655, 2661); (2679, 2688); (2692, 2692); (2702, 2702); (2706, 2706);
   (2729, 2729); (2737, 2737); (2740, 2740); (2746, 2747); (2758, 2758); (2762, 2762);
   (2766, 2767); (2769, 2783); (2788, 2789); (2802, 2808); (2816, 2816); (2820, 2820);
   (2829, 2830); (2833, 2834); (2857, 2857); (2865, 2865); (2868, 2868); (2874, 2875);
   (2885, 2886); (2889, 2890); (2894, 2900); (2904, 2907); (2910, 2910); (2916, 2917);
   (2936, 2945); (2948, 2948); (2955, 2957); (2961, 2961); (2966, 2968); (2971, 2971);
   (2973, 2973); (2976, 2978); (2981, 2983); (2987, 2989); (3002, 3005); (3011, 3013);
   (3017, 3017); (3022, 3023); (3025, 3030); (3032, 3045); (3067, 3071); (3085, 3085);
   (3089, 3089); (3113, 3113); (3130, 3131); (3141, 3141); (3145, 3145); (3150, 3156);
   (3159, 3159); (3163, 3164); (3166, 3167); (3172, 3173); (3184, 3190); (3213, 3213);
   (3217, 3217); (3241, 3241); (3252, 3252); (3258, 3259); (3269, 3269); (3273, 3273);
   (3278, 3284); (3287, 3292); (3295, 3295); (3300, 3301); (3312, 3312); (3315, 3327);
   (3341, 3341); (3345, 3345); (3397, 3397); (3401, 3401); (3408, 3411); (3428, 3429);
   (3456, 3456); (3460, 3460); (3479, 3481); (3506, 3506); (3516, 3516); (3518, 3519);
   (3527, 3529); (3531, 3534); (3541, 3541); (3543, 3543); (3552, 3557); (3568, 3569);
   (3573, 3584); (3643, 3646); (3676, 3712); (3715, 3715); (3717, 3717); (3723, 3723);
   (3748, 3748); (3750, 3750); (3774, 3775); (3781, 3781); (3783, 3783); (3790, 3791);
   (3802, 3803); (3808, 3839); (3912, 3912); (3949, 3952); (3992, 3992); (4029, 4029);
   (4045, 4045); (4059, 4095); (4294, 4294); (4296, 4300); (4302, 4303); (4681, 4681);
   (4686, 4687); (4695, 4695); (4697, 4697); (4702, 4703); (4745, 4745); (4750, 4751);
   (4785, 4785); (4790, 4791); (4799, 4799); (4801, 4801); (4806, 4807); (4823, 4823);
   (4881, 4881); (4886, 4887); (4955, 4956); (4989, 4991); (5018, 5023); (5110, 5111);
   (5118, 5119); (5760, 5760); (5789, 5791); (5881, 5887); (5910, 5918); (5943, 5951);
   (5972, 5983); (5997, 5997); (6001, 6001); (6004, 6015); (6110, 6111); (6122, 6127);
   (6138, 6143); (6158, 6158); (6170, 6175); (6265, 6271); (6315, 6319); (6390, 6399);
   (6431, 6431); (6444, 6447); (6460, 6463); (6465, 6467); (6510, 6511); (6517, 6527);
   (6572, 6575); (6602, 6607); (6619, 6621); (6684, 6685); (6751, 6751); (6781, 6782);
   (6794, 6799); (6810, 6815); (6830, 6831); (6863, 6911); (6989, 6991); (7039, 7039);
   (7156, 7163); (7224, 7226); (7242, 7244); (7305, 7311); (7355, 7356); (7368, 7375);
   (7419, 7423); (7958, 7959); (7966, 7967); (8006, 8007); (8014, 8015); (8024, 8024);
   (8026, 8026); (8028, 8028); (8030, 8030); (8062, 8063); (8117, 8117); (8133, 8133);
   (8148, 8149); (8156, 8156); (8176, 8177); (8181, 8181); (8191, 8207); (8232, 8239);
   (8287, 8303); (8306, 8307); (8335, 8335); (8349, 8351); (8385, 8399); (8433, 8447);
   (8588, 8591); (9255, 9279); (9291, 9311); (11124, 11125); (11158, 11158); (11508, 11512);
   (11558, 11558); (11560, 11564); (11566, 11567); (11624, 11630); (11633, 11646); (11671, 11679);
   (11687, 11687); (11695, 11695); (11703, 11703); (11711, 11711); (11719, 11719); (11727, 11727);
   (11735, 11735); (11743, 11743); (11870, 11903); (11930, 11930); (12020, 12031); (12246, 12271);
   (12284, 12288); (12352, 12352); (12439, 12440); (12544, 12548); (12592, 12592); (12687, 12687);
   (12772, 12783); (12831, 12831); (42125, 42127); (42183, 42191); (42540, 42559); (42744, 42751);
   (42955, 42959); (42962, 42962); (42964, 42964); (42970, 42993); (43053, 43055); (43066, 43071);
   (43128, 43135); (43206, 43213); (43226, 43231); (43348, 43358); (43389, 43391); (43470, 43470);
   (43482, 43485); (43519, 43519); (43575, 43583); (43598, 43599); (43610, 43611); (43715, 43738);
   (43767, 43776); (43783, 43784); (43791, 43792); (43799, 43807); (43815, 43815); (43823, 43823);
   (43884, 43887); (44014, 44015); (44026, 44031); (55204, 55215); (55239, 55242); (55292, 63743);
   (64110, 64111); (64218, 64255); (64263, 64274); (64280, 64284); (64311, 64311); (64317, 64317);
   (64319, 64319); (64322, 64322); (64325, 64325); (64451, 64466); (64912, 64913); (64968, 64974);
   (64976, 65007); (65050, 65055); (65107, 65107); (65127, 65127); (65132, 65135); (65141, 65141);
   (65277, 65280); (65471, 65473); (65480, 65481); (65488, 65489); (65496, 65497); (65501, 65503);
   (65511, 65511); (65519, 65531); (65534, 65535); (65548, 65548); (65575, 65575); (65595, 65595);
   (65598, 65598); (65614, 65615); (65630, 65663); (65787, 65791); (65795, 65798); (65844, 65846);
   (65935, 65935); (65949, 65951); (65953, 65999); (66046, 66175); (66205, 66207); (66257, 66271);
   (66300, 66303); (66340, 66348); (66379, 66383); (66427, 66431); (66462, 66462); (66500, 66503);
   (66518, 66559); (66718, 66719); (66730, 66735); (66772, 66775); (66812, 66815); (66856, 66863);
   (66916, 66926); (66939, 66939); (66955, 66955); (66963, 66963); (66966, 66966); (66978, 66978);
   (66994, 66994); (67002, 67002); (67005, 67071); (67383, 67391); (67414, 67423); (67432, 67455);
   (67462, 67462); (67505, 67505); (67515, 67583); (67590, 67591); (67593, 67593); (67638, 67638);
   (67641, 67643); (67645, 67646); (67670, 67670); (67743, 67750); (67760, 67807); (67827, 67827);
   (67830, 67834); (67868, 67870); (67898, 67902); (67904, 67967); (68024, 68027); (68048, 68049);
   (68100, 68100); (68103, 68107); (68116, 68116); (68120, 68120); (68150, 68151); (68155, 68158);
   (68169, 68175); (68185, 68191); (68256, 68287); (68327, 68330); (68343, 68351); (68406, 68408);
   (68438, 68439); (68467, 68471); (68498, 68504); (68509, 68520); (68528, 68607); (68681, 68735);
   (68787, 68799); (68851, 68857); (68904, 68911); (68922, 69215); (69247, 69247); (69290, 69290);
   (69294, 69295); (69298, 69375); (69416, 69423); (69466, 69487); (69514, 69551); (69580, 69599);
   (69623, 69631); (69710, 69713); (69750, 69758); (69821, 69821); (69827, 69839); (69865, 69871);
   (69882, 69887); (69941, 69941); (69960, 69967); (70007, 70015); (70112, 70112); (70133, 70143);
   (70162, 70162); (70207, 70271); (70279, 70279); (70281, 70281); (70286, 70286); (70302, 70302);
   (70314, 70319); (70379, 70383); (70394, 70399); (70404, 70404); (70413, 70414); (70417, 70418);
   (70441, 70441); (70449, 70449); (70452, 70452); (70458, 70458); (70469, 70470); (70473, 70474);
   (70478, 70479); (70481, 70486); (70488, 70492); (70500, 70501); (70509, 70511); (70517, 70655);
   (70748, 70748); (70754, 70783); (70856, 70863); (70874, 71039); (71094, 71095); (71134, 71167);
   (71237, 71247); (71258, 71263); (71277, 71295); (71354, 71359); (71370, 71423); (71451, 71452);
   (71468, 71471); (71495, 71679); (71740, 71839); (71923, 71934); (71943, 71944); (71946, 71947);
   (71956, 71956); (71959, 71959); (71990, 71990); (71993, 71994); (72007, 72015); (72026, 72095);
   (72104, 72105); (72152, 72153); (72165, 72191); (72264, 72271); (72355, 72367); (72441, 72703);
   (72713, 72713); (72759, 72759); (72774, 72783); (72813, 72815); (72848, 72849); (72872, 72872);
   (72887, 72959); (72967, 72967); (72970, 72970); (73015, 73017); (73019, 73019); (73022, 73022);
   (73032, 73039); (73050, 73055); (73062, 73062); (73065, 73065); (73103, 73103); (73106, 73106);
   (73113, 73119); (73130, 73439); (73465, 73647); (73649, 73663); (73714, 73726); (74650, 74751);
   (74863, 74863); (74869, 74879); (75076, 77711); (77811, 77823); (78895, 82943); (83527, 92159);
   (92729, 92735); (92767, 92767); (92778, 92781); (92863, 92863); (92874, 92879); (92910, 92911);
   (92918, 92927); (92998, 93007); (93018, 93018); (93026, 93026); (93048, 93052); (93072, 93759);
   (93851, 93951); (94027, 94030); (94088, 94094); (94112, 94175); (94181, 94191); (94194, 94207);
   (100344, 100351); (101590, 101631); (101641, 110575); (110580, 110580); (110588, 110588); (110591, 110591);
   (110883, 110927); (110931, 110947); (110952, 110959); (111356, 113663); (113771, 113775); (113789, 113791);
   (113801, 113807); (113818, 113819); (113824, 118527); (118574, 118575); (118599, 118607); (118724, 118783);
   (119030, 119039); (119079, 119080); (119155, 119162); (119275, 119295); (119366, 119519); (119540, 119551);
   (119639, 119647); (119673, 119807); (119893, 119893); (119965, 119965); (119968, 119969); (119971, 119972);
   (119975, 119976); (119981, 119981); (119994, 119994); (119996, 119996); (120004, 120004); (120070, 120070);
   (120075, 120076); (120085, 120085); (120093, 120093); (120122, 120122); (120127, 120127); (120133, 120133);
   (120135, 120137); (120145, 120145); (120486, 120487); (120780, 120781); (121484, 121498); (121504, 121504);
   (121520, 122623); (122655, 122879); (122887, 122887); (122905, 122906); (122914, 122914); (122917, 122917);
   (122923, 123135); (123181, 123183); (123198, 123199); (123210, 123213); (123216, 123535); (123567, 123583);
   (123642, 123646); (123648, 124895); (124903, 124903); (124908, 124908); (124911, 124911); (124927, 124927);
   (125125, 125126); (125143, 125183); (125260, 125263); (125274, 125277); (125280, 126064); (126133, 126208);
   (126270, 126463); (126468, 126468); (126496, 126496); (126499, 126499); (126501, 126502); (126504, 126504);
   (126515, 126515); (126520, 126520); (126522, 126522); (126524, 126529); (126531, 126534); (126536, 126536);
   (126538, 126538); (126540, 126540); (126544, 126544); (126547, 126547); (126549, 126550); (126552, 126552);
   (126554, 126554); (126556, 126556); (126558, 126558); (126560, 126560); (126563, 126563); (126565, 126566);
   (126571, 126571); (126579, 126579); (126584, 126584); (126589, 126589); (126591, 126591); (126602, 126602);
   (126620, 126624); (126628, 126628); (126634, 126634); (126652, 126703); (126706, 126975); (127020, 127023);
   (127124, 127135); (127151, 127152); (127168, 127168); (127184, 127184); (127222, 127231); (127406, 127461);
   (127491, 127503); (127548, 127551); (127561, 127567); (127570, 127583); (127590, 127743); (128728, 128732);
   (128749, 128751); (128765, 128767); (128884, 128895); (128985, 128991); (129004, 129007); (129009, 129023);
   (129036, 129039); (129096, 129103); (129114, 129119); (129160, 129167); (129198, 129199); (129202, 129279);
   (129620, 129631); (129646, 129647); (129653, 129655); (129661, 129663); (129671, 129679); (129709, 129711);
   (129723, 129727); (129734, 129743); (129754, 129759); (129768, 129775); (129783, 129791); (129939, 129939);
   (129995, 130031); (130042, 131071); (173792, 173823); (177977, 177983); (178206, 178207); (183970, 183983);
   (191457, 194559); (195102, 196607); (201547, 917759); (918000, 1114111)].

Definition cased_ranges : list (Z * Z) :=
  [(65, 90); (97, 122); (170, 170); (181, 181); (186, 186); (192, 214);
   (216, 246); (248, 442); (444, 447); (452, 659); (661, 696); (704, 705);
   (736, 740); (837, 837); (880, 883); (886, 887); (890, 893); (895, 895);
   (902, 902); (904, 906); (908, 908); (910, 929); (931, 1013); (1015, 1153);
   (1162, 1327); (1329, 1366); (1376, 1416); (4256, 4293); (4295, 4295); (4301, 4301);
   (4304, 4346); (4349, 4351); (5024, 5109); (5112, 5117); (7296, 7304); (7312, 7354);
   (7357, 7359); (7424, 7615); (7680, 7957); (7960, 7965); (7968, 8005); (8008, 8013);
   (8016, 8023); (8025, 8025); (8027, 8027); (8029, 8029); (8031, 8061); (8064, 8116);
   (8118, 8124); (8126, 8126); (8130, 8132); (8134, 8140); (8144, 8147); (8150, 8155);
   (8160, 8172); (8178, 8180); (8182, 8188); (8305, 8305); (8319, 8319); (8336, 8348);
   (8450, 8450); (8455, 8455); (8458, 8467); (8469, 8469); (8473, 8477); (8484, 8484);
   (8486, 8486); (8488, 8488); (8490, 8493); (8495, 8500); (8505, 8505); (8508, 8511);
   (8517, 8521); (8526, 8526); (8544, 8575); (8579, 8580); (9398, 9449); (11264, 11492);
   (11499, 11502); (11506, 11507); (11520, 11557); (11559, 11559); (11565, 11565); (42560, 42605);
   (42624, 42653); (42786, 42887); (42891, 42894); (42896, 42954); (42960, 42961); (42963, 42963);
   (42965, 42969); (42997, 42998); (43000, 43002); (43824, 43866); (43868, 43880); (43888, 43967);
   (64256, 64262); (64275, 64279); (65313, 65338); (65345, 65370); (66560, 66639); (66736, 66771);
   (66776, 66811); (66928, 66938); (66940, 66954); (66956, 66962); (66964, 66965); (66967, 66977);
   (66979, 66993); (66995, 67001); (67003, 67004); (67456, 67456); (67459, 67461); (67463, 67504);
   (67506, 67514); (68736, 68786); (68800, 68850); (71840, 71903); (93760, 93823); (119808, 119892);
   (119894, 119964); (119966, 119967); (119970, 119970); (119973, 119974); (119977, 119980); (119982, 119993);
   (119995, 119995); (119997, 120003); (120005, 120069); (120071, 120074); (120077, 120084); (120086, 120092);
   (120094, 120121); (120123, 120126); (120128, 120132); (120134, 120134); (120138, 120144); (120146, 120485);
   (120488, 120512); (120514, 120538); (120540, 120570); (120572, 120596); (120598, 120628); (120630, 120654);
   (120656, 120686); (120688, 120712); (120714, 120744); (120746, 120770); (120772, 120779); (122624, 122633);
   (122635, 122654); (125184, 125251); (127280, 127305); (127312, 127337); (127344, 127369)].

Definition case_ignorable_ranges : list (Z * Z) :=
  [(39, 39); (46, 46); (58, 58); (94, 94); (96, 96); (168, 168);
   (173, 173); (175, 175); (180, 180); (183, 184); (688, 879); (884, 885);
   (890, 890); (900, 901); (903, 903); (1155, 1161); (1369, 1369); (1375, 1375);
   (1425, 1469); (1471, 1471); (1473, 1474); (1476, 1477); (1479, 1479); (1524, 1524);
   (1536, 1541); (1552, 1562); (1564, 1564); (1600, 1600); (1611, 1631); (1648, 1648);
   (1750, 1757); (1759, 1768); (1770, 1773); (1807, 1807); (1809, 1809); (1840, 1866);
   (1958, 1968); (2027, 2037); (2042, 2042); (2045, 2045); (2070, 2093); (2137, 2139);
   (2184, 2184); (2192, 2193); (2200, 2207); (2249, 2306); (2362, 2362); (2364, 2364);
   (2369, 2376); (2381, 2381); (2385, 2391); (2402, 2403); (2417, 2417); (2433, 2433);
   (2492, 2492); (2497, 2500); (2509, 2509); (2530, 2531); (2558, 2558); (2561, 2562);
   (2620, 2620); (2625, 2626); (2631, 2632); (2635, 2637); (2641, 2641); (2672, 2673);
   (2677, 2677); (2689, 2690); (2748, 2748); (2753, 2757); (2759, 2760); (2765, 2765);
   (2786, 2787); (2810, 2815); (2817, 2817); (2876, 2876); (2879, 2879); (2881, 2884);
   (2893, 2893); (2901, 2902); (2914, 2915); (2946, 2946); (3008, 3008); (3021, 3021);
   (3072, 3072); (3076, 3076); (3132, 3132); (3134, 3136); (3142, 3144); (3146, 3149);
   (3157, 3158); (3170, 3171); (3201, 3201); (3260, 3260); (3263, 3263); (3270, 3270);
   (3276, 3277); (3298, 3299); (3328, 3329); (3387, 3388); (3393, 3396); (3405, 3405);
   (3426, 3427); (3457, 3457); (3530, 3530); (3538, 3540); (3542, 3542); (3633, 3633);
   (3636, 3642); (3654, 3662); (3761, 3761); (3764, 3772); (3782, 3782); (3784, 3789);
   (3864, 3865); (3893, 3893); (3895, 3895); (3897, 3897); (3953, 3966); (3968, 3972);
   (3974, 3975); (3981, 3991); (3993, 4028); (4038, 4038); (4141, 4144); (4146, 4151);
   (4153, 4154); (4157, 4158); (4184, 4185); (4190, 4192); (4209, 4212); (4226, 4226);
   (4229, 4230); (4237, 4237); (4253, 4253); (4348, 4348); (4957, 4959); (5906, 5908);
   (5938, 5939); (5970, 5971); (6002, 6003); (6068, 6069); (6071, 6077); (6086, 6086);
   (6089, 6099); (6103, 6103); (6109, 6109); (6155, 6159); (6211, 6211); (6277, 6278);
   (6313, 6313); (6432, 6434); (6439, 6440); (6450, 6450); (6457, 6459); (6679, 6680);
   (6683, 6683); (6742, 6742); (6744, 6750); (6752, 6752); (6754, 6754); (6757, 6764);
   (6771, 6780); (6783, 6783); (6823, 6823); (6832, 6862); (6912, 6915); (6964, 6964);
   (6966, 6970); (6972, 6972); (6978, 6978); (7019, 7027); (7040, 7041); (7074, 7077);
   (7080, 7081); (7083, 7085); (7142, 7142); (7144, 7145); (7149, 7149); (7151, 7153);
   (7212, 7219); (7222, 7223); (7288, 7293); (7376, 7378); (7380, 7392); (7394, 7400);
   (7405, 7405); (7412, 7412); (7416, 7417); (7468, 7530); (7544, 7544); (7579, 7679);
   (8125, 8125); (8127, 8129); (8141, 8143); (8157, 8159); (8173, 8175); (8189, 8190);
   (8203, 8207); (8216, 8217); (8228, 8228); (8231, 8231); (8234, 8238); (8288, 8292);
   (8294, 8303); (8305, 8305); (8319, 8319); (8336, 8348); (8400, 8432); (11388, 11389);
   (11503, 11505); (11631, 11631); (11647, 11647); (11744, 11775); (11823, 11823); (12293, 12293);
   (12330, 12333); (12337, 12341); (12347, 12347); (12441, 12446); (12540, 12542); (40981, 40981);
   (42232, 42237); (42508, 42508); (42607, 42610); (42612, 42621); (42623, 42623); (42652, 42655);
   (42736, 42737); (42752, 42785); (42864, 42864); (42888, 42890); (42994, 42996); (43000, 43001);
   (43010, 43010); (43014, 43014); (43019, 43019); (43045, 43046); (43052, 43052); (43204, 43205);
   (43232, 43249); (43263, 43263); (43302, 43309); (43335, 43345); (43392, 43394); (43443, 43443);
   (43446, 43449); (43452, 43453); (43471, 43471); (43493, 43494); (43561, 43566); (43569, 43570);
   (43573, 43574); (43587, 43587); (43596, 43596); (43632, 43632); (43644, 43644); (43696, 43696);
   (43698, 43700); (43703, 43704); (43710, 43711); (43713, 43713); (43741, 43741); (43756, 43757);
   (43763, 43764); (43766, 43766); (43867, 43871); (43881, 43883); (44005, 44005); (44008, 44008);
   (44013, 44013); (64286, 64286); (64434, 64450); (65024, 65039); (65043, 65043); (65056, 65071);
   (65106, 65106); (65109, 65109); (65279, 65279); (65287, 65287); (65294, 65294); (65306, 65306);
   (65342, 65342); (65344, 65344); (65392, 65392); (65438, 65439); (65507, 65507); (65529, 65531);
   (66045, 66045); (66272, 66272); (66422, 66426); (67456, 67461); (67463, 67504); (67506, 67514);
   (68097, 68099); (68101, 68102); (68108, 68111); (68152, 68154); (68159, 68159); (68325, 68326);
   (68900, 68903); (69291, 69292); (69446, 69456); (69506, 69509); (69633, 69633); (69688, 69702);
   (69744, 69744); (69747, 69748); (69759, 69761); (69811, 69814); (69817, 69818); (69821, 69821);
   (69826, 69826); (69837, 69837); (69888, 69890); (69927, 69931); (69933, 69940); (70003, 70003);
   (70016, 70017); (70070, 70078); (70089, 70092); (70095, 70095); (70191, 70193); (70196, 70196);
   (70198, 70199); (70206, 70206); (70367, 70367); (70371, 70378); (70400, 70401); (70459, 70460);
   (70464, 70464); (70502, 70508); (70512, 70516); (70712, 70719); (70722, 70724); (70726, 70726);
   (70750, 70750); (70835, 70840); (70842, 70842); (70847, 70848); (70850, 70851); (71090, 71093);
   (71100, 71101); (71103, 71104); (71132, 71133); (71219, 71226); (71229, 71229); (71231, 71232);
   (71339, 71339); (71341, 71341); (71344, 71349); (71351, 71351); (71453, 71455); (71458, 71461);
   (71463, 71467); (71727, 71735); (71737, 71738); (71995, 71996); (71998, 71998); (72003, 72003);
   (72148, 72151); (72154, 72155); (72160, 72160); (72193, 72202); (72243, 72248); (72251, 72254);
   (72263, 72263); (72273, 72278); (72281, 72283); (72330, 72342); (72344, 72345); (72752, 72758);
   (72760, 72765); (72767, 72767); (72850, 72871); (72874, 72880); (72882, 72883); (72885, 72886);
   (73009, 73014); (73018, 73018); (73020, 73021); (73023, 73029); (73031, 73031); (73104, 73105);
   (73109, 73109); (73111, 73111); (73459, 73460); (78896, 78904); (92912, 92916); (92976, 92982);
   (92992, 92995); (94031, 94031); (94095, 94111); (94176, 94177); (94179, 94180); (110576, 110579);
   (110581, 110587); (110589, 110590); (113821, 113822); (113824, 113827); (118528, 118573); (118576, 118598);
   (119143, 119145); (119155, 119170); (119173, 119179); (119210, 119213); (119362, 119364); (121344, 121398);
   (121403, 121452); (121461, 121461); (121476, 121476); (121499, 121503); (121505, 121519); (122880, 122886);
   (122888, 122904); (122907, 122913); (122915, 122916); (122918, 122922); (123184, 123197); (123566, 123566);
   (123628, 123631); (125136, 125142); (125252, 125259); (127995, 127999); (917505, 917505); (917536, 917631);
   (917760, 917999)].

Definition title_runs : list (Z * Z * Z * Z) :=
  [(97, 122, 1, -32); (181, 181, 1, 743); (224, 246, 1, -32); (248, 254, 1, -32);
   (255, 255, 1, 121); (257, 303, 2, -1); (305, 305, 1, -232); (307, 311, 2, -1);
   (314, 328, 2, -1); (331, 375, 2, -1); (378, 382, 2, -1); (383, 383, 1, -300);
   (384, 384, 1, 195); (387, 389, 2, -1); (392, 392, 1, -1); (396, 396, 1, -1);
   (402, 402, 1, -1); (405, 405, 1, 97); (409, 409, 1, -1); (410, 410, 1, 163);
   (414, 414, 1, 130); (417, 421, 2, -1); (424, 424, 1, -1); (429, 429, 1, -1);
   (432, 432, 1, -1); (436, 438, 2, -1); (441, 441, 1, -1); (445, 445, 1, -1);
   (447, 447, 1, 56); (452, 452, 1, 1); (454, 454, 1, -1); (455, 455, 1, 1);
   (457, 457, 1, -1); (458, 458, 1, 1); (460, 476, 2, -1); (477, 477, 1, -79);
   (479, 495, 2, -1); (497, 497, 1, 1); (499, 501, 2, -1); (505, 543, 2, -1);
   (547, 563, 2, -1); (572, 572, 1, -1); (575, 576, 1, 10815); (578, 578, 1, -1);
   (583, 591, 2, -1); (592, 592, 1, 10783); (593, 593, 1, 10780); (594, 594, 1, 10782);
   (595, 595, 1, -210); (596, 596, 1, -206); (598, 599, 1, -205); (601, 601, 1, -202);
   (603, 603, 1, -203); (604, 604, 1, 42319); (608, 608, 1, -205); (609, 609, 1, 42315);
   (611, 611, 1, -207); (613, 613, 1, 42280); (614, 614, 1, 42308); (616, 616, 1, -209);
   (617, 617, 1, -211); (618, 618, 1, 42308); (619, 619, 1, 10743); (620, 620, 1, 42305);
   (623, 623, 1, -211); (625, 625, 1, 10749); (626, 626, 1, -213); (629, 629, 1, -214);
   (637, 637, 1, 10727); (640, 640, 1, -218); (642, 642, 1, 42307); (643, 643, 1, -218);
   (647, 647, 1, 42282); (648, 648, 1, -218); (649, 649, 1, -69); (650, 651, 1, -217);
   (652, 652, 1, -71); (658, 658, 1, -219); (669, 669, 1, 42261); (670, 670, 1, 42258);
   (837, 837, 1, 84); (881, 883, 2, -1); (887, 887, 1, -1); (891, 893, 1, 130);
   (940, 940, 1, -38); (941, 943, 1, -37); (945, 961, 1, -32); (962, 962, 1, -31);
   (963, 971, 1, -32); (972, 972, 1, -64); (973, 974, 1, -63); (976, 976, 1, -62);
   (977, 977, 1, -57); (981, 981, 1, -47); (982, 982, 1, -54); (983, 983, 1, -8);
   (985, 1007, 2, -1); (1008, 1008, 1, -86); (1009, 1009, 1, -80); (1010, 1010, 1, 7);
   (1011, 1011, 1, -116); (1013, 1013, 1, -96); (1016, 1016, 1, -1); (1019, 1019, 1, -1);
   (1072, 1103, 1, -32); (1104, 1119, 1, -80); (1121, 1153, 2, -1); (1163, 1215, 2, -1);
   (1218, 1230, 2, -1); (1231, 1231, 1, -15); (1233, 1327, 2, -1); (1377, 1414, 1, -48);
   (5112, 5117, 1, -8); (7296, 7296, 1, -6254); (7297, 7297, 1, -6253); (7298, 7298, 1, -6244);
   (7299, 7300, 1, -6242); (7301, 7301, 1, -6243); (7302, 7302, 1, -6236); (7303, 7303, 1, -6181);
   (7304, 7304, 1, 35266); (7545, 7545, 1, 35332); (7549, 7549, 1, 3814); (7566, 7566, 1, 35384);
   (7681, 7829, 2, -1); (7835, 7835, 1, -59); (7841, 7935, 2, -1); (7936, 7943, 1, 8);
   (7952, 7957, 1, 8); (7968, 7975, 1, 8); (7984, 7991, 1, 8); (8000, 8005, 1, 8);
   (8017, 8023, 2, 8); (8032, 8039, 1, 8); (8048, 8049, 1, 74); (8050, 8053, 1, 86);
   (8054, 8055, 1, 100); (8056, 8057, 1, 128); (8058, 8059, 1, 112); (8060, 8061, 1, 126);
   (8064, 8071, 1, 8); (8080, 8087, 1, 8); (8096, 8103, 1, 8); (8112, 8113, 1, 8);
   (8115, 8115, 1, 9); (8126, 8126, 1, -7205); (8131, 8131, 1, 9); (8144, 8145, 1, 8);
   (8160, 8161, 1, 8); (8165, 8165, 1, 7); (8179, 8179, 1, 9); (8526, 8526, 1, -28);
   (8560, 8575, 1, -16); (8580, 8580, 1, -1); (9424, 9449, 1, -26); (11312, 11359, 1, -48);
   (11361, 11361, 1, -1); (11365, 11365, 1, -10795); (11366, 11366, 1, -10792); (11368, 11372, 2, -1);
   (11379, 11379, 1, -1); (11382, 11382, 1, -1); (11393, 11491, 2, -1); (11500, 11502, 2, -1);
   (11507, 11507, 1, -1); (11520, 11557, 1, -7264); (11559, 11559, 1, -7264); (11565, 11565, 1, -7264);
   (42561, 42605, 2, -1); (42625, 42651, 2, -1); (42787, 42799, 2, -1); (42803, 42863, 2, -1);
   (42874, 42876, 2, -1); (42879, 42887, 2, -1); (42892, 42892, 1, -1); (42897, 42899, 2, -1);
   (42900, 42900, 1, 48); (42903, 42921, 2, -1); (42933, 42947, 2, -1); (42952, 42954, 2, -1);
   (42961, 42961, 1, -1); (42967, 42969, 2, -1); (42998, 42998, 1, -1); (43859, 43859, 1, -928);
   (43888, 43967, 1, -38864); (65345, 65370, 1, -32); (66600, 66639, 1, -40); (66776, 66811, 1, -40);
   (66967, 66977, 1, -39); (66979, 66993, 1, -39); (66995, 67001, 1, -39); (67003, 67004, 1, -39);
   (68800, 68850, 1, -64); (71872, 71903, 1, -32); (93792, 93823, 1, -32); (125218, 125251, 1, -34)].

Definition title_special : list (Z * pystr) :=
  [(223, [83; 115]);
   (329, [700; 78]);
   (496, [74; 780]);
   (912, [921; 776; 769]);
   (944, [933; 776; 769]);
   (1415, [1333; 1410]);
   (7830, [72; 817]);
   (7831, [84; 776]);
   (7832, [87; 778]);
   (7833, [89; 778]);
   (7834, [65; 702]);
   (8016, [933; 787]);
   (8018, [933; 787; 768]);
   (8020, [933; 787; 769]);
   (8022, [933; 787; 834]);
   (8114, [8122; 837]);
   (8116, [902; 837]);
   (8118, [913; 834]);
   (8119, [913; 834; 837]);
   (8130, [8138; 837]);
   (8132, [905; 837]);
   (8134, [919; 834]);
   (8135, [919; 834; 837]);
   (8146, [921; 776; 768]);
   (8147, [921; 776; 769]);
   (8150, [921; 834]);
   (8151, [921; 776; 834]);
   (8162, [933; 776; 768]);
   (8163, [933; 776; 769]);
   (8164, [929; 787]);
   (8166, [933; 834]);
   (8167, [933; 776; 834]);
   (8178, [8186; 837]);
   (8180, [911; 837]);
   (8182, [937; 834]);
   (8183, [937; 834; 837]);
   (64256, [70; 102]);
   (64257, [70; 105]);
   (64258, [70; 108]);
   (64259, [70; 102; 105]);
   (64260, [70; 102; 108]);
   (64261, [83; 116]);
   (64262, [83; 116]);
   (64275, [1348; 1398]);
   (64276, [1348; 1381]);
   (64277, [1348; 1387]);
   (64278, [1358; 1398]);
   (64279, [1348; 1389])].

Definition lower_runs : list (Z * Z * Z * Z) :=
  [(65, 90, 1, 32); (192, 214, 1, 32); (216, 222, 1, 32); (256, 302, 2, 1);
   (306, 310, 2, 1); (313, 327, 2, 1); (330, 374, 2, 1); (376, 376, 1, -121);
   (377, 381, 2, 1); (385, 385, 1, 210); (386, 388, 2, 1); (390, 390, 1, 206);
   (391, 391, 1, 1); (393, 394, 1, 205); (395, 395, 1, 1); (398, 398, 1, 79);
   (399, 399, 1, 202); (400, 400, 1, 203); (401, 401, 1, 1); (403, 403, 1, 205);
   (404, 404, 1, 207); (406, 406, 1, 211); (407, 407, 1, 209); (408, 408, 1, 1);
   (412, 412, 1, 211); (413, 413, 1, 213); (415, 415, 1, 214); (416, 420, 2, 1);
   (422, 422, 1, 218); (423, 423, 1, 1); (425, 425, 1, 218); (428, 428, 1, 1);
   (430, 430, 1, 218); (431, 431, 1, 1); (433, 434, 1, 217); (435, 437, 2, 1);
   (439, 439, 1, 219); (440, 440, 1, 1); (444, 444, 1, 1); (452, 452, 1, 2);
   (453, 453, 1, 1); (455, 455, 1, 2); (456, 456, 1, 1); (458, 458, 1, 2);
   (459, 475, 2, 1); (478, 494, 2, 1); (497, 497, 1, 2); (498, 500, 2, 1);
   (502, 502, 1, -97); (503, 503, 1, -56); (504, 542, 2, 1); (544, 544, 1, -130);
   (546, 562, 2, 1); (570, 570, 1, 10795); (571, 571, 1, 1); (573, 573, 1, -163);
   (574, 574, 1, 10792); (577, 577, 1, 1); (579, 579, 1, -195); (580, 580, 1, 69);
   (581, 581, 1, 71); (582, 590, 2, 1); (880, 882, 2, 1); (886, 886, 1, 1);
   (895, 895, 1, 116); (902, 902, 1, 38); (904, 906, 1, 37); (908, 908, 1, 64);
   (910, 911, 1, 63); (913, 929, 1, 32); (931, 939, 1, 32); (975, 975, 1, 8);
   (984, 1006, 2, 1); (1012, 1012, 1, -60); (1015, 1015, 1, 1); (1017, 1017, 1, -7);
   (1018, 1018, 1, 1); (1021, 1023, 1, -130); (1024, 1039, 1, 80); (1040, 1071, 1, 32);
   (1120, 1152, 2, 1); (1162, 1214, 2, 1); (1216, 1216, 1, 15); (1217, 1229, 2, 1);
   (1232, 1326, 2, 1); (1329, 1366, 1, 48); (4256, 4293, 1, 7264); (4295, 4295, 1, 7264);
   (4301, 4301, 1, 7264); (5024, 5103, 1, 38864); (5104, 5109, 1, 8); (7312, 7354, 1, -3008);
   (7357, 7359, 1, -3008); (7680, 7828, 2, 1); (7838, 7838, 1, -7615); (7840, 7934, 2, 1);
   (7944, 7951, 1, -8); (7960, 7965, 1, -8); (7976, 7983, 1, -8); (7992, 7999, 1, -8);
   (8008, 8013, 1, -8); (8025, 8031, 2, -8); (8040, 8047, 1, -8); (8072, 8079, 1, -8);
   (8088, 8095, 1, -8); (8104, 8111, 1, -8); (8120, 8121, 1, -8); (8122, 8123, 1, -74);
   (8124, 8124, 1, -9); (8136, 8139, 1, -86); (8140, 8140, 1, -9); (8152, 8153, 1, -8);
   (8154, 8155, 1, -100); (8168, 8169, 1, -8); (8170, 8171, 1, -112); (8172, 8172, 1, -7);
   (8184, 8185, 1, -128); (8186, 8187, 1, -126); (8188, 8188, 1, -9); (8486, 8486, 1, -7517);
   (8490, 8490, 1, -8383); (8491, 8491, 1, -8262); (8498, 8498, 1, 28); (8544, 8559, 1, 16);
   (8579, 8579, 1, 1); (9398, 9423, 1, 26); (11264, 11311, 1, 48); (11360, 11360, 1, 1);
   (11362, 11362, 1, -10743); (11363, 11363, 1, -3814); (11364, 11364, 1, -10727); (11367, 11371, 2, 1);
   (11373, 11373, 1, -10780); (11374, 11374, 1, -10749); (11375, 11375, 1, -10783); (11376, 11376, 1, -10782);
   (11378, 11378, 1, 1); (11381, 11381, 1, 1); (11390, 11391, 1, -10815); (11392, 11490, 2, 1);
   (11499, 11501, 2, 1); (11506, 11506, 1, 1); (42560, 42604, 2, 1); (42624, 42650, 2, 1);
   (42786, 42798, 2, 1); (42802, 42862, 2, 1); (42873, 42875, 2, 1); (42877, 42877, 1, -35332);
   (42878, 42886, 2, 1); (42891, 42891, 1, 1); (42893, 42893, 1, -42280); (42896, 42898, 2, 1);
   (42902, 42920, 2, 1); (42922, 42922, 1, -42308); (42923, 42923, 1, -42319); (42924, 42924, 1, -42315);
   (42925, 42925, 1, -42305); (42926, 42926, 1, -42308); (42928, 42928, 1, -42258); (42929, 42929, 1, -42282);
   (42930, 42930, 1, -42261); (42931, 42931, 1, 928); (42932, 42946, 2, 1); (42948, 42948, 1, -48);
   (42949, 42949, 1, -42307); (42950, 42950, 1, -35384); (42951, 42953, 2, 1); (42960, 42960, 1, 1);
   (42966, 42968, 2, 1); (42997, 42997, 1, 1); (65313, 65338, 1, 32); (66560, 66599, 1, 40);
   (66736, 66771, 1, 40); (66928, 66938, 1, 39); (66940, 66954, 1, 39); (66956, 66962, 1, 39);
   (66964, 66965, 1, 39); (68736, 68786, 1, 64); (71840, 71871, 1, 32); (93760, 93791, 1, 32);
   (125184, 125217, 1, 34)].

Definition in_ranges (rs : list (Z * Z)) (c : Z) : bool :=
  existsb (fun r => (fst r <=? c) && (c <=? snd r)) rs.

Fixpoint map_runs (rs : list (Z * Z * Z * Z)) (c : Z) : option Z :=
  match rs with
  | [] => None
  | (lo, hi, stride, delta) :: rest =>
      if (lo <=? c) && (c <=? hi) && ((c - lo) mod stride =? 0) then Some (c + delta)
      else map_runs rest c
  end.

(** [Py_UNICODE_TODECIMAL]: the value of a decimal digit. *)
Definition decimal_value (c : Z) : option Z :=
  match find (fun z => (z <=? c) && (c <=? z + 9)) decimal_zeros with
  | Some z => Some (c - z)
  | None => None
  end.

(** [Py_UNICODE_ISDECIMAL], the class of [\d] in a [str] pattern. *)
Definition is_decimal (c : Z) : bool :=
  match decimal_value c with Some _ => true | None => false end.

(** [Py_UNICODE_ISPRINTABLE] for a code point from U+0080 on. *)
Definition is_printable (c : Z) : bool := negb (in_ranges nonprintable_ranges c).

Definition is_cased (c : Z) : bool := in_ranges cased_ranges c.

Definition is_case_ignorable (c : Z) : bool := in_ranges case_ignorable_ranges c.

(** [_PyUnicode_ToTitleFull] *)
Definition to_title_full (c : Z) : pystr :=
  match find (fun p => fst p =? c) title_special with
  | Some (_, m) => m
  | None => match map_runs title_runs c with Some x => [x] | None => [c] end
  end.

(** [_PyUnicode_ToLowerFull]: U+0130 is the one code point whose lower-case
    form has two code points. *)
Definition to_lower_full (c : Z) : pystr :=
  if c =? 304 then [105; 775]
  else match map_runs lower_runs c with Some x => [x] | None => [c] end.

Fixpoint drop_while (p : Z -> bool) (s : pystr) : pystr :=
  match s with
  | c :: r => if p c then drop_while p r else s
  | [] => []
  end.

(** [handle_capital_sigma]: U+03A3 lowers to the final sigma U+03C2 when a
    cased character precedes it, case-ignorable ones apart, and no cased one
    follows it; [before] is the text before it, reversed. *)
Definition final_sigma (before after : pystr) : bool :=
  match drop_while is_case_ignorable before with
  | c :: _ =>
      is_cased c &&
      match drop_while is_case_ignorable after with
      | [] => true
      | c' :: _ => negb (is_cased c')
      end
  | [] => false
  end.

(** [do_title]: a character after a cased one is lowered ([lower_ucs4]),
    any other one is title-cased. *)
Fixpoint title_go (prev_cased : bool) (before s : pystr) : pystr :=
  match s with
  | [] => []
  | c :: r =>
      (if prev_cased
       then (if c =? 931 then [if final_sigma before r then 962 else 963] else to_lower_full c)
       else to_title_full c)
      ++ title_go (is_cased c) (c :: before) r
  end.

(** [s.title()] *)
Definition py_title (s : pystr) : pystr := title_go false [] s.

(** ASCII digits, those of JSON numbers and of [float()] after the
    conversion of other decimal digits. *)
Definition is_digit (c : Z) : bool := (48 <=? c) && (c <=? 57).

Fixpoint digits_prefix (s : pystr) : pystr * pystr :=
  match s with
  | c :: r =>
      if is_digit c then let (d, rest) := digits_prefix r in (c :: d, rest)
      else ([], s)
  | [] => ([], [])
  end.

(** The longest run of [\d] characters at the start of [s]. *)
Fixpoint decimal_prefix (s : pystr) : pystr * pystr :=
  match s with
  | c :: r =>
      if is_decimal c then let (d, rest) := decimal_prefix r in (c :: d, rest)
      else ([], s)
  | [] => ([], [])
  end.

(** [re.search(r'(\d+)%', s)], returning group 1.  At a start position the
    greedy digit run either is followed by '%' or no shorter run is (it would
    be followed by a digit), so the leftmost match is found as below.  [\d]
    is every Unicode decimal digit. *)
Fixpoint search_pct (s : pystr) : option pystr :=
  match s with
  | [] => None
  | _ :: r =>
      let (d, rest) := decimal_prefix s in
      match d, rest with
      | _ :: _, x :: _ => if x =? 37 then Some d else search_pct r
      | _, _ => search_pct r
      end
  end.

(** The value of a run of decimal digits. *)
Definition digits_value (d : pystr) : Z :=
  fold_left (fun acc c => acc * 10 + match decimal_value c with Some k => k | None => 0 end) d 0.

(** [str(n)] for an integer. *)
Fixpoint pos_digits (fuel : nat) (n : Z) (acc : pystr) : pystr :=
  match fuel with
  | O => acc
  | S f => if n <? 10 then (48 + n) :: acc
           else pos_digits f (n / 10) ((48 + n mod 10) :: acc)
  end.

Definition z_str (n : Z) : pystr :=
  let fuel := S (Z.to_nat (Z.log2 (Z.abs n))) in
  if n <? 0 then 45 :: pos_digits fuel (- n) [] else pos_digits fuel n [].

(** [sys.get_int_max_str_digits()], the default limit on the digits of a
    decimal [int] conversion. *)
Definition int_max_str_digits : nat := 4300.

Definition int_limit_message (digits : Z) : pystr :=
  t "Exceeds the limit (4300 digits) for integer string conversion: value has "
  ++ z_str digits ++ t " digits; use sys.set_int_max_str_digits() to increase the limit".

(* ------------------------------------------------------------------ *)
(** ** Python values *)

(** A float is kept as the literal it was read from: the source only
    passes such values on, never computes with them. *)
Inductive pyval : Type :=
| PyNone
| PyBool (b : bool)
| PyInt (z : Z)
| PyFloat (lit : pystr)
| PyStr (s : pystr)
| PyList (l : list pyval)
| PyDict (d : list (pystr * pyval)).

Fixpoint dict_get (d : list (pystr * pyval)) (k : pystr) : option pyval :=
  match d with
  | [] => None
  | (k', v) :: r => if list_eq_dec Z.eq_dec k k' then Some v else dict_get r k
  end.

(** [d[k] = v]: an existing key keeps its position. *)
Fixpoint dict_set (d : list (pystr * pyval)) (k : pystr) (v : pyval)
  : list (pystr * pyval) :=
  match d with
  | [] => [(k, v)]
  | (k', v') :: r =>
      if list_eq_dec Z.eq_dec k k' then (k', v) :: r else (k', v') :: dict_set r k v
  end.

(** A dict literal [{k1: v1, ...}]. *)
Definition mkdict (l : list (string * pyval)) : pyval :=
  PyDict (fold_left (fun d '(k, v) => dict_set d (t k) v) l []).

(** Lookup of a key in a value that is a dict. *)
Definition lookup_key (v : pyval) (k : pystr) : option pyval :=
  match v with PyDict d => dict_get d k | _ => None end.

Definition lookup (v : pyval) (k : string) : option pyval := lookup_key v (t k).

(* ------------------------------------------------------------------ *)
(** ** [json.loads] (CPython's C scanner, [strict=True])

    Each function reads a suffix of the input and returns the value with the
    rest of the input, or [None] when [json.loads] raises: a
    [JSONDecodeError]; a [RecursionError], when arrays and objects are nested
    deeper than the frames the interpreter has left ([depth]); or the
    [ValueError] of an [int] literal of more than 4300 digits.  Every caller
    in the source catches all of them with a bare [except:]. *)

Definition json_ws (c : Z) : bool := (c =? 32) || (c =? 9) || (c =? 10) || (c =? 13).

Fixpoint skip_ws (s : pystr) : pystr :=
  match s with
  | c :: r => if json_ws c then skip_ws r else s
  | [] => []
  end.

Definition hex_val (c : Z) : option Z :=
  if is_digit c then Some (c - 48)
  else if (97 <=? c) && (c <=? 102) then Some (c - 87)
  else if (65 <=? c) && (c <=? 70) then Some (c - 55)
  else None.

(** Four hex digits of a [\uXXXX] escape. *)
Definition hex4 (s : pystr) : option (Z * pystr) :=
  match s with
  | a :: b :: c :: d :: r =>
      match hex_val a, hex_val b, hex_val c, hex_val d with
      | Some a', Some b', Some c', Some d' => Some (((a' * 16 + b') * 16 + c') * 16 + d', r)
      | _, _, _, _ => None
      end
  | _ => None
  end.

Definition is_high_surrogate (u : Z) : bool := (55296 <=? u) && (u <=? 56319).
Definition is_low_surrogate (u : Z) : bool := (56320 <=? u) && (u <=? 57343).

(** The character a one-letter escape [\c] stands for. *)
Definition simple_escape (c : Z) : option Z :=
  if c =? 34 then Some 34 else if c =? 92 then Some 92
  else if c =? 47 then Some 47 else if c =? 98 then Some 8
  else if c =? 102 then Some 12 else if c =? 110 then Some 10
  else if c =? 114 then Some 13 else if c =? 116 then Some 9
  else None.

(** [s] starts with the two characters [\u]. *)
Definition starts_bs_u (s : pystr) : option pystr :=
  match s with
  | a :: b :: r => if (a =? 92) && (b =? 117) then Some r else None
  | _ => None
  end.

(** [scanstring] after the opening quote; [acc] is the decoded text,
    reversed.  A [\uXXXX] escape needs a character after it; a high
    surrogate followed by [\uXXXX] and at least one more character reads the
    second escape, joins it when it is a low surrogate and otherwise
    re-reads it as text. *)
Fixpoint scan_string (fuel : nat) (s acc : pystr) : option (pystr * pystr) :=
  match fuel with
  | O => None
  | S f =>
      match s with
      | [] => None
      | c :: r =>
          if c =? 34 then Some (rev acc, r)
          else if c =? 92 then
            match r with
            | [] => None
            | e :: r2 =>
                if e =? 117 then
                  if (length r2 <? 5)%nat then None else
                  match hex4 r2 with
                  | None => None
                  | Some (u, r3) =>
                      if is_high_surrogate u && (6 <? length r3)%nat then
                        match starts_bs_u r3 with
                        | None => scan_string f r3 (u :: acc)
                        | Some r4 =>
                            match hex4 r4 with
                            | None => None
                            | Some (u2, r5) =>
                                if is_low_surrogate u2
                                then scan_string f r5
                                       ((65536 + Z.lor (Z.shiftl (u - 55296) 10) (u2 - 56320)) :: acc)
                                else scan_string f r3 (u :: acc)
                            end
                        end
                      else scan_string f r3 (u :: acc)
                  end
                else match simple_escape e with
                     | Some x => scan_string f r2 (x :: acc)
                     | None => None
                     end
            end
          else if c <? 32 then None
          else scan_string f r (c :: acc)
      end
  end.

Definition starts_with (p s : pystr) : option pystr :=
  if is_prefix p s then Some (skipn (length p) s) else None.

(** [_match_number_unicode]: an optional minus, then 0 or a non-zero digit
    followed by digits, then an optional fraction (a dot and at least one
    digit), then an optional exponent (e or E, an optional sign, at least one
    digit), backtracking over an exponent that has no digit.  Returns the
    literal, whether it is a float, and the rest. *)
Definition match_number (s : pystr) : option (pystr * bool * pystr) :=
  let '(sign, s1) := match s with
                     | c :: r => if c =? 45 then ([45], r) else ([], s)
                     | [] => ([], [])
                     end in
  let int_part :=
    match s1 with
    | c :: r =>
        if (49 <=? c) && (c <=? 57) then
          let (d, rest) := digits_prefix r in Some (c :: d, rest)
        else if c =? 48 then Some ([48], r)
        else None
    | [] => None
    end in
  match int_part with
  | None => None
  | Some (ip, s2) =>
      let '(frac, s3) :=
        match s2 with
        | dot :: c :: r =>
            if (dot =? 46) && is_digit c
            then let (d, rest) := digits_prefix r in (46 :: c :: d, rest)
            else ([], s2)
        | _ => ([], s2)
        end in
      let '(expo, s4) :=
        match s3 with
        | e :: r =>
            if (e =? 101) || (e =? 69) then
              let '(sg, r1) := match r with
                               | x :: r' => if (x =? 45) || (x =? 43) then ([x], r') else ([], r)
                               | [] => ([], [])
                               end in
              match digits_prefix r1 with
              | ([], _) => ([], s3)
              | (d, rest) => (e :: sg ++ d, rest)
              end
            else ([], s3)
        | [] => ([], s3)
        end in
      let is_float := negb (Nat.eqb (length frac) 0) || negb (Nat.eqb (length expo) 0) in
      Some (sign ++ ip ++ frac ++ expo, is_float, s4)
  end.

(** [int(lit)] for a literal accepted by [match_number]. *)
Definition int_of_literal (lit : pystr) : Z :=
  match lit with
  | c :: r => if c =? 45 then - digits_value r else digits_value lit
  | [] => 0
  end.

(** [PyLong_FromString(lit, NULL, 10)]: refused beyond 4300 digits, the
    sign apart. *)
Definition json_int (lit : pystr) : option Z :=
  let digits := match lit with c :: r => if c =? 45 then r else lit | [] => [] end in
  if (int_max_str_digits <? length digits)%nat then None else Some (int_of_literal lit).

(** [scan_once], [_parse_object_unicode] and [_parse_array_unicode].
    [Py_EnterRecursiveCall] guards each array and object: [depth] is the
    number of nested ones still allowed. *)
Fixpoint scan_value (fuel depth : nat) (s : pystr) {struct fuel} : option (pyval * pystr) :=
  match fuel with
  | O => None
  | S f =>
      match s with
      | [] => None
      | c :: r =>
          if c =? 34 then
            match scan_string (S (length r)) r [] with
            | Some (x, r') => Some (PyStr x, r')
            | None => None
            end
          else if c =? 123 then
            match depth with
            | O => None
            | S depth' =>
                let r1 := skip_ws r in
                match r1 with
                | x :: r2 => if x =? 125 then Some (PyDict [], r2)
                             else object_members f depth' r1 []
                | [] => None
                end
            end
          else if c =? 91 then
            match depth with
            | O => None
            | S depth' =>
                let r1 := skip_ws r in
                match r1 with
                | x :: r2 => if x =? 93 then Some (PyList [], r2)
                             else array_items f depth' r1 []
                | [] => None
                end
            end
          else match starts_with (t "null") s with Some r' => Some (PyNone, r') | None =>
               match starts_with (t "true") s with Some r' => Some (PyBool true, r') | None =>
               match starts_with (t "false") s with Some r' => Some (PyBool false, r') | None =>
               match starts_with (t "NaN") s with Some r' => Some (PyFloat (t "NaN"), r') | None =>
               match starts_with (t "Infinity") s with Some r' => Some (PyFloat (t "Infinity"), r') | None =>
               match starts_with (t "-Infinity") s with Some r' => Some (PyFloat (t "-Infinity"), r') | None =>
               match match_number s with
               | Some (lit, true, r') => Some (PyFloat lit, r')
               | Some (lit, false, r') =>
                   match json_int lit with Some z => Some (PyInt z, r') | None => None end
               | None => None
               end end end end end end end
      end
  end
with object_members (fuel depth : nat) (s : pystr) (acc : list (pystr * pyval))
  {struct fuel} : option (pyval * pystr) :=
  match fuel with
  | O => None
  | S f =>
      match s with
      | q :: r =>
          if q =? 34 then
            match scan_string (S (length r)) r [] with
            | None => None
            | Some (key, r1) =>
                match skip_ws r1 with
                | colon :: r2 =>
                    if colon =? 58 then
                      match scan_value f depth (skip_ws r2) with
                      | None => None
                      | Some (v, r3) =>
                          let acc' := dict_set acc key v in
                          match skip_ws r3 with
                          | x :: r4 =>
                              if x =? 125 then Some (PyDict acc', r4)
                              else if x =? 44 then object_members f depth (skip_ws r4) acc'
                              else None
                          | [] => None
                          end
                      end
                    else None
                | [] => None
                end
            end
          else None
      | [] => None
      end
  end
with array_items (fuel depth : nat) (s : pystr) (acc : list pyval)
  {struct fuel} : option (pyval * pystr) :=
  match fuel with
  | O => None
  | S f =>
      match scan_value f depth s with
      | None => None
      | Some (v, r1) =>
          match skip_ws r1 with
          | x :: r2 =>
              if x =? 93 then Some (PyList (rev (v :: acc)), r2)
              else if x =? 44 then array_items f depth (skip_ws r2) (v :: acc)
              else None
          | [] => None
          end
      end
  end.

(** Every call of the three scanners consumes a character before the next
    one two levels down, so twice the length plus two steps suffice. *)
Definition json_fuel (s : pystr) : nat := (2 * length s + 2)%nat.

(** [json.loads(s)] for a [str], at a call site where [depth] nested arrays
    and objects are allowed: a leading byte-order mark is refused, the value
    may be surrounded by whitespace, anything else after it is
    "Extra data". *)
Definition json_loads (depth : nat) (s : pystr) : option pyval :=
  match s with
  | 65279 :: _ => None
  | _ =>
      match scan_value (json_fuel s) depth (skip_ws s) with
      | Some (v, rest) => match skip_ws rest with [] => Some v | _ => None end
      | None => None
      end
  end.

(* ------------------------------------------------------------------ *)
(** ** Exceptions and the result type *)

(** Every exception the model raises is a subclass of [Exception]; those of
    external collaborators carry their message. *)
Inductive exc : Type :=
| KeyError (key : pystr)
| TypeError (msg : pystr)
| AttributeError (msg : pystr)
| ValueError (msg : pystr)
| OverflowError (msg : pystr)
| HTTPException (status_code : Z) (detail : pystr)
| External (msg : pystr).

(** [str(e)]; Starlette prints an [HTTPException] as "code: detail". *)
Definition exc_str (e : exc) : pystr :=
  match e with
  | KeyError k => [39] ++ k ++ [39]
  | TypeError m | AttributeError m | ValueError m | OverflowError m | External m => m
  | HTTPException c d => z_str c ++ t ": " ++ d
  end.

Inductive res (A : Type) : Type :=
| Ok (a : A)
| Raise (e : exc).
Arguments Ok {A} a.
Arguments Raise {A} e.

Definition bind {A B} (m : res A) (k : A -> res B) : res B :=
  match m with Ok a => k a | Raise e => Raise e end.

Notation "x <- m ;; k" := (bind m (fun x => k))
  (at level 61, m at next level, right associativity).

(** [try: body except Exception as e: handler(e)] *)
Definition try_except {A} (body : res A) (handler : exc -> res A) : res A :=
  match body with Ok a => Ok a | Raise e => handler e end.

Fixpoint mapM {A B} (f : A -> res B) (l : list A) : res (list B) :=
  match l with
  | [] => Ok []
  | x :: r => y <- f x ;; ys <- mapM f r ;; Ok (y :: ys)
  end.

(* ------------------------------------------------------------------ *)
(** ** Python runtime operations on values *)

Definition type_name (v : pyval) : string :=
  match v with
  | PyNone => "NoneType" | PyBool _ => "bool" | PyInt _ => "int"
  | PyFloat _ => "float" | PyStr _ => "str" | PyList _ => "list" | PyDict _ => "dict"
  end.

(** Mantissa of a float literal (the part before the exponent). *)
Fixpoint lit_mantissa (s : pystr) : pystr :=
  match s with
  | [] => []
  | c :: r => if (c =? 101) || (c =? 69) then [] else c :: lit_mantissa r
  end.

(** [bool(v)] *)
Definition py_truthy (v : pyval) : bool :=
  match v with
  | PyNone => false
  | PyBool b => b
  | PyInt z => negb (z =? 0)
  | PyFloat lit =>
      negb (forallb (fun c => (c =? 48) || (c =? 45) || (c =? 46)) (lit_mantissa lit))
  | PyStr s => negb (Nat.eqb (length s) 0)
  | PyList l => negb (Nat.eqb (length l) 0)
  | PyDict d => negb (Nat.eqb (length d) 0)
  end.

(** [v[k]] for a [str] key. *)
Definition py_getitem (v : pyval) (k : pystr) : res pyval :=
  match v with
  | PyDict d => match dict_get d k with Some x => Ok x | None => Raise (KeyError k) end
  | PyList _ => Raise (TypeError (t "list indices must be integers or slices, not str"))
  | PyStr _ => Raise (TypeError (t "string indices must be integers, not 'str'"))
  | _ => Raise (TypeError (t ("'" ++ type_name v ++ "' object is not subscriptable")))
  end.

(** [v.get(k, default)] *)
Definition py_get (v : pyval) (k : pystr) (default : pyval) : res pyval :=
  match v with
  | PyDict d => Ok (match dict_get d k with Some x => x | None => default end)
  | _ => Raise (AttributeError (t ("'" ++ type_name v ++ "' object has no attribute 'get'")))
  end.

(** [for x in v] *)
Definition py_iter (v : pyval) : res (list pyval) :=
  match v with
  | PyList l => Ok l
  | PyDict d => Ok (map (fun kv => PyStr (fst kv)) d)
  | PyStr s => Ok (map (fun c => PyStr [c]) s)
  | _ => Raise (TypeError (t ("'" ++ type_name v ++ "' object is not iterable")))
  end.

(** [k in v] for a [str] literal [k]. *)
Definition py_in (k : pystr) (v : pyval) : res bool :=
  match v with
  | PyDict d => Ok (match dict_get d k with Some _ => true | None => false end)
  | PyList l => Ok (existsb (fun x => match x with
                                      | PyStr s => if list_eq_dec Z.eq_dec s k then true else false
                                      | _ => false end) l)
  | PyStr s => Ok (py_contains k s)
  | _ => Raise (TypeError (t ("argument of type '" ++ type_name v ++ "' is not iterable")))
  end.

(** [v[:n]]; a dict refuses a slice key. *)
Definition py_upto_val (v : pyval) (n : Z) : res pyval :=
  match v with
  | PyStr s => Ok (PyStr (py_upto s n))
  | PyList l => Ok (PyList (py_upto l n))
  | PyDict _ => Raise (TypeError (t "unhashable type: 'slice'"))
  | _ => Raise (TypeError (t ("'" ++ type_name v ++ "' object is not subscriptable")))
  end.

(** [v + "..."] *)
Definition py_add_str (v : pyval) (s : pystr) : res pyval :=
  match v with
  | PyStr x => Ok (PyStr (x ++ s))
  | _ => Raise (TypeError (t "unsupported operand type(s) for +"))
  end.

(** [len(v)] *)
Definition py_len (v : pyval) : res Z :=
  match v with
  | PyStr s => Ok (Z.of_nat (length s))
  | PyList l => Ok (Z.of_nat (length l))
  | PyDict d => Ok (Z.of_nat (length d))
  | _ => Raise (TypeError (t ("object of type '" ++ type_name v ++ "' has no len()")))
  end.

(** [v.replace(old, new)] *)
Definition py_replace_val (v : pyval) (old new : pystr) : res pyval :=
  match v with
  | PyStr s => Ok (PyStr (py_replace s old new))
  | _ => Raise (AttributeError (t ("'" ++ type_name v ++ "' object has no attribute 'replace'")))
  end.

(** Python's float-literal digit part: digits with single underscores
    between them; returns the rest after the longest such run. *)
Fixpoint digitpart_rest (fuel : nat) (s : pystr) : pystr :=
  match fuel with
  | O => s
  | S f =>
      match s with
      | c :: r =>
          if is_digit c then digitpart_rest f r
          else if c =? 95 then
            match r with
            | d :: r' => if is_digit d then digitpart_rest f r' else s
            | [] => s
            end
          else s
      | [] => []
      end
  end.

Definition digitpart (s : pystr) : option pystr :=
  match s with
  | c :: r => if is_digit c then Some (digitpart_rest (length r) r) else None
  | [] => None
  end.

Definition lower_ascii (s : pystr) : pystr :=
  map (fun c => if is_ascii_upper c then c + 32 else c) s.

Definition opt_sign (s : pystr) : pystr :=
  match s with
  | c :: r => if (c =? 43) || (c =? 45) then r else s
  | [] => []
  end.

Definition exponent_ok (s : pystr) : bool :=
  match s with
  | [] => true
  | e :: r =>
      ((e =? 101) || (e =? 69)) &&
      match digitpart (opt_sign r) with Some [] => true | _ => false end
  end.

(** The accepted forms of [float(s)] on a stripped ASCII text, underscores
    between digits included. *)
Definition float_literal_ok (s : pystr) : bool :=
  let b := opt_sign s in
  let lb := lower_ascii b in
  if list_eq_dec Z.eq_dec lb (t "inf") then true
  else if list_eq_dec Z.eq_dec lb (t "infinity") then true
  else if list_eq_dec Z.eq_dec lb (t "nan") then true
  else
    match digitpart b with
    | Some r =>
        match r with
        | d :: r' => if d =? 46 then
                       match digitpart r' with
                       | Some r'' => exponent_ok r''
                       | None => exponent_ok r'
                       end
                     else exponent_ok r
        | [] => true
        end
    | None =>
        match b with
        | d :: r' => (d =? 46) && match digitpart r' with
                                  | Some r'' => exponent_ok r''
                                  | None => false
                                  end
        | [] => false
        end
    end.

(** [int(d)] for a run of decimal digits (what [\d+] matched): a
    [ValueError] beyond 4300 digits. *)
Definition py_int_decimal (d : pystr) : res Z :=
  if (int_max_str_digits <? length d)%nat
  then Raise (ValueError (int_limit_message (Z.of_nat (length d))))
  else Ok (digits_value d).

(** The lower-case hexadecimal digits of [v], [n] of them. *)
Fixpoint hex_digits (n : nat) (v : Z) : pystr :=
  match n with
  | O => []
  | S n' => hex_digits n' (v / 16) ++ [if v mod 16 <? 10 then 48 + v mod 16 else 87 + v mod 16]
  end.

(** One character of [repr(s)] ([unicode_repr]) with the given quote. *)
Definition repr_char (quote c : Z) : pystr :=
  if (c =? quote) || (c =? 92) then [92; c]
  else if c =? 9 then [92; 116]
  else if c =? 10 then [92; 110]
  else if c =? 13 then [92; 114]
  else if (c <? 32) || (c =? 127) then [92; 120] ++ hex_digits 2 c
  else if c <? 127 then [c]
  else if is_printable c then [c]
  else if c <=? 255 then [92; 120] ++ hex_digits 2 c
  else if c <=? 65535 then [92; 117] ++ hex_digits 4 c
  else [92; 85] ++ hex_digits 8 c.

(** [repr(s)]: single quotes, unless the text has a single quote and no
    double quote. *)
Definition py_repr (s : pystr) : pystr :=
  let quote := if existsb (Z.eqb 39) s && negb (existsb (Z.eqb 34) s) then 34 else 39 in
  quote :: flat_map (repr_char quote) s ++ [quote].

(** [_PyUnicode_TransformDecimalAndSpaceToASCII]: code points below 127 are
    kept, white space becomes ' ', a decimal digit its ASCII digit; any other
    code point makes the conversion fail. *)
Fixpoint decimal_space_to_ascii (s : pystr) : option pystr :=
  match s with
  | [] => Some []
  | c :: r =>
      let c' := if c <? 127 then Some c
                else if py_isspace c then Some 32
                else match decimal_value c with Some k => Some (48 + k) | None => None end in
      match c', decimal_space_to_ascii r with
      | Some x, Some r' => Some (x :: r')
      | _, _ => None
      end
  end.

(** [Py_ISSPACE], the ASCII white space [float()] strips. *)
Definition ascii_space (c : Z) : bool := (c =? 32) || ((9 <=? c) && (c <=? 13)).

Fixpoint lstrip_ascii (s : pystr) : pystr :=
  match s with
  | [] => []
  | x :: r => if ascii_space x then lstrip_ascii r else s
  end.

Definition strip_ascii (s : pystr) : pystr := rev (lstrip_ascii (rev (lstrip_ascii s))).

(** [float(v)]: a [str] is converted to ASCII, stripped and read as a float
    literal, with a [ValueError] quoting [repr(v)] otherwise; an [int] too
    large for a double raises [OverflowError]. *)
Definition py_float_str (v : pyval) : res pyval :=
  match v with
  | PyStr s =>
      match decimal_space_to_ascii s with
      | Some a =>
          let s' := strip_ascii a in
          if float_literal_ok s' then Ok (PyFloat s')
          else Raise (ValueError (t "could not convert string to float: " ++ py_repr s))
      | None => Raise (ValueError (t "could not convert string to float: " ++ py_repr s))
      end
  | PyInt z =>
      if 2 ^ 1024 - 2 ^ 970 <=? Z.abs z
      then Raise (OverflowError (t "int too large to convert to float"))
      else Ok (PyFloat (z_str z))
  | PyBool b => Ok (PyFloat (if b then t "1.0" else t "0.0"))
  | PyFloat lit => Ok (PyFloat lit)
  | _ => Raise (TypeError (t ("float() argument must be a string or a real number, not '"
                              ++ type_name v ++ "'")))
  end.

(** [sep.join(l)] *)
Fixpoint py_join (sep : pystr) (l : list pystr) : pystr :=
  match l with
  | [] => []
  | [x] => x
  | x :: r => x ++ sep ++ py_join sep r
  end.

(* ------------------------------------------------------------------ *)
(** ** [analyze_therapy_area]: the delimited-section parse *)

Record therapy_sections := mkSections {
  disease_summary : pystr;
  staging : pystr;
  biomarkers : pystr;
  treatment_algorithm : pystr;
  patient_journey : pystr }.

Definition empty_sections : therapy_sections := mkSections [] [] [] [] [].

Definition starts (s : pystr) (p : string) : bool := is_prefix (t p) s.

(** One iteration of [for section in sections[1:]]. *)
Definition section_step (acc : therapy_sections) (section : pystr) : therapy_sections :=
  if starts section "DISEASE SUMMARY" then
    {| disease_summary := py_strip (py_replace section (t "DISEASE SUMMARY" ++ [10]) []);
       staging := staging acc; biomarkers := biomarkers acc;
       treatment_algorithm := treatment_algorithm acc; patient_journey := patient_journey acc |}
  else if starts section "STAGING" then
    {| disease_summary := disease_summary acc;
       staging := py_strip (py_replace section (t "STAGING" ++ [10]) []);
       biomarkers := biomarkers acc;
       treatment_algorithm := treatment_algorithm acc; patient_journey := patient_journey acc |}
  else if starts section "BIOMARKERS" then
    {| disease_summary := disease_summary acc; staging := staging acc;
       biomarkers := py_strip (py_replace section (t "BIOMARKERS" ++ [10]) []);
       treatment_algorithm := treatment_algorithm acc; patient_journey := patient_journey acc |}
  else if starts section "TREATMENT ALGORITHM" then
    {| disease_summary := disease_summary acc; staging := staging acc;
       biomarkers := biomarkers acc;
       treatment_algorithm := py_strip (py_replace section (t "TREATMENT ALGORITHM" ++ [10]) []);
       patient_journey := patient_journey acc |}
  else if starts section "PATIENT JOURNEY" then
    {| disease_summary := disease_summary acc; staging := staging acc;
       biomarkers := biomarkers acc; treatment_algorithm := treatment_algorithm acc;
       patient_journey := py_strip (py_replace section (t "PATIENT JOURNEY" ++ [10]) []) |}
  else acc.

(** [sections = response.split("## ")] and the loop over [sections[1:]]. *)
Definition parse_therapy_sections (response : pystr) : therapy_sections :=
  fold_left section_step (skipn 1 (py_split response (t "## "))) empty_sections.

(* ------------------------------------------------------------------ *)
(** ** [generate_competitive_analysis] *)

Inductive comp_section := NoSection | Competitors | MarketDynamics | Pipeline
                        | Positioning | Catalysts.

Record comp_state := mkComp {
  cs_competitors : list pyval;
  cs_market_dynamics : pystr;
  cs_pipeline : pystr;
  cs_positioning : pystr;
  cs_catalysts : pystr;
  cs_section : comp_section;
  cs_content : list pystr }.

Definition init_comp_state : comp_state := mkComp [] [] [] [] [] NoSection [].

Definition any_in (kws : list string) (u : pystr) : bool :=
  existsb (fun k => py_contains (t k) u) kws.

(** [parts = line.split(':', 1) if ':' in line else [line, '']]: the two
    parts, the second one being what follows the first colon. *)
Definition split_colon (line : pystr) : pystr * pystr :=
  let i := py_find line 58 in
  if i <? 0 then (line, [])
  else (firstn (Z.to_nat i) line, skipn (S (Z.to_nat i)) line).

Definition name_prefixes : list string := ["1."; "2."; "3."; "4."; "5."; "6."; "7."; "-"].

(** [for prefix in [...]: company_part = company_part.replace(prefix, '').strip()]
    ('•' is U+2022, the last prefix). *)
Definition clean_company (c : pystr) : pystr :=
  py_strip (py_replace (fold_left (fun acc p => py_strip (py_replace acc (t p) [])) name_prefixes c)
                       [8226] []).

(** [market_share = 25], replaced by [int] of the first [(\d+)%] of the
    details when they contain '%'. *)
Definition market_share_of (details : pystr) : res Z :=
  if py_contains [37] details then
    match search_pct details with
    | Some d => py_int_decimal d
    | None => Ok 25
    end
  else Ok 25.

(** The entry the loop appends for a line of the competitors section, if any. *)
Definition competitor_of_line (line : pystr) : res (option pyval) :=
  if any_in ["-"; "1."; "2."; "3."] line || py_contains [8226] line then
    let '(cp, dp) := split_colon line in
    let company_part := clean_company (py_strip cp) in
    let details_part := py_strip dp in
    if negb (Nat.eqb (length company_part) 0) && (2 <? length company_part)%nat then
      (market_share <- market_share_of details_part ;;
       Ok (Some (mkdict [("name", PyStr (py_upto company_part 50));
                         ("products", PyStr (if Nat.eqb (length details_part) 0
                                             then t "Market presence" else py_upto details_part 100));
                         ("market_share", PyInt market_share);
                         ("strengths", PyStr (if Nat.eqb (length details_part) 0
                                              then t "Established player" else py_upto details_part 100));
                         ("weaknesses", PyStr (t "See analysis for details"))])))
    else Ok None
  else Ok None.

Definition with_section (st : comp_state) (sec : comp_section) : comp_state :=
  {| cs_competitors := cs_competitors st; cs_market_dynamics := cs_market_dynamics st;
     cs_pipeline := cs_pipeline st; cs_positioning := cs_positioning st;
     cs_catalysts := cs_catalysts st; cs_section := sec; cs_content := [] |}.

(** [current_content[-10:]] joined by newlines. *)
Definition last10 (content : list pystr) : pystr :=
  py_join [10] (py_slice content (-10) (Z.of_nat (length content))).

(** The "collect content for other sections" block at the end of an
    iteration. *)
Definition collect (st : comp_state) : comp_state :=
  match cs_content st with
  | [] => st
  | _ =>
      match cs_section st with
      | MarketDynamics =>
          {| cs_competitors := cs_competitors st; cs_market_dynamics := last10 (cs_content st);
             cs_pipeline := cs_pipeline st; cs_positioning := cs_positioning st;
             cs_catalysts := cs_catalysts st; cs_section := cs_section st; cs_content := cs_content st |}
      | Pipeline =>
          {| cs_competitors := cs_competitors st; cs_market_dynamics := cs_market_dynamics st;
             cs_pipeline := last10 (cs_content st); cs_positioning := cs_positioning st;
             cs_catalysts := cs_catalysts st; cs_section := cs_section st; cs_content := cs_content st |}
      | Positioning =>
          {| cs_competitors := cs_competitors st; cs_market_dynamics := cs_market_dynamics st;
             cs_pipeline := cs_pipeline st; cs_positioning := last10 (cs_content st);
             cs_catalysts := cs_catalysts st; cs_section := cs_section st; cs_content := cs_content st |}
      | Catalysts =>
          {| cs_competitors := cs_competitors st; cs_market_dynamics := cs_market_dynamics st;
             cs_pipeline := cs_pipeline st; cs_positioning := cs_positioning st;
             cs_catalysts := last10 (cs_content st); cs_section := cs_section st; cs_content := cs_content st |}
      | _ => st
      end
  end.

Definition is_competitors (s : comp_section) : bool :=
  match s with Competitors => true | _ => false end.

(** One iteration of [for line in lines]; [int] of a market share may
    raise. *)
Definition comp_step (st : comp_state) (line0 : pystr) : res comp_state :=
  let line := py_strip line0 in
  match line with
  | [] => Ok st
  | _ =>
      let u := py_upper line in
      st' <-
        (if any_in ["COMPETITOR"; "MAJOR"; "KEY PLAYER"] u then Ok (with_section st Competitors)
         else if any_in ["MARKET DYNAMIC"; "MARKET TREND"] u then Ok (with_section st MarketDynamics)
         else if any_in ["PIPELINE"; "DEVELOPMENT"] u then Ok (with_section st Pipeline)
         else if any_in ["POSITIONING"; "DIFFERENTIAT"] u then Ok (with_section st Positioning)
         else if any_in ["CATALYST"; "UPCOMING"; "EVENTS"] u then Ok (with_section st Catalysts)
         else
           (entry <- (if is_competitors (cs_section st) then competitor_of_line line else Ok None) ;;
            Ok {| cs_competitors :=
                    match entry with
                    | Some e => cs_competitors st ++ [e]
                    | None => cs_competitors st
                    end;
                  cs_market_dynamics := cs_market_dynamics st; cs_pipeline := cs_pipeline st;
                  cs_positioning := cs_positioning st; cs_catalysts := cs_catalysts st;
                  cs_section := cs_section st; cs_content := cs_content st ++ [line] |})) ;;
      Ok (collect st')
  end.

(** The loop [for line in lines], stopped by the first exception. *)
Fixpoint comp_fold (st : comp_state) (lines : list pystr) : res comp_state :=
  match lines with
  | [] => Ok st
  | line :: rest => st' <- comp_step st line ;; comp_fold st' rest
  end.

Definition known_companies : list string :=
  ["NOVARTIS"; "PFIZER"; "ROCHE"; "BRISTOL"; "MERCK"; "JOHNSON"; "ABBVIE"; "GILEAD";
   "BIOGEN"; "AMGEN"].

Definition known_company_entry (line : pystr) : pyval :=
  mkdict [("name", PyStr (py_upto (py_strip line) 30));
          ("products", PyStr (t "Multiple products in portfolio"));
          ("market_share", PyInt 15);
          ("strengths", PyStr (t "Established pharmaceutical company"));
          ("weaknesses", PyStr (t "High competition"))].

(** The secondary pass over [response.split('\n')], appending to
    [competitors] and breaking once it holds 5 entries. *)
Fixpoint known_company_pass (competitors : list pyval) (lines : list pystr) : list pyval :=
  match lines with
  | [] => competitors
  | line :: rest =>
      let competitors' :=
        if any_in known_companies (py_upper line)
        then competitors ++ [known_company_entry line] else competitors in
      if (5 <=? length competitors')%nat then competitors'
      else known_company_pass competitors' rest
  end.

Definition or_default (s : pystr) (d : pystr) : pystr :=
  match s with [] => d | _ => s end.

(** Everything after [response = await chat.send_message(...)]. *)
Definition competitive_parse (response : pystr) : res pyval :=
  st <- comp_fold init_comp_state (py_split response [10]) ;;
  let competitors :=
    match cs_competitors st with
    | [] => known_company_pass [] (py_split response [10])
    | cs => cs
    end in
  Ok (mkdict [("competitors", PyList (py_upto competitors 7));
              ("market_dynamics", PyStr (or_default (cs_market_dynamics st)
                                           (py_upto response 500 ++ t "...")));
              ("pipeline", PyStr (or_default (cs_pipeline st)
                                    (t "Pipeline analysis included in full competitive analysis")));
              ("positioning", PyStr (or_default (cs_positioning st)
                 (t "Competitive positioning varies by therapeutic focus and market presence")));
              ("catalysts", PyStr (or_default (cs_catalysts st)
                 (t "Key market catalysts and events detailed in comprehensive analysis")));
              ("full_analysis", PyStr response)]).

Definition competitive_error (e : exc) : pyval :=
  mkdict [("competitors", PyList [mkdict [("name", PyStr (t "Analysis Error"));
                                          ("market_share", PyInt 0);
                                          ("strengths", PyStr (t "Please try again"));
                                          ("products", PyStr (py_upto (exc_str e) 100))]]);
          ("market_dynamics", PyStr (t "Error generating analysis: " ++ exc_str e));
          ("pipeline", PyStr (t "Please regenerate analysis"));
          ("positioning", PyStr (t "Error in analysis generation"));
          ("catalysts", PyStr (t "Please try again with valid API key"));
          ("full_analysis", PyStr (t "Error: " ++ exc_str e))].

(** [chat_response] is the outcome of the client set-up and of
    [chat.send_message(...)]: the text, or the exception raised. *)
Definition generate_competitive_analysis (chat_response : res pystr) : res pyval :=
  try_except (response <- chat_response ;; competitive_parse response)
             (fun e => Ok (competitive_error e)).

(* ------------------------------------------------------------------ *)
(** ** [search_regulatory_intelligence] and [generate_risk_assessment] *)

Definition regulatory_fallback (response : pystr) : pyval :=
  mkdict [("pathways", PyStr (t "See full analysis"));
          ("recent_activity", PyStr (t "See full analysis"));
          ("trends", PyStr (t "See full analysis"));
          ("timelines", PyStr (t "See full analysis"));
          ("market_access", PyStr response)].

(** [depth] is the nesting [json.loads] can reach before the interpreter's
    recursion limit; it depends on the stack in use at the call. *)
Definition search_regulatory_intelligence (depth : nat) (chat_response : res pystr)
  : res pyval :=
  try_except
    (response <- chat_response ;;
     Ok (match json_loads depth response with
         | Some v => v
         | None => regulatory_fallback response
         end))
    (fun _ => Ok (PyDict [])).

Definition risk_entry (level : string) : pyval :=
  mkdict [("level", PyStr (t level)); ("factors", PyList [PyStr (t "See analysis")])].

Definition risk_fallback (response : pystr) : pyval :=
  mkdict [("clinical_risk", risk_entry "Medium");
          ("regulatory_risk", risk_entry "Medium");
          ("commercial_risk", risk_entry "Medium");
          ("operational_risk", risk_entry "Low");
          ("market_risk", risk_entry "Medium");
          ("overall_score", PyInt 5);
          ("full_assessment", PyStr response)].

Definition generate_risk_assessment (depth : nat) (chat_response : res pystr) : res pyval :=
  try_except
    (response <- chat_response ;;
     Ok (match json_loads depth response with
         | Some v => v
         | None => risk_fallback response
         end))
    (fun _ => Ok (PyDict [])).

(* ------------------------------------------------------------------ *)
(** ** [generate_scenario_models] *)

(** [float(p)] for a small non-negative [int] (exact). *)
Definition float_of_Z (z : Z) : float := PrimFloat.of_uint63 (Uint63.of_Z z).

(** [int(f)]: truncation toward zero; NaN and infinities raise. *)
Definition py_int_of_float (f : float) : res Z :=
  match Prim2SF f with
  | S754_zero _ => Ok 0
  | S754_finite s m e =>
      let v := if e >=? 0 then Z.pos m * 2 ^ e else Z.pos m / 2 ^ (- e) in
      Ok (if s then - v else v)
  | S754_infinity _ => Raise (OverflowError (t "cannot convert float infinity to integer"))
  | S754_nan => Raise (ValueError (t "cannot convert float NaN to integer"))
  end.

Definition base_projections : list Z := [100; 250; 500; 750; 900; 800].

(** [[0.6, 1.0, 1.8]]: binary64 values, rounded from the decimal literals as
    Python does. *)
Definition multipliers : list float := [0.6%float; 1.0%float; 1.8%float].

Definition scenario_entry (scenario response : pystr) (multiplier : float) : res pyval :=
  projections <- mapM (fun p => py_int_of_float (PrimFloat.mul (float_of_Z p) multiplier))
                      base_projections ;;
  peak <- py_int_of_float (PrimFloat.mul (float_of_Z 900) multiplier) ;;
  Ok (mkdict [("assumptions", PyList [PyStr (py_title scenario ++ t " market conditions")]);
              ("projections", PyList (map PyInt projections));
              ("peak_sales", PyInt peak);
              ("market_share_trajectory", PyList (map PyInt [2; 5; 8; 12; 15; 13]));
              ("key_factors", PyList [PyStr (py_title scenario ++ t " execution")]);
              ("full_analysis", PyStr response)]).

(** [for i, scenario in enumerate(scenarios)] with
    [multiplier = [0.6, 1.0, 1.8][min(i, 2)]]. *)
Fixpoint scenario_fallback_go (i : nat) (scenarios : list pystr) (response : pystr)
  (fallback : list (pystr * pyval)) : res pyval :=
  match scenarios with
  | [] => Ok (PyDict fallback)
  | scenario :: rest =>
      entry <- scenario_entry scenario response (nth (Nat.min i 2) multipliers 1.0%float) ;;
      scenario_fallback_go (S i) rest response (dict_set fallback scenario entry)
  end.

Definition scenario_fallback (scenarios : list pystr) (response : pystr) : res pyval :=
  scenario_fallback_go 0 scenarios response [].

Definition generate_scenario_models (depth : nat) (scenarios : list pystr)
  (chat_response : res pystr) : res pyval :=
  try_except
    (response <- chat_response ;;
     match json_loads depth response with
     | Some parsed => Ok parsed
     | None => scenario_fallback scenarios response
     end)
    (fun _ => Ok (PyDict [])).

(* ------------------------------------------------------------------ *)
(** ** [generate_patient_flow_funnel]: the embedded-JSON parse *)

(** [response[response.find('{') : response.rfind('}') + 1]] *)
Definition json_slice (response : pystr) : pystr :=
  let json_start := py_find response 123 in
  let json_end := py_rfind response 125 + 1 in
  py_slice response json_start json_end.

Definition funnel_fallback (response : pystr) : pyval :=
  mkdict [("funnel_stages",
           PyList [mkdict [("stage", PyStr (t "Total Population"));
                           ("description", PyStr (t "Analysis generated"));
                           ("percentage", PyStr (t "100%"));
                           ("notes", PyStr (t "See full response"))];
                   mkdict [("stage", PyStr (t "Target Population"));
                           ("description", PyStr (t "Detailed analysis provided"));
                           ("percentage", PyStr (t "Variable"));
                           ("notes", PyStr (py_upto response 200 ++ t "..."))]]);
          ("total_addressable_population", PyStr (t "See full analysis response"));
          ("forecasting_notes", PyStr response)].

(** [parsed_response] *)
Definition parse_funnel_response (depth : nat) (response : pystr) : pyval :=
  match json_loads depth (json_slice response) with
  | Some v => v
  | None => funnel_fallback response
  end.

(* ------------------------------------------------------------------ *)
(** ** Charts *)

Section Charts.

(** The chart library: [go.Funnel(y=stages, x=percentages, ...,
    marker_color=colors)], the layout update and [json.dumps(fig, ...)]. *)
Variable funnel_figure_json : list pyval -> list pyval -> list pystr -> res pystr.

Definition funnel_colors : list pystr :=
  map t ["deepskyblue"; "lightsalmon"; "tan"; "teal"; "silver"; "gold"].

Definition create_funnel_chart (funnel_stages : pyval) : res pystr :=
  items <- py_iter funnel_stages ;;
  stages <- mapM (fun stage => py_getitem stage (t "stage")) items ;;
  percentages <- mapM (fun stage => p <- py_getitem stage (t "percentage") ;;
                                    p' <- py_replace_val p [37] [] ;;
                                    py_float_str p') items ;;
  funnel_figure_json stages percentages (py_upto funnel_colors (Z.of_nat (length stages))).

End Charts.

(* ------------------------------------------------------------------ *)
(** ** The database and the HTTP outcome *)

(** The two collections the funnel handler touches. *)
Record db : Type := mkDb {
  therapy_analyses : list pyval;
  patient_flow_funnels : list pyval
}.

Definition pystr_eqb (a b : pystr) : bool :=
  if list_eq_dec Z.eq_dec a b then true else false.

(** The filter [{key: value}] for a string [value]: the field equals it, or
    the field is an array holding it. *)
Definition field_matches (key value : pystr) (doc : pyval) : bool :=
  match doc with
  | PyDict d =>
      match dict_get d key with
      | Some (PyStr s) => pystr_eqb s value
      | Some (PyList l) =>
          existsb (fun x => match x with PyStr s => pystr_eqb s value | _ => false end) l
      | _ => false
      end
  | _ => false
  end.

(** [collection.find_one({key: value})]: the first matching document. *)
Definition find_one (collection : list pyval) (key value : pystr) : option pyval :=
  find (field_matches key value) collection.

(** [analysis = ...find_one(...)]: a document, or [None]. *)
Definition found (o : option pyval) : pyval :=
  match o with Some doc => doc | None => PyNone end.

(** The check [bson] makes while encoding a document for [insert_one] or
    [update_one]: an [int] outside the signed 64-bit range raises. *)
Fixpoint bson_int_check (v : pyval) : res unit :=
  match v with
  | PyInt z =>
      if (- 2 ^ 63 <=? z) && (z <? 2 ^ 63) then Ok tt
      else Raise (OverflowError (t "MongoDB can only handle up to 8-byte ints"))
  | PyList l =>
      (fix go (l : list pyval) : res unit :=
         match l with [] => Ok tt | x :: r => u <- bson_int_check x ;; go r end) l
  | PyDict d =>
      (fix go (d : list (pystr * pyval)) : res unit :=
         match d with [] => Ok tt | (_, x) :: r => u <- bson_int_check x ;; go r end) d
  | _ => Ok tt
  end.

(** The same check on both documents of [update_one(filter, update)]. *)
Definition bson_update_check (filter update : pyval) : res unit :=
  u <- bson_int_check filter ;; bson_int_check update.

Inductive http_response : Type :=
| HttpOk (body : pyval)
| HttpError (status_code : Z) (detail : pystr).

(** What FastAPI sends for a handler's outcome: an [HTTPException] keeps its
    code and detail, any other exception becomes a 500. *)
Definition to_http (r : res pyval) : http_response :=
  match r with
  | Ok v => HttpOk v
  | Raise (HTTPException c d) => HttpError c d
  | Raise _ => HttpError 500 (t "Internal Server Error")
  end.

Record funnel_request : Type := mkFunnelRequest {
  fr_therapy_area : pystr;
  fr_analysis_id : pystr;
  fr_api_key : pystr
}.

(* ------------------------------------------------------------------ *)
(** ** [generate_patient_flow_funnel] and [get_analysis_details] *)

Section Funnel.

(** The chart library behind [create_funnel_chart]. *)
Variable funnel_figure_json : list pyval -> list pyval -> list pystr -> res pystr.
(** [LlmChat(api_key=...)...send_message(...)] on the funnel prompt, built
    from the therapy area and the three slices of the analysis. *)
Variable funnel_chat : pystr -> pystr -> pyval -> pyval -> pyval -> res pystr.
(** The model call inside [generate_scenario_models] (api key, therapy area,
    analysis). *)
Variable scenario_chat : pystr -> pystr -> pyval -> res pystr.
Variable create_scenario_comparison_chart : pyval -> res pystr.
Variable create_market_analysis_chart : pyval -> res pystr.
(** [PatientFlowFunnel(...)] (validation, fresh id and timestamp) followed by
    [.dict()]. *)
Variable PatientFlowFunnel :
  pystr -> pystr -> pyval -> pyval -> pyval -> pyval -> pyval -> res pyval.
(** [TherapyAreaAnalysis] and [PatientFlowFunnel] built from the stored
    documents, as keyword arguments, in the details view. *)
Variable analysis_details : pyval -> option pyval -> res pyval.
(** The nesting [json.loads] can reach in the funnel parse and in
    [generate_scenario_models] before the recursion limit. *)
Variable funnel_json_depth scenario_json_depth : nat.
(** [db.patient_flow_funnels.insert_one(funnel.dict())]: the driver encodes
    the document ([bson_int_check] is one of its checks) and sends it; it
    may raise, and then the collection is left as it was. *)
Variable mongo_insert : pyval -> res unit.

(** The body of the [try] block, threading the database. *)
Definition funnel_body (d : db) (request : funnel_request) : res (db * pyval) :=
  let analysis := found (find_one (therapy_analyses d) (t "id") (fr_analysis_id request)) in
  if negb (py_truthy analysis)
  then Raise (HTTPException 404 (t "Analysis not found"))
  else (
    disease_summary <- py_getitem analysis (t "disease_summary") ;;
    disease_summary <- py_upto_val disease_summary 500 ;;
    treatment_algorithm <- py_getitem analysis (t "treatment_algorithm") ;;
    treatment_algorithm <- py_upto_val treatment_algorithm 500 ;;
    patient_journey <- py_getitem analysis (t "patient_journey") ;;
    patient_journey <- py_upto_val patient_journey 500 ;;
    response <- funnel_chat (fr_api_key request) (fr_therapy_area request)
                            disease_summary treatment_algorithm patient_journey ;;
    let parsed_response := parse_funnel_response funnel_json_depth response in
    scenario_models <- generate_scenario_models scenario_json_depth
                         [t "optimistic"; t "realistic"; t "pessimistic"]
                         (scenario_chat (fr_api_key request) (fr_therapy_area request) analysis) ;;
    stages <- py_get parsed_response (t "funnel_stages") (PyList []) ;;
    funnel_chart <- create_funnel_chart funnel_figure_json stages ;;
    scenario_chart <- create_scenario_comparison_chart scenario_models ;;
    landscape <- py_get analysis (t "competitive_landscape") PyNone ;;
    visualization_data <-
      (if py_truthy landscape
       then (landscape <- py_getitem analysis (t "competitive_landscape") ;;
             market_chart <- create_market_analysis_chart landscape ;;
             Ok (mkdict [("funnel_chart", PyStr funnel_chart);
                         ("scenario_chart", PyStr scenario_chart);
                         ("market_chart", PyStr market_chart)]))
       else Ok (mkdict [("funnel_chart", PyStr funnel_chart);
                        ("scenario_chart", PyStr scenario_chart)])) ;;
    funnel_stages <- py_get parsed_response (t "funnel_stages") (PyList []) ;;
    total_addressable_population <-
      py_get parsed_response (t "total_addressable_population") (PyStr []) ;;
    forecasting_notes <- py_get parsed_response (t "forecasting_notes") (PyStr []) ;;
    funnel <- PatientFlowFunnel (fr_therapy_area request) (fr_analysis_id request)
                funnel_stages total_addressable_population forecasting_notes
                scenario_models visualization_data ;;
    u <- mongo_insert funnel ;;
    Ok (mkDb (therapy_analyses d) (patient_flow_funnels d ++ [funnel]), funnel)).

(** [POST /generate-funnel]: the handler's [except Exception as e] turns
    every exception of the body into a 500. *)
Definition generate_patient_flow_funnel (d : db) (request : funnel_request)
  : db * http_response :=
  match funnel_body d request with
  | Ok (d', funnel) => (d', HttpOk funnel)
  | Raise e => (d, HttpError 500 (t "Funnel generation failed: " ++ exc_str e))
  end.

(** [GET /analysis/{analysis_id}]: no [try] around the not-found check. *)
Definition get_analysis_details (d : db) (analysis_id : pystr) : http_response :=
  to_http
    (let analysis := found (find_one (therapy_analyses d) (t "id") analysis_id) in
     if negb (py_truthy analysis)
     then Raise (HTTPException 404 (t "Analysis not found"))
     else analysis_details analysis
            (find_one (patient_flow_funnels d) (t "analysis_id") analysis_id)).

End Funnel.

(* ------------------------------------------------------------------ *)
(** ** Base64 *)

Definition b64_char (k : Z) : Z :=
  if k <? 26 then 65 + k
  else if k <? 52 then 97 + (k - 26)
  else if k <? 62 then 48 + (k - 52)
  else if k =? 62 then 43 else 47.

(** [base64.b64encode(data).decode()] for a list of bytes. *)
Fixpoint b64encode (data : list Z) : pystr :=
  match data with
  | a :: b :: c :: rest =>
      let n := a * 65536 + b * 256 + c in
      [b64_char (n / 262144 mod 64); b64_char (n / 4096 mod 64);
       b64_char (n / 64 mod 64); b64_char (n mod 64)] ++ b64encode rest
  | [a; b] =>
      let n := a * 65536 + b * 256 in
      [b64_char (n / 262144 mod 64); b64_char (n / 4096 mod 64);
       b64_char (n / 64 mod 64); 61]
  | [a] =>
      let n := a * 65536 in
      [b64_char (n / 262144 mod 64); b64_char (n / 4096 mod 64); 61; 61]
  | [] => []
  end.

(* ------------------------------------------------------------------ *)
(** ** [generate_pdf_report] *)

(** [(title, key)] of the five report sections. *)
Definition pdf_sections : list (string * string) :=
  [("Disease Overview", "disease_summary"); ("Staging Information", "staging");
   ("Biomarkers", "biomarkers"); ("Treatment Algorithm", "treatment_algorithm");
   ("Patient Journey", "patient_journey")].

(** "• " *)
Definition bullet : pystr := [8226; 32].

Section Pdf.

Variable flowable : Type.
(** [Paragraph(text, style)]: reportlab parses the text's markup when the
    paragraph is built, and raises on markup it refuses. *)
Variable Paragraph : pyval -> pystr -> res flowable.
Variable Spacer : Z -> Z -> flowable.
(** [str(v)] as an f-string prints it. *)
Variable py_format : pyval -> pystr.
(** [doc.build(story)] then [buffer.getvalue()]. *)
Variable pdf_build : list flowable -> res (list Z).

Definition pdf_section (section : string * pyval) : res (list flowable) :=
  let '(section_title, content) := section in
  if py_truthy content
  then (heading <- Paragraph (PyStr (t section_title)) (t "Heading3") ;;
        n <- py_len content ;;
        truncated_content <-
          (if 1000 <? n
           then (c <- py_upto_val content 1000 ;; py_add_str c (t "..."))
           else Ok content) ;;
        body <- Paragraph truncated_content (t "Normal") ;;
        Ok [heading; body; Spacer 1 12])
  else Ok [].

Definition pdf_competitor (comp : pyval) : res flowable :=
  name <- py_get comp (t "name") (PyStr (t "Unknown")) ;;
  strengths <- py_get comp (t "strengths") (PyStr (t "Market presence")) ;;
  Paragraph (PyStr (bullet ++ py_format name ++ t ": " ++ py_format strengths)) (t "Normal").

Definition pdf_competitive (analysis : pyval) : res (list flowable) :=
  landscape <- py_get analysis (t "competitive_landscape") PyNone ;;
  if py_truthy landscape
  then (heading <- Paragraph (PyStr (t "Competitive Landscape")) (t "Heading2") ;;
        comp_data <- py_getitem analysis (t "competitive_landscape") ;;
        lines <- (match comp_data with
                  | PyDict cd =>
                      match dict_get cd (t "competitors") with
                      | Some competitors =>
                          top5 <- py_upto_val competitors 5 ;;
                          comps <- py_iter top5 ;;
                          mapM pdf_competitor comps
                      | None => Ok []
                      end
                  | _ => Ok []
                  end) ;;
        Ok (heading :: lines ++ [Spacer 1 20]))
  else Ok [].

Definition pdf_risk_line (item : pystr * pyval) : res (list flowable) :=
  let '(risk_type, risk_info) := item in
  match risk_info with
  | PyDict ri =>
      match dict_get ri (t "level") with
      | Some level =>
          p <- Paragraph (PyStr (bullet ++ py_title (py_replace risk_type [95] [32])
                                 ++ t ": " ++ py_format level)) (t "Normal") ;;
          Ok [p]
      | None => Ok []
      end
  | _ => Ok []
  end.

Definition pdf_risk (analysis : pyval) : res (list flowable) :=
  risk <- py_get analysis (t "risk_assessment") PyNone ;;
  if py_truthy risk
  then (heading <- Paragraph (PyStr (t "Risk Assessment")) (t "Heading2") ;;
        risk_data <- py_getitem analysis (t "risk_assessment") ;;
        lines <- (match risk_data with
                  | PyDict rd => ls <- mapM pdf_risk_line rd ;; Ok (concat ls)
                  | _ => Ok []
                  end) ;;
        Ok (heading :: lines ++ [Spacer 1 20]))
  else Ok [].

Definition pdf_story (analysis : pyval) : res (list flowable) :=
  therapy_area <- py_getitem analysis (t "therapy_area") ;;
  title <- Paragraph (PyStr (t "Pharma Analysis Report: " ++ py_format therapy_area))
                     (t "CustomTitle") ;;
  summary_heading <- Paragraph (PyStr (t "Executive Summary")) (t "Heading2") ;;
  summary <- py_get analysis (t "disease_summary") (PyStr []) ;;
  summary <- py_upto_val summary 500 ;;
  summary_text <- py_add_str summary (t "...") ;;
  summary_par <- Paragraph summary_text (t "Normal") ;;
  sections <- mapM (fun '(section_title, key) =>
                      content <- py_get analysis (t key) (PyStr []) ;;
                      Ok (section_title, content)) pdf_sections ;;
  section_story <- mapM pdf_section sections ;;
  competitive <- pdf_competitive analysis ;;
  risk <- pdf_risk analysis ;;
  Ok ([title; Spacer 1 20; summary_heading; summary_par; Spacer 1 20]
      ++ concat section_story ++ competitive ++ risk).

(** The [try] block: the story, the build, the encoding. *)
Definition pdf_payload (analysis : pyval) : res (list Z) :=
  story <- pdf_story analysis ;;
  pdf_build story.

Definition generate_pdf_report (analysis funnel : pyval) : res (option pystr) :=
  try_except
    (data <- pdf_payload analysis ;; Ok (Some (b64encode data)))
    (fun _ => Ok None).

End Pdf.

(* ------------------------------------------------------------------ *)
(** ** [generate_excel_export] *)

(** A worksheet: its title and its cells by reference ("A1", ...). *)
Record sheet : Type := mkSheet {
  sheet_title : pystr;
  sheet_cells : list (pystr * pyval)
}.

Definition option_list {A} (o : option A) : list A :=
  match o with Some x => [x] | None => [] end.

(** [dict.items()] *)
Definition py_items (v : pyval) : res (list (pystr * pyval)) :=
  match v with
  | PyDict d => Ok d
  | _ => Raise (AttributeError (t ("'" ++ type_name v ++ "' object has no attribute 'items'")))
  end.

Section Excel.

(** [str(v)] as an f-string prints it. *)
Variable py_format : pyval -> pystr.
(** openpyxl's conversion of a value assigned to a cell: it raises for a
    value it cannot store (a dict, a list, a string with control
    characters, ...). *)
Variable cell_value : pyval -> res pyval.
(** [wb.save(buffer)] then [buffer.getvalue()]. *)
Variable wb_save : list sheet -> res (list Z).

(** [ws[ref] = v] *)
Definition write_cell (ws : sheet) (ref : pystr) (v : pyval) : res sheet :=
  v' <- cell_value v ;;
  Ok (mkSheet (sheet_title ws) (dict_set (sheet_cells ws) ref v')).

Fixpoint write_sections (ws : sheet) (row : Z) (sections : list (string * pyval)) : res sheet :=
  match sections with
  | [] => Ok ws
  | (title, content) :: rest =>
      ws <- write_cell ws (t "A" ++ z_str row) (PyStr (t title)) ;;
      ws <- write_cell ws (t "B" ++ z_str row) content ;;
      write_sections ws (row + 2) rest
  end.

Definition summary_sheet (analysis : pyval) : res sheet :=
  therapy_area <- py_getitem analysis (t "therapy_area") ;;
  ws <- write_cell (mkSheet (t "Analysis Summary") []) (t "A1")
                   (PyStr (t "Therapy Area Analysis: " ++ py_format therapy_area)) ;;
  disease_summary <- py_get analysis (t "disease_summary") (PyStr []) ;;
  disease_summary <- py_upto_val disease_summary 500 ;;
  biomarkers <- py_get analysis (t "biomarkers") (PyStr []) ;;
  biomarkers <- py_upto_val biomarkers 300 ;;
  treatment_algorithm <- py_get analysis (t "treatment_algorithm") (PyStr []) ;;
  treatment_algorithm <- py_upto_val treatment_algorithm 300 ;;
  write_sections ws 3 [("Disease Summary", disease_summary);
                       ("Key Biomarkers", biomarkers);
                       ("Treatment Algorithm", treatment_algorithm)].

Fixpoint write_stages (ws : sheet) (i : Z) (stages : list pyval) : res sheet :=
  match stages with
  | [] => Ok ws
  | stage :: rest =>
      s <- py_get stage (t "stage") (PyStr []) ;;
      ws <- write_cell ws (t "A" ++ z_str i) s ;;
      p <- py_get stage (t "percentage") (PyStr []) ;;
      ws <- write_cell ws (t "B" ++ z_str i) p ;;
      desc <- py_get stage (t "description") (PyStr []) ;;
      ws <- write_cell ws (t "C" ++ z_str i) desc ;;
      write_stages ws (i + 1) rest
  end.

Definition funnel_sheet (funnel : pyval) : res (option sheet) :=
  if py_truthy funnel
  then (has_stages <- py_in (t "funnel_stages") funnel ;;
        if has_stages
        then (ws <- write_cell (mkSheet (t "Patient Flow Funnel") []) (t "A1") (PyStr (t "Stage")) ;;
              ws <- write_cell ws (t "B1") (PyStr (t "Percentage")) ;;
              ws <- write_cell ws (t "C1") (PyStr (t "Description")) ;;
              stages <- py_getitem funnel (t "funnel_stages") ;;
              stages <- py_iter stages ;;
              ws <- write_stages ws 2 stages ;;
              Ok (Some ws))
        else Ok None)
  else Ok None.

Fixpoint write_years (ws : sheet) (years : list Z) : res sheet :=
  match years with
  | [] => Ok ws
  | year :: rest =>
      ws <- write_cell ws ([66 + year - 2024] ++ t "1") (PyStr (z_str year)) ;;
      write_years ws rest
  end.

Fixpoint write_projections (ws : sheet) (row i : Z) (projections : list pyval) : res sheet :=
  match projections with
  | [] => Ok ws
  | projection :: rest =>
      ws <- write_cell ws ([66 + i] ++ z_str row) projection ;;
      write_projections ws row (i + 1) rest
  end.

Fixpoint write_scenarios (ws : sheet) (row : Z) (items : list (pystr * pyval)) : res sheet :=
  match items with
  | [] => Ok ws
  | (scenario, data) :: rest =>
      ws <- write_cell ws (t "A" ++ z_str row) (PyStr (py_title scenario)) ;;
      has_projections <- py_in (t "projections") data ;;
      ws <- (if has_projections
             then (projections <- py_getitem data (t "projections") ;;
                   projections <- py_upto_val projections 6 ;;
                   projections <- py_iter projections ;;
                   write_projections ws row 0 projections)
             else Ok ws) ;;
      write_scenarios ws (row + 1) rest
  end.

Definition scenario_sheet (analysis : pyval) : res (option sheet) :=
  models <- py_get analysis (t "scenario_models") PyNone ;;
  if py_truthy models
  then (ws <- write_cell (mkSheet (t "Scenario Models") []) (t "A1") (PyStr (t "Scenario")) ;;
        ws <- write_years ws [2024; 2025; 2026; 2027; 2028; 2029] ;;
        models <- py_getitem analysis (t "scenario_models") ;;
        items <- py_items models ;;
        ws <- write_scenarios ws 2 items ;;
        Ok (Some ws))
  else Ok None.

Definition workbook (analysis funnel : pyval) : res (list sheet) :=
  ws1 <- summary_sheet analysis ;;
  ws2 <- funnel_sheet funnel ;;
  ws3 <- scenario_sheet analysis ;;
  Ok (ws1 :: option_list ws2 ++ option_list ws3).

(** The [try] block: the workbook, the save, the encoding. *)
Definition excel_payload (analysis funnel : pyval) : res (list Z) :=
  wb <- workbook analysis funnel ;;
  wb_save wb.

Definition generate_excel_export (analysis funnel : pyval) : res (option pystr) :=
  try_except
    (data <- excel_payload analysis funnel ;; Ok (Some (b64encode data)))
    (fun _ => Ok None).

End Excel.

(* ------------------------------------------------------------------ *)
(** ** [create_market_analysis_chart] *)

Section MarketChart.

(** [px.pie(values=..., names=..., title=...)] and [json.dumps(fig, ...)]. *)
Variable pie_figure_json : list pyval -> list pyval -> res pystr.

Definition create_market_analysis_chart (competitive_data : pyval) : res (option pystr) :=
  has_competitors <- (if py_truthy competitive_data
                      then py_in (t "competitors") competitive_data
                      else Ok false) ;;
  if negb has_competitors then Ok None
  else (competitors <- py_getitem competitive_data (t "competitors") ;;
        competitors <- py_upto_val competitors 10 ;;
        competitors <- py_iter competitors ;;
        names <- mapM (fun comp => py_get comp (t "name") (PyStr (t "Unknown"))) competitors ;;
        market_shares <- mapM (fun comp => py_get comp (t "market_share") (PyInt 5)) competitors ;;
        fig <- pie_figure_json market_shares names ;;
        Ok (Some fig)).

End MarketChart.

(* ------------------------------------------------------------------ *)
(** ** [create_scenario_comparison_chart] *)

(** [list(range(2024, 2030))] *)
Definition years : list Z := [2024; 2025; 2026; 2027; 2028; 2029].

(** [colors.get(scenario, 'gray')] *)
Definition scenario_color (scenario : pystr) : pystr :=
  if pystr_eqb scenario (t "optimistic") then t "green"
  else if pystr_eqb scenario (t "realistic") then t "blue"
  else if pystr_eqb scenario (t "pessimistic") then t "red"
  else t "gray".

(** The arguments of one [go.Scatter(x=..., y=..., name=..., line=...)]. *)
Record trace : Type := mkTrace {
  trace_x : list Z;
  trace_y : pyval;
  trace_name : pystr;
  trace_color : pystr
}.

(** [list(v.keys())] *)
Definition py_keys (v : pyval) : res (list pystr) :=
  match v with
  | PyDict d => Ok (map fst d)
  | _ => Raise (AttributeError (t ("'" ++ type_name v ++ "' object has no attribute 'keys'")))
  end.

Section ScenarioChart.

(** The figure with the given traces, its layout and [json.dumps]. *)
Variable scatter_figure_json : list trace -> res pystr.

(** [for scenario in scenarios: if 'projections' in scenario_models[scenario]: ...] *)
Fixpoint scenario_traces (scenario_models : pyval) (scenarios : list pystr) : res (list trace) :=
  match scenarios with
  | [] => Ok []
  | scenario :: rest =>
      model <- py_getitem scenario_models scenario ;;
      has_projections <- py_in (t "projections") model ;;
      added <- (if has_projections
                then (model <- py_getitem scenario_models scenario ;;
                      projections <- py_getitem model (t "projections") ;;
                      projections <- py_upto_val projections 6 ;;
                      n <- py_len projections ;;
                      Ok [mkTrace (py_upto years n) projections (py_title scenario)
                                  (scenario_color scenario)])
                else Ok []) ;;
      others <- scenario_traces scenario_models rest ;;
      Ok (added ++ others)
  end.

Definition create_scenario_comparison_chart (scenario_models : pyval) : res (option pystr) :=
  if negb (py_truthy scenario_models) then Ok None
  else (scenarios <- py_keys scenario_models ;;
        traces <- scenario_traces scenario_models scenarios ;;
        fig <- scatter_figure_json traces ;;
        Ok (Some fig)).

End ScenarioChart.

(* ------------------------------------------------------------------ *)
(** ** [search_clinical_trials] *)

Section Trials.

(** [client.get(url, params=...)] for the given ["query.cond"]: the status
    code and the outcome of [response.json()]; it raises on a transport
    error or a timeout. *)
Variable trials_get : pystr -> res (Z * res pyval).

Definition search_clinical_trials (therapy_area : pystr) : res pyval :=
  try_except
    (resp <- trials_get (py_replace therapy_area [32] [43]) ;;
     let '(status_code, body) := resp in
     if status_code =? 200
     then (data <- body ;; py_get data (t "studies") (PyList []))
     else Ok (PyList []))
    (fun _ => Ok (PyList [])).

End Trials.


(** [GET /search/clinical-trials] *)
Section TrialsEndpoint.

Variable trials_get : pystr -> res (Z * res pyval).

Definition search_trials_endpoint (therapy_area : pystr) : http_response :=
  to_http (trials <- search_clinical_trials trials_get therapy_area ;;
           count <- py_len trials ;;
           Ok (mkdict [("trials", trials); ("count", PyInt count)])).
End TrialsEndpoint.

(* ------------------------------------------------------------------ *)
(** ** Updates, requests and the other endpoints *)

(** The [$set] of [update_one]: each field is set, an existing one in place. *)
Definition set_fields (doc : pyval) (fields : list (pystr * pyval)) : pyval :=
  match doc with
  | PyDict d => PyDict (fold_left (fun acc kv => dict_set acc (fst kv) (snd kv)) fields d)
  | _ => doc
  end.

(** [collection.update_one({key: value}, {"$set": fields})]: the first
    matching document gets the fields. *)
Fixpoint update_one (collection : list pyval) (key value : pystr)
  (fields : list (pystr * pyval)) : list pyval :=
  match collection with
  | [] => []
  | doc :: rest =>
      if field_matches key value doc then set_fields doc fields :: rest
      else doc :: update_one rest key value fields
  end.

Record therapy_request : Type := mkTherapyRequest {
  tr_therapy_area : pystr;
  tr_product_name : option pystr;
  tr_api_key : pystr
}.

Record competitive_request : Type := mkCompetitiveRequest {
  cr_therapy_area : pystr;
  cr_analysis_id : pystr;
  cr_api_key : pystr
}.

Record scenario_request : Type := mkScenarioRequest {
  sr_therapy_area : pystr;
  sr_analysis_id : pystr;
  sr_scenarios : list pystr;
  sr_api_key : pystr
}.

Record export_request : Type := mkExportRequest {
  er_analysis_id : pystr;
  er_export_type : pystr
}.

Section Analyze.

(** [LlmChat(...)...send_message(...)] on the analysis prompt (api key,
    therapy area, product name). *)
Variable analysis_chat : pystr -> pystr -> option pystr -> res pystr.
(** The model calls of [generate_competitive_analysis],
    [search_regulatory_intelligence] and [generate_risk_assessment]; the
    last one also receives [analysis.dict()]. *)
Variable competitive_chat : pystr -> pystr -> res pystr.
Variable regulatory_chat : pystr -> pystr -> res pystr.
Variable risk_chat : pystr -> pystr -> pyval -> res pystr.
Variable trials_get : pystr -> res (Z * res pyval).
(** [TherapyAreaAnalysis(...)] (validation, fresh id and timestamps)
    followed by [.dict()]. *)
Variable TherapyAreaAnalysis :
  pystr -> option pystr -> therapy_sections -> pyval -> pyval -> pyval -> res pyval.
(** The nesting [json.loads] can reach in [search_regulatory_intelligence]
    and in [generate_risk_assessment] before the recursion limit. *)
Variable regulatory_json_depth risk_json_depth : nat.
(** [db.therapy_analyses.insert_one(analysis.dict())]; on a raise the
    collection is left as it was. *)
Variable mongo_insert : pyval -> res unit.

(** [POST /analyze-therapy] *)
Definition analyze_therapy_area (d : db) (request : therapy_request) : db * http_response :=
  let therapy_area := tr_therapy_area request in
  let api_key := tr_api_key request in
  match (response <- analysis_chat api_key therapy_area (tr_product_name request) ;;
         let sections := parse_therapy_sections response in
         clinical_trials_data <- search_clinical_trials trials_get therapy_area ;;
         competitive_landscape <- generate_competitive_analysis (competitive_chat api_key therapy_area) ;;
         regulatory_intelligence <- search_regulatory_intelligence regulatory_json_depth
                                      (regulatory_chat api_key therapy_area) ;;
         top10 <- py_upto_val clinical_trials_data 10 ;;
         analysis <- TherapyAreaAnalysis therapy_area (tr_product_name request) sections top10
                       competitive_landscape regulatory_intelligence ;;
         risk_assessment <- generate_risk_assessment risk_json_depth
                              (risk_chat api_key therapy_area analysis) ;;
         let analysis := set_fields analysis [(t "risk_assessment", risk_assessment)] in
         u <- mongo_insert analysis ;;
         Ok analysis) with
  | Ok analysis => (mkDb (therapy_analyses d ++ [analysis]) (patient_flow_funnels d), HttpOk analysis)
  | Raise e => (d, HttpError 500 (t "Analysis failed: " ++ exc_str e))
  end.

End Analyze.

Section CompetitiveIntel.

Variable competitive_chat : pystr -> pystr -> res pystr.
Variable trials_get : pystr -> res (Z * res pyval).
(** The two [datetime.utcnow()] calls, in order. *)
Variable now_stored now_returned : pyval.
(** [db.therapy_analyses.update_one(filter, update)]: the driver encodes
    both documents and sends them; it may raise, and then the collection is
    left as it was. *)
Variable mongo_update : pyval -> pyval -> res unit.

(** [POST /competitive-analysis]: the database after the request and the
    outcome; [update_one] runs before [len(clinical_trials)]. *)
Definition competitive_intel_body (d : db) (request : competitive_request) : db * res pyval :=
  let analysis := found (find_one (therapy_analyses d) (t "id") (cr_analysis_id request)) in
  if negb (py_truthy analysis)
  then (d, Raise (HTTPException 404 (t "Analysis not found")))
  else
    match (competitive_data <- generate_competitive_analysis
                                 (competitive_chat (cr_api_key request) (cr_therapy_area request)) ;;
           clinical_trials <- search_clinical_trials trials_get (cr_therapy_area request) ;;
           first15 <- py_upto_val clinical_trials 15 ;;
           Ok (competitive_data, clinical_trials, first15)) with
    | Raise e => (d, Raise e)
    | Ok (competitive_data, clinical_trials, first15) =>
        let fields := [(t "competitive_landscape", competitive_data);
                       (t "clinical_trials_data", first15);
                       (t "updated_at", now_stored)] in
        match mongo_update (mkdict [("id", PyStr (cr_analysis_id request))])
                           (mkdict [("$set", PyDict fields)]) with
        | Raise e => (d, Raise e)
        | Ok _ =>
            (mkDb (update_one (therapy_analyses d) (t "id") (cr_analysis_id request) fields)
                  (patient_flow_funnels d),
             count <- py_len clinical_trials ;;
             Ok (mkdict [("status", PyStr (t "success"));
                         ("competitive_landscape", competitive_data);
                         ("clinical_trials_count", PyInt count);
                         ("updated_at", now_returned)]))
        end
    end.

Definition generate_competitive_intel (d : db) (request : competitive_request) : db * http_response :=
  match competitive_intel_body d request with
  | (d', Ok body) => (d', HttpOk body)
  | (d', Raise e) => (d', HttpError 500 (t "Competitive analysis failed: " ++ exc_str e))
  end.

End CompetitiveIntel.

Section ScenarioAnalysis.

Variable scenario_chat : pystr -> pystr -> pyval -> res pystr.
Variable scatter_figure_json : list trace -> res pystr.
Variable now_stored now_returned : pyval.
(** The nesting [json.loads] can reach in [generate_scenario_models]. *)
Variable scenario_json_depth : nat.
(** [db.therapy_analyses.update_one(filter, update)]; on a raise the
    collection is left as it was. *)
Variable mongo_update : pyval -> pyval -> res unit.

(** [POST /scenario-modeling]: the database after the request and the
    outcome; [update_one] runs before the chart is built. *)
Definition scenario_analysis_body (d : db) (request : scenario_request) : db * res pyval :=
  let analysis := found (find_one (therapy_analyses d) (t "id") (sr_analysis_id request)) in
  if negb (py_truthy analysis)
  then (d, Raise (HTTPException 404 (t "Analysis not found")))
  else
    match generate_scenario_models scenario_json_depth (sr_scenarios request)
            (scenario_chat (sr_api_key request) (sr_therapy_area request) analysis) with
    | Raise e => (d, Raise e)
    | Ok scenario_models =>
        let fields := [(t "scenario_models", scenario_models); (t "updated_at", now_stored)] in
        match mongo_update (mkdict [("id", PyStr (sr_analysis_id request))])
                           (mkdict [("$set", PyDict fields)]) with
        | Raise e => (d, Raise e)
        | Ok _ =>
            (mkDb (update_one (therapy_analyses d) (t "id") (sr_analysis_id request) fields)
                  (patient_flow_funnels d),
             visualization_chart <- create_scenario_comparison_chart scatter_figure_json scenario_models ;;
             Ok (mkdict [("status", PyStr (t "success"));
                         ("scenario_models", scenario_models);
                         ("visualization", match visualization_chart with
                                           | Some c => PyStr c | None => PyNone end);
                         ("updated_at", now_returned)]))
        end
    end.

Definition generate_scenario_analysis (d : db) (request : scenario_request) : db * http_response :=
  match scenario_analysis_body d request with
  | (d', Ok body) => (d', HttpOk body)
  | (d', Raise e) => (d', HttpError 500 (t "Scenario modeling failed: " ++ exc_str e))
  end.

End ScenarioAnalysis.

Section ExportEndpoint.

(** The two exporters ([generate_pdf_report] and [generate_excel_export]). *)
Variable pdf_export excel_export : pyval -> pyval -> res (option pystr).

Definition export_not_done : res pyval :=
  Raise (HTTPException 400 (t "Invalid export type or generation failed")).

(** The [if export_data: return {...}] block of one export type. *)
Definition export_reply (analysis : pyval) (export_type suffix : pystr)
  (export_data : option pystr) : res pyval :=
  match export_data with
  | Some data =>
      if py_truthy (PyStr data)
      then (therapy_area <- py_getitem analysis (t "therapy_area") ;;
            therapy_area <- py_replace_val therapy_area [32] [95] ;;
            filename <- py_add_str therapy_area suffix ;;
            Ok (mkdict [("status", PyStr (t "success")); ("export_type", PyStr export_type);
                        ("data", PyStr data); ("filename", filename)]))
      else export_not_done
  | None => export_not_done
  end.

Definition export_body (d : db) (request : export_request) : res pyval :=
  let analysis := found (find_one (therapy_analyses d) (t "id") (er_analysis_id request)) in
  if negb (py_truthy analysis)
  then Raise (HTTPException 404 (t "Analysis not found"))
  else
    let funnel := found (find_one (patient_flow_funnels d) (t "analysis_id") (er_analysis_id request)) in
    if pystr_eqb (er_export_type request) (t "pdf")
    then (export_data <- pdf_export analysis funnel ;;
          export_reply analysis (t "pdf") (t "_analysis.pdf") export_data)
    else if pystr_eqb (er_export_type request) (t "excel")
    then (export_data <- excel_export analysis funnel ;;
          export_reply analysis (t "excel") (t "_model.xlsx") export_data)
    else export_not_done.

(** [POST /export]; it only reads the database. *)
Definition export_analysis (d : db) (request : export_request) : http_response :=
  match export_body d request with
  | Ok v => HttpOk v
  | Raise e => HttpError 500 (t "Export failed: " ++ exc_str e)
  end.

End ExportEndpoint.

Section FunnelView.

(** [PatientFlowFunnel] built from a stored document as keyword arguments. *)
Variable funnel_view : pyval -> res pyval.

(** [GET /funnels/{analysis_id}] *)
Definition get_funnel_by_analysis (d : db) (analysis_id : pystr) : http_response :=
  to_http
    (let funnel := found (find_one (patient_flow_funnels d) (t "analysis_id") analysis_id) in
     if negb (py_truthy funnel) then Ok PyNone else funnel_view funnel).

End FunnelView.

Section StatusChecks.

(** [StatusCheck] built from [input.dict()] as keyword arguments, then
    [.dict()]: a fresh id and timestamp beside the client name. *)
Variable new_status_check : pyval -> res pyval.
(** [StatusCheck] built from a stored document as keyword arguments. *)
Variable status_check_view : pyval -> res pyval.
(** [db.status_checks.insert_one(status_obj.dict())]; on a raise the
    collection is left as it was. *)
Variable mongo_insert : pyval -> res unit.

(** [POST /status] on the [status_checks] collection. *)
Definition create_status_check (status_checks : list pyval) (client_name : pystr)
  : list pyval * res pyval :=
  match new_status_check (mkdict [("client_name", PyStr client_name)]) with
  | Ok status_obj =>
      match mongo_insert status_obj with
      | Ok _ => (status_checks ++ [status_obj], Ok status_obj)
      | Raise e => (status_checks, Raise e)
      end
  | Raise e => (status_checks, Raise e)
  end.

(** [GET /status]: [find().to_list(1000)], each document through the model. *)
Definition get_status_checks (status_checks : list pyval) : res (list pyval) :=
  mapM status_check_view (firstn 1000 status_checks).

End StatusChecks.

(* ------------------------------------------------------------------ *)
(** ** Predicates used by the properties *)


(** A text with no '#'. *)
Definition no_hash (q : pystr) : Prop := ~ In 35 q.

(** A competitor entry whose ["name"] is a string and whose
    ["market_share"] is an int. *)
Definition named_entry (v : pyval) : Prop :=
  exists d name share, v = PyDict d /\ dict_get d (t "name") = Some (PyStr name)
                       /\ dict_get d (t "market_share") = Some (PyInt share).

(* ------------------------------------------------------------------ *)
(** ** Sample inputs and projections used by the properties *)




Definition projections_of (v : pyval) (scenario : string) : option pyval :=
  match lookup v scenario with
  | Some entry => lookup entry "projections"
  | None => None
  end.

Definition acme_pipeline_line : pystr := t "1. Acme Corp: 30% share, strong pipeline".

Definition acme_portfolio_line : pystr := t "1. Acme Corp: 30% share, strong portfolio".

Definition after_competitors_header : comp_state := with_section init_comp_state Competitors.

Definition six_company_lines : pystr :=
  t "Pfizer" ++ [10] ++ t "Roche" ++ [10] ++ t "Merck" ++ [10] ++ t "Amgen" ++ [10]
  ++ t "Gilead" ++ [10] ++ t "Biogen".


(** [[0, 1, ..., n-1]] *)
Definition seq_z (n : nat) : list Z := map Z.of_nat (seq 0 n).

(** A stored therapy analysis and a database holding only it. *)
Definition sample_analysis : pyval :=
  mkdict [("id", PyStr (t "a-1")); ("therapy_area", PyStr (t "Lung cancer"));
          ("disease_summary", PyStr (t "NSCLC")); ("treatment_algorithm", PyStr (t "Surgery"));
          ("patient_journey", PyStr (t "Diagnosis"))].

Definition sample_db : db := mkDb [sample_analysis] [].

(** A competitor line whose share, 99999999999999999999, does not fit in
    64 bits, after the competitors header. *)
Definition big_share_response : pystr :=
  t "MAJOR COMPETITORS" ++ [10] ++ t "1. Acme Corp: 99999999999999999999% share".

(** A stored analysis with scenario models, and a funnel with stages. *)
Definition analysis_with_scenarios : pyval :=
  mkdict [("id", PyStr (t "a-1")); ("therapy_area", PyStr (t "Lung cancer"));
          ("disease_summary", PyStr (t "NSCLC"));
          ("scenario_models",
           mkdict [("realistic", mkdict [("projections", PyList (map PyInt [100; 250; 500]))])])].

Definition funnel_with_stages : pyval :=
  mkdict [("funnel_stages",
           PyList [mkdict [("stage", PyStr (t "Total Population"));
                           ("percentage", PyStr (t "100%"));
                           ("description", PyStr (t "All patients"))]])].


(** A record constructor that keeps only the therapy area. *)
Definition sample_record (therapy_area : pystr) (product_name : option pystr)
  (sections : therapy_sections) (trials competitive regulatory : pyval) : res pyval :=
  Ok (mkdict [("therapy_area", PyStr therapy_area)]).

(* ================================================================== *)
(** * Properties *)

(* ------------------------------------------------------------------ *)
(** ** Text lemmas *)

Lemma split_go_no_sep (sep : pystr) :
  forall fuel s cur,
    (length s < fuel)%nat -> py_contains sep s = false ->
    split_go fuel sep s cur = [rev cur ++ s].
Proof.
  induction fuel as [|f IH]; intros s cur Hlen Hno; [lia|].
  destruct s as [|x r]; simpl.
  - now rewrite app_nil_r.
  - simpl in Hno. apply orb_false_iff in Hno as [Hp Hr].
    rewrite Hp, IH by (simpl in Hlen; lia || assumption).
    simpl. now rewrite <- app_assoc.
Qed.

Lemma py_split_no_sep (s sep : pystr) :
  py_contains sep s = false -> py_split s sep = [s].
Proof.
  intro H. unfold py_split. destruct sep as [|c sep'].
  - reflexivity.
  - rewrite split_go_no_sep by (lia || assumption). reflexivity.
Qed.




Lemma norm_index_in_range (n i : Z) : 0 <= i <= n -> norm_index n i = i.
Proof. intro H. unfold norm_index. destruct (Z.ltb_spec i 0); lia. Qed.

(* ------------------------------------------------------------------ *)
(** ** Embedded-JSON parse *)





(* ------------------------------------------------------------------ *)
(** ** Delimited-section parse *)

(** C6: for a response with no "## " marker, [response.split("## ")] has a
    single piece, the loop over [sections[1:]] does nothing, and the five
    sections (disease summary, staging, biomarkers, treatment algorithm,
    patient journey) all stay the empty string; the parse is a total
    function, it raises nothing. *)
Theorem therapy_sections_without_markers (response : pystr) :
  py_contains (t "## ") response = false ->
  parse_therapy_sections response = mkSections [] [] [] [] [].
Proof.
  intro H. unfold parse_therapy_sections.
  rewrite py_split_no_sep by exact H. reflexivity.
Qed.

Lemma therapy_sections_without_markers_witness :
  py_contains (t "## ") (t "DISEASE SUMMARY: no markers # here") = false /\
  parse_therapy_sections (t "DISEASE SUMMARY: no markers # here") = mkSections [] [] [] [] [].
Proof.
  assert (H : py_contains (t "## ") (t "DISEASE SUMMARY: no markers # here") = false)
    by (vm_compute; reflexivity).
  exact (conj H (therapy_sections_without_markers _ H)).
Defined.

(* ------------------------------------------------------------------ *)
(** ** Dict lemmas *)


(* ------------------------------------------------------------------ *)
(** ** Scenario fallback *)


(** C5: when the scenario response does not decode, the fallback for
    [["pessimistic", "realistic", "optimistic"]] has, for each scenario, the
    base curve [[100, 250, 500, 750, 900, 800]] multiplied in binary64 by
    0.6, 1.0 and 1.8 respectively and truncated by [int]; these are the
    truncations of the exact products (p * 3/5, p, p * 9/5). *)
Theorem scenario_fallback_projections (lim : nat) (response : pystr) :
  json_loads lim response = None ->
  exists v,
    generate_scenario_models lim [t "pessimistic"; t "realistic"; t "optimistic"] (Ok response) = Ok v /\
    projections_of v "pessimistic" = Some (PyList (map PyInt [60; 150; 300; 450; 540; 480])) /\
    projections_of v "realistic" = Some (PyList (map PyInt [100; 250; 500; 750; 900; 800])) /\
    projections_of v "optimistic" = Some (PyList (map PyInt [180; 450; 900; 1350; 1620; 1440])) /\
    map (fun p => p * 3 / 5) base_projections = [60; 150; 300; 450; 540; 480] /\
    map (fun p => p * 9 / 5) base_projections = [180; 450; 900; 1350; 1620; 1440].
Proof.
  intro H.
  unfold generate_scenario_models, try_except. simpl bind. rewrite H.
  vm_compute. eexists. repeat split; reflexivity.
Qed.

Lemma scenario_fallback_projections_witness :
  json_loads 1000 (t "Scenarios: see table below") = None /\
  exists v,
    generate_scenario_models 1000 [t "pessimistic"; t "realistic"; t "optimistic"]
      (Ok (t "Scenarios: see table below")) = Ok v /\
    projections_of v "pessimistic" = Some (PyList (map PyInt [60; 150; 300; 450; 540; 480])).
Proof.
  assert (H : json_loads 1000 (t "Scenarios: see table below") = None) by (vm_compute; reflexivity).
  split; [exact H|].
  destruct (scenario_fallback_projections _ _ H) as [v [Hv [Hp _]]].
  exists v. exact (conj Hv Hp).
Defined.

(* ------------------------------------------------------------------ *)
(** ** Heuristic competitor lines *)


(** The state right after a "MAJOR COMPETITORS" header. *)

(** C7 (counterexample): in the competitors section, the line
    "1. Acme Corp: 30% share, strong pipeline" contains the keyword
    PIPELINE once upper-cased, so it is read as the header of the pipeline
    section: no competitor entry is produced, and a response made of the
    competitors header and that line ends with no competitor at all. *)
Lemma acme_pipeline_line_counterexample :
  (exists st, comp_step after_competitors_header acme_pipeline_line = Ok st /\
              cs_competitors st = [] /\ cs_section st = Pipeline) /\
  (exists v, competitive_parse (t "MAJOR COMPETITORS" ++ [10] ++ acme_pipeline_line) = Ok v /\
             lookup v "competitors" = Some (PyList [])).
Proof. split; vm_compute; eexists; repeat split; reflexivity. Qed.

(** C7 (amended): in the competitors section, a numbered line without any
    section keyword, "1. Acme Corp: 30% share, strong portfolio", appends one
    entry named "Acme Corp" (prefix "1." stripped) with market_share 30,
    while "1. Acme Corp: 30% share, strong pipeline" switches the current
    section to pipeline and appends nothing; neither line raises. *)
Theorem competitor_line_extraction (st : comp_state) :
  cs_section st = Competitors ->
  (exists st' e,
     comp_step st acme_portfolio_line = Ok st' /\
     cs_competitors st' = cs_competitors st ++ [e] /\
     lookup e "name" = Some (PyStr (t "Acme Corp")) /\
     lookup e "market_share" = Some (PyInt 30)) /\
  (exists st',
     comp_step st acme_pipeline_line = Ok st' /\
     cs_competitors st' = cs_competitors st /\
     cs_section st' = Pipeline).
Proof.
  destruct st as [comps md pl pos cat sec content]. simpl. intro Hs. subst sec.
  split.
  - destruct content; vm_compute; do 2 eexists; repeat split; reflexivity.
  - destruct content; vm_compute; eexists; repeat split; reflexivity.
Qed.

Lemma competitor_line_extraction_witness :
  cs_section after_competitors_header = Competitors /\
  exists st, comp_step after_competitors_header acme_pipeline_line = Ok st /\
             cs_competitors st = [].
Proof.
  assert (H : cs_section after_competitors_header = Competitors) by reflexivity.
  split; [exact H|].
  destruct (proj2 (competitor_line_extraction _ H)) as [st [Hst [Hc _]]].
  exists st. exact (conj Hst Hc).
Defined.

Lemma lookup_competitor_entry (name products strengths weaknesses : pystr) (share : Z) :
  lookup (mkdict [("name", PyStr name); ("products", PyStr products);
                  ("market_share", PyInt share); ("strengths", PyStr strengths);
                  ("weaknesses", PyStr weaknesses)]) "market_share" = Some (PyInt share).
Proof. reflexivity. Qed.

Lemma market_share_of_no_match (details : pystr) :
  search_pct details = None -> market_share_of details = Ok 25.
Proof.
  intro H. unfold market_share_of. rewrite H. now destruct (py_contains [37] details).
Qed.

(** C4 (counterexample): in the competitors section, "1. Acme Corp: strong
    portfolio" has no percentage in its details and yields market_share 25,
    not 5; an entry of the known-company pass, here for "Pfizer leads the
    market", has market_share 15, not 5. *)
Lemma default_market_share_counterexample :
  (exists v, competitive_parse (t "MAJOR COMPETITORS" ++ [10] ++ t "1. Acme Corp: strong portfolio")
             = Ok v /\
   match lookup v "competitors" with
   | Some (PyList (e :: _)) => lookup e "market_share"
   | _ => None
   end = Some (PyInt 25)) /\
  (exists v, competitive_parse (t "Overview" ++ [10] ++ t "Pfizer leads the market") = Ok v /\
   match lookup v "competitors" with
   | Some (PyList (e :: _)) => lookup e "market_share"
   | _ => None
   end = Some (PyInt 15)).
Proof. split; vm_compute; eexists; split; reflexivity. Qed.

(** C4 (amended): an entry extracted from a competitor line whose details
    part has no [(\d+)%] match (any Unicode decimal digit counting for
    [\d]) has market_share 25, and every entry of the known-company pass has
    market_share 15. *)
Theorem competitor_default_market_share (line : pystr) (e : pyval) :
  search_pct (py_strip (snd (split_colon line))) = None ->
  competitor_of_line line = Ok (Some e) ->
  lookup e "market_share" = Some (PyInt 25) /\
  (forall l, lookup (known_company_entry l) "market_share" = Some (PyInt 15)).
Proof.
  intros Hpct He. split; [|intro l; reflexivity].
  unfold competitor_of_line in He.
  destruct (split_colon line) as [cp dp] eqn:Hsplit. simpl in Hpct.
  destruct (any_in ["-"; "1."; "2."; "3."] line || py_contains [8226] line); [|discriminate].
  destruct (negb (Nat.eqb (length (clean_company (py_strip cp))) 0)
            && (2 <? length (clean_company (py_strip cp)))%nat); [|discriminate].
  rewrite market_share_of_no_match in He by exact Hpct.
  cbn [bind] in He. injection He as <-.
  apply lookup_competitor_entry.
Qed.

Lemma competitor_default_market_share_witness :
  search_pct (py_strip (snd (split_colon (t "1. Acme Corp: strong portfolio")))) = None /\
  lookup (match competitor_of_line (t "1. Acme Corp: strong portfolio") with
          | Ok (Some e) => e | _ => PyNone end) "market_share" = Some (PyInt 25).
Proof.
  assert (H1 : search_pct (py_strip (snd (split_colon (t "1. Acme Corp: strong portfolio")))) = None)
    by (vm_compute; reflexivity).
  split; [exact H1|].
  destruct (competitor_of_line (t "1. Acme Corp: strong portfolio")) as [[e|]|err] eqn:He.
  - exact (proj1 (competitor_default_market_share _ _ H1 He)).
  - vm_compute in He. discriminate.
  - vm_compute in He. discriminate.
Defined.

(* ------------------------------------------------------------------ *)
(** ** Known-company pass *)

Lemma known_company_pass_le5 (lines : list pystr) :
  forall acc, (length acc < 5)%nat -> (length (known_company_pass acc lines) <= 5)%nat.
Proof.
  induction lines as [|line rest IH]; intros acc Hacc; cbn [known_company_pass]; [lia|].
  set (acc' := if any_in known_companies (py_upper line)
               then acc ++ [known_company_entry line] else acc).
  assert (Hlen : (length acc' <= S (length acc))%nat).
  { unfold acc'. destruct (any_in known_companies (py_upper line));
      [rewrite length_app; simpl|]; lia. }
  destruct (Nat.leb_spec 5 (length acc')); [lia|].
  apply IH. lia.
Qed.

(** Once the lines read so far have produced 5 entries the loop breaks: the
    lines after them are never looked at. *)
Lemma known_company_pass_stops (l1 l2 : list pystr) :
  forall acc, (length acc < 5)%nat ->
  (5 <= length (known_company_pass acc l1))%nat ->
  known_company_pass acc (l1 ++ l2) = known_company_pass acc l1.
Proof.
  induction l1 as [|line rest IH]; intros acc Hacc H5; cbn [known_company_pass app] in *; [lia|].
  destruct (Nat.leb_spec 5 (length (if any_in known_companies (py_upper line)
                                    then acc ++ [known_company_entry line] else acc)));
    [reflexivity|].
  apply IH; assumption.
Qed.

(** The competitors list of the parse, from the state the loop ends in. *)
Definition competitors_of (response : pystr) (st : comp_state) : list pyval :=
  py_upto (match cs_competitors st with
           | [] => known_company_pass [] (py_split response [10])
           | cs => cs
           end) 7.

Lemma competitive_parse_of_fold (response : pystr) (st : comp_state) :
  comp_fold init_comp_state (py_split response [10]) = Ok st ->
  exists v, competitive_parse response = Ok v /\
            lookup v "competitors" = Some (PyList (competitors_of response st)) /\
            lookup v "full_analysis" = Some (PyStr response).
Proof.
  intro H. unfold competitive_parse. rewrite H. cbn [bind].
  eexists. split; [reflexivity|]. split; reflexivity.
Qed.

Lemma competitive_parse_Ok (response : pystr) (v : pyval) :
  competitive_parse response = Ok v ->
  exists st, comp_fold init_comp_state (py_split response [10]) = Ok st /\
             lookup v "competitors" = Some (PyList (competitors_of response st)) /\
             lookup v "full_analysis" = Some (PyStr response).
Proof.
  unfold competitive_parse.
  destruct (comp_fold init_comp_state (py_split response [10])) as [st|e] eqn:Hf;
    cbn [bind]; intro H; [|discriminate].
  injection H as <-. exists st. split; [reflexivity|]. split; reflexivity.
Qed.

Lemma py_upto_short {A} (l : list A) (n : Z) :
  (Z.of_nat (length l) <= n) -> py_upto l n = l.
Proof.
  intro H. unfold py_upto, py_slice.
  rewrite (norm_index_in_range _ 0) by lia.
  unfold norm_index. destruct (Z.ltb_spec n 0); [lia|].
  rewrite Z.min_r by lia. simpl. apply firstn_all2. lia.
Qed.

Lemma py_upto_length {A} (l : list A) (n : Z) :
  0 <= n -> (Z.of_nat (length (py_upto l n)) <= n).
Proof.
  intro H. unfold py_upto, py_slice.
  rewrite (norm_index_in_range _ 0) by lia. simpl.
  rewrite length_firstn. unfold norm_index. destruct (Z.ltb_spec n 0); lia.
Qed.

(** C8: when the line-classification loop runs through and extracts no
    competitor, the returned competitors are exactly those of the
    known-company pass over [response.split('\n')]: at most 5 of them, and
    as soon as the first [n] lines have produced 5 the remaining lines are
    not scanned.  Whenever the parse returns, its competitors list has at
    most 7 entries. *)
Theorem known_company_pass_bounded (response : pystr) (st : comp_state) :
  comp_fold init_comp_state (py_split response [10%Z]) = Ok st ->
  cs_competitors st = [] ->
  (exists v, competitive_parse response = Ok v /\
             lookup v "competitors"
             = Some (PyList (known_company_pass [] (py_split response [10%Z])))) /\
  (length (known_company_pass [] (py_split response [10%Z])) <= 5)%nat /\
  (forall n, (5 <= length (known_company_pass [] (firstn n (py_split response [10%Z]))))%nat ->
     known_company_pass [] (py_split response [10%Z])
     = known_company_pass [] (firstn n (py_split response [10%Z]))) /\
  (forall r v, competitive_parse r = Ok v ->
     exists l, lookup v "competitors" = Some (PyList l) /\ (length l <= 7)%nat).
Proof.
  intros Hf H0.
  assert (Hle : (length (known_company_pass [] (py_split response [10%Z])) <= 5)%nat)
    by (apply known_company_pass_le5; simpl; lia).
  split; [|split; [exact Hle|split]].
  - destruct (competitive_parse_of_fold response st Hf) as [v [Hv [Hc _]]].
    exists v. split; [exact Hv|]. rewrite Hc. unfold competitors_of. rewrite H0.
    rewrite py_upto_short by lia. reflexivity.
  - intros n Hn.
    rewrite <- (firstn_skipn n (py_split response [10%Z])) at 1.
    apply known_company_pass_stops; [simpl; lia | exact Hn].
  - intros r v Hv.
    destruct (competitive_parse_Ok r v Hv) as [st' [_ [Hc _]]].
    eexists. split; [exact Hc|].
    pose proof (py_upto_length (match cs_competitors st' with
                                | [] => known_company_pass [] (py_split r [10%Z])
                                | cs => cs
                                end) 7) as Hl.
    unfold competitors_of. lia.
Qed.

Lemma known_company_pass_bounded_witness :
  (exists st, comp_fold init_comp_state (py_split six_company_lines [10%Z]) = Ok st /\
              cs_competitors st = []) /\
  (exists v, competitive_parse six_company_lines = Ok v /\
             lookup v "competitors"
             = Some (PyList (known_company_pass [] (py_split six_company_lines [10%Z])))) /\
  length (known_company_pass [] (py_split six_company_lines [10%Z])) = 5%nat.
Proof.
  destruct (comp_fold init_comp_state (py_split six_company_lines [10%Z])) as [st|e] eqn:Hf;
    [|vm_compute in Hf; discriminate].
  assert (H0 : cs_competitors st = []) by (vm_compute in Hf; injection Hf as <-; reflexivity).
  split; [exists st; split; [reflexivity | exact H0]|]. split.
  - exact (proj1 (known_company_pass_bounded _ _ Hf H0)).
  - vm_compute. reflexivity.
Defined.

(* ------------------------------------------------------------------ *)
(** ** Fallbacks of the model-response parsers *)













(* ------------------------------------------------------------------ *)
(** ** Funnel chart on the fallback stages *)

(** C10: when the sliced funnel response does not decode, the fallback
    stages hold the percentage "Variable"; [create_funnel_chart] converts
    "100%" then reaches [float("Variable")] and raises ValueError with the
    text's [repr] in its message, whatever the chart library would do. *)
Theorem funnel_fallback_chart_raises
  (funnel_figure_json : list pyval -> list pyval -> list pystr -> res pystr)
  (lim : nat) (response : pystr) :
  json_loads lim (json_slice response) = None ->
  (stages <- py_get (parse_funnel_response lim response) (t "funnel_stages") (PyList []) ;;
   create_funnel_chart funnel_figure_json stages)
  = Raise (ValueError (t "could not convert string to float: 'Variable'")).
Proof.
  intro H. unfold parse_funnel_response. rewrite H. reflexivity.
Qed.

Lemma funnel_fallback_chart_raises_witness :
  json_loads 1000 (json_slice (t "I cannot produce JSON for this request.")) = None /\
  (stages <- py_get (parse_funnel_response 1000 (t "I cannot produce JSON for this request."))
                    (t "funnel_stages") (PyList []) ;;
   create_funnel_chart (fun _ _ _ => Ok []) stages)
  = Raise (ValueError (t "could not convert string to float: 'Variable'")).
Proof.
  assert (H : json_loads 1000 (json_slice (t "I cannot produce JSON for this request.")) = None)
    by (vm_compute; reflexivity).
  exact (conj H (funnel_fallback_chart_raises (fun _ _ _ => Ok []) 1000 _ H)).
Defined.

(* ------------------------------------------------------------------ *)
(** ** Funnel generation for an unknown analysis *)

(** C1: when no stored therapy analysis has the requested id, the funnel
    handler's own [HTTPException(404)] is caught by its [except Exception]
    and re-raised as a 500 whose detail is
    "Funnel generation failed: 404: Analysis not found"; the database is
    left unchanged, no funnel is inserted.  The details view answers the
    same id with the 404 itself.  This holds whatever the model, the
    charts and the record construction would do. *)
Theorem funnel_unknown_analysis_server_error
  (funnel_figure_json : list pyval -> list pyval -> list pystr -> res pystr)
  (funnel_chat : pystr -> pystr -> pyval -> pyval -> pyval -> res pystr)
  (scenario_chat : pystr -> pystr -> pyval -> res pystr)
  (create_scenario_comparison_chart create_market_analysis_chart : pyval -> res pystr)
  (PatientFlowFunnel : pystr -> pystr -> pyval -> pyval -> pyval -> pyval -> pyval -> res pyval)
  (analysis_details : pyval -> option pyval -> res pyval)
  (funnel_json_depth scenario_json_depth : nat) (mongo_insert : pyval -> res unit)
  (d : db) (request : funnel_request) :
  find_one (therapy_analyses d) (t "id") (fr_analysis_id request) = None ->
  generate_patient_flow_funnel funnel_figure_json funnel_chat scenario_chat
    create_scenario_comparison_chart create_market_analysis_chart PatientFlowFunnel
    funnel_json_depth scenario_json_depth mongo_insert d request
  = (d, HttpError 500 (t "Funnel generation failed: 404: Analysis not found")) /\
  get_analysis_details analysis_details d (fr_analysis_id request)
  = HttpError 404 (t "Analysis not found").
Proof.
  intro H.
  unfold generate_patient_flow_funnel, funnel_body, get_analysis_details.
  rewrite H. split; reflexivity.
Qed.

Lemma funnel_unknown_analysis_server_error_witness :
  find_one [mkdict [("id", PyStr (t "a-1")); ("therapy_area", PyStr (t "Oncology"))]]
           (t "id") (t "a-2") = None /\
  generate_patient_flow_funnel
    (fun _ _ _ => Ok []) (fun _ _ _ _ _ => Ok (t "{}")) (fun _ _ _ => Ok (t "{}"))
    (fun _ => Ok []) (fun _ => Ok []) (fun _ _ _ _ _ _ _ => Ok (PyDict []))
    1000 1000 bson_int_check
    (mkDb [mkdict [("id", PyStr (t "a-1")); ("therapy_area", PyStr (t "Oncology"))]] [])
    (mkFunnelRequest (t "Oncology") (t "a-2") (t "key"))
  = (mkDb [mkdict [("id", PyStr (t "a-1")); ("therapy_area", PyStr (t "Oncology"))]] [],
     HttpError 500 (t "Funnel generation failed: 404: Analysis not found")).
Proof.
  assert (H : find_one [mkdict [("id", PyStr (t "a-1")); ("therapy_area", PyStr (t "Oncology"))]]
                       (t "id") (t "a-2") = None) by (vm_compute; reflexivity).
  exact (conj H (proj1 (funnel_unknown_analysis_server_error
                          (fun _ _ _ => Ok []) (fun _ _ _ _ _ => Ok (t "{}"))
                          (fun _ _ _ => Ok (t "{}")) (fun _ => Ok []) (fun _ => Ok [])
                          (fun _ _ _ _ _ _ _ => Ok (PyDict [])) (fun _ _ => Ok PyNone)
                          1000 1000 bson_int_check
                          (mkDb [mkdict [("id", PyStr (t "a-1"));
                                         ("therapy_area", PyStr (t "Oncology"))]] [])
                          (mkFunnelRequest (t "Oncology") (t "a-2") (t "key")) H))).
Defined.

(* ------------------------------------------------------------------ *)
(** ** The exporters *)

Lemma b64encode_samples :
  b64encode (t "Man") = t "TWFu" /\ b64encode (t "Ma") = t "TWE=" /\
  b64encode (t "M") = t "TQ==".
Proof. repeat split; vm_compute; reflexivity. Qed.

(** C9: whatever the analysis, the funnel and the libraries do, neither
    exporter raises: each returns the base64 text of the bytes its [try]
    block produced, or [None] when that block raised. *)
Theorem exporters_never_raise
  (flowable : Type) (Paragraph : pyval -> pystr -> res flowable)
  (Spacer : Z -> Z -> flowable) (py_format : pyval -> pystr)
  (pdf_build : list flowable -> res (list Z))
  (cell_value : pyval -> res pyval) (wb_save : list sheet -> res (list Z))
  (analysis funnel : pyval) :
  (exists o,
     generate_pdf_report flowable Paragraph Spacer py_format pdf_build analysis funnel = Ok o /\
     match pdf_payload flowable Paragraph Spacer py_format pdf_build analysis with
     | Ok data => o = Some (b64encode data)
     | Raise _ => o = None
     end) /\
  (exists o,
     generate_excel_export py_format cell_value wb_save analysis funnel = Ok o /\
     match excel_payload py_format cell_value wb_save analysis funnel with
     | Ok data => o = Some (b64encode data)
     | Raise _ => o = None
     end).
Proof.
  unfold generate_pdf_report, generate_excel_export, try_except.
  split.
  - destruct (pdf_payload flowable Paragraph Spacer py_format pdf_build analysis);
      simpl; eexists; split; reflexivity.
  - destruct (excel_payload py_format cell_value wb_save analysis funnel);
      simpl; eexists; split; reflexivity.
Qed.

(* ================================================================== *)
(** * Further properties of the handlers and helpers *)

Lemma find_from_not_in (c : Z) (s : pystr) : forall i, ~ In c s -> find_from c s i = -1.
Proof.
  induction s as [|x r IH]; intros i H; simpl; [reflexivity|].
  destruct (Z.eqb_spec x c); [subst; exfalso; apply H; now left|].
  apply IH. intro; apply H; now right.
Qed.

Lemma find_from_range (c : Z) (s : pystr) : forall i,
  find_from c s i = -1 \/ i <= find_from c s i.
Proof.
  induction s as [|x r IH]; intros i; simpl; [now left|].
  destruct (x =? c); [right; lia|].
  destruct (IH (i + 1)); [now left | right; lia].
Qed.

Lemma norm_index_bounds (n i : Z) : 0 <= n -> 0 <= norm_index n i <= n.
Proof. intro. unfold norm_index. destruct (Z.ltb_spec i 0); lia. Qed.

(** With no '}' in the text, or no '{', the slice holds at most the
    closing brace. *)
Lemma json_slice_unbalanced (s : pystr) :
  ~ In 123 s \/ ~ In 125 s -> json_slice s = [] \/ json_slice s = [125].
Proof.
  intros [H|H]; unfold json_slice, py_slice, py_rfind, py_find.
  - rewrite (find_from_not_in 123 s 0 H).
    destruct s as [|y s0] using rev_ind; [left; reflexivity|]. clear IHs0.
    replace (rev (s0 ++ [y])) with (y :: rev s0) by (rewrite rev_app_distr; reflexivity).
    cbn [find_from]. change (0 + 1) with 1.
    rewrite length_app. simpl length.
    replace (Z.of_nat (length s0 + 1)) with (Z.of_nat (length s0) + 1) by lia.
    assert (Ha : norm_index (Z.of_nat (length s0) + 1) (-1) = Z.of_nat (length s0))
      by (unfold norm_index; destruct (Z.ltb_spec (-1) 0); lia).
    rewrite Ha.
    destruct (Z.eqb_spec y 125).
    + right. subst y. simpl.
      replace (Z.of_nat (length s0) + 1 - 1 - 0 + 1) with (Z.of_nat (length s0) + 1) by lia.
      rewrite norm_index_in_range by lia.
      replace (Z.to_nat (Z.of_nat (length s0) + 1 - Z.of_nat (length s0))) with 1%nat by lia.
      rewrite Nat2Z.id, skipn_app, skipn_all, Nat.sub_diag. reflexivity.
    + left.
      destruct (find_from_range 125 (rev s0) 1) as [E|E]; rewrite ?E.
      * rewrite (norm_index_in_range _ (-1 + 1)) by lia.
        replace (Z.to_nat _) with 0%nat by lia. reflexivity.
      * destruct (Z.ltb_spec (find_from 125 (rev s0) 1) 0); [lia|].
        unfold norm_index at 1.
        match goal with |- context [if ?c then _ else _] => destruct c eqn:? end; replace (Z.to_nat _) with 0%nat by lia; reflexivity.
  - rewrite (find_from_not_in 125 (rev s) 0) by (rewrite <- in_rev; exact H).
    left. simpl.
    pose proof (norm_index_bounds (Z.of_nat (length s)) (find_from 123 s 0)) as B.
    rewrite (norm_index_in_range _ 0) by lia.
    replace (Z.to_nat _) with 0%nat by lia. reflexivity.
Qed.

(** X1: when the funnel response has no '{' or no '}', the slice between
    them is empty or a lone '}', [json.loads] refuses it, and the handler
    uses its built-in fallback funnel for that response. *)
Theorem funnel_parse_unbalanced_fallback (lim : nat) (response : pystr) :
  ~ In 123 response \/ ~ In 125 response ->
  parse_funnel_response lim response = funnel_fallback response.
Proof.
  intro H. unfold parse_funnel_response.
  destruct (json_slice_unbalanced response H) as [E|E]; rewrite E; reflexivity.
Qed.

Lemma is_prefix_app (p s : pystr) : is_prefix p (p ++ s) = true.
Proof. induction p as [|x p IH]; simpl; [reflexivity|]. now rewrite Z.eqb_refl, IH. Qed.

Lemma skipn_length_app' {A} (p s : list A) : skipn (length p) (p ++ s) = s.
Proof. induction p; simpl; auto. Qed.

Section SplitJoin.

Variable sep : pystr.
Hypothesis sep_head : exists sep', sep = 35 :: sep'.

Lemma sep_length : (1 <= length sep)%nat.
Proof. destruct sep_head as [s' ->]. simpl. lia. Qed.

Lemma split_go_fuel : forall f1 f2 s cur,
  (length s < f1)%nat -> (length s < f2)%nat ->
  split_go f1 sep s cur = split_go f2 sep s cur.
Proof.
  induction f1 as [|f1 IH]; intros f2 s cur H1 H2; [lia|].
  destruct f2 as [|f2]; [lia|].
  destruct s as [|x r]; cbn [split_go]; [reflexivity|].
  pose proof sep_length.
  pose proof (length_skipn (length sep) (x :: r)).
  destruct (is_prefix sep (x :: r)) eqn:E.
  - f_equal. apply IH; simpl length in *; lia.
  - apply IH; simpl length in *; lia.
Qed.

Lemma split_go_no_hash : forall a s cur f,
  ~ In 35 a -> (length (a ++ s) < f)%nat ->
  split_go f sep (a ++ s) cur = split_go (f - length a) sep s (rev a ++ cur).
Proof.
  induction a as [|x a IH]; intros s cur f Ha Hf.
  - simpl. now rewrite Nat.sub_0_r.
  - destruct f as [|f]; [simpl in Hf; lia|].
    simpl app. cbn [split_go].
    assert (E : is_prefix sep (x :: a ++ s) = false).
    { destruct sep_head as [s' ->]. cbn [is_prefix].
      destruct (Z.eqb_spec 35 x); [subst; exfalso; apply Ha; now left|reflexivity]. }
    rewrite E. rewrite IH.
    + simpl. now rewrite <- app_assoc.
    + intro; apply Ha; now right.
    + simpl in Hf. lia.
Qed.

Lemma split_go_at_sep (f : nat) (s cur : pystr) :
  split_go (S f) sep (sep ++ s) cur = rev cur :: split_go f sep s [].
Proof.
  destruct sep_head as [s' E].
  assert (Hs : sep ++ s = 35 :: (s' ++ s)) by (now rewrite E).
  cbn [split_go]. rewrite Hs. rewrite <- Hs.
  rewrite is_prefix_app. now rewrite skipn_length_app'.
Qed.

Lemma split_go_join : forall rest first cur f,
  Forall (fun q => ~ In 35 q) (first :: rest) ->
  (length (first ++ concat (map (fun q => sep ++ q) rest)) < f)%nat ->
  split_go f sep (first ++ concat (map (fun q => sep ++ q) rest)) cur
  = (rev cur ++ first) :: rest.
Proof.
  induction rest as [|q rest IH]; intros first cur f HF Hf; inversion HF as [|? ? Hfirst Hrest]; subst.
  - simpl in *. rewrite app_nil_r in *.
    rewrite <- (app_nil_r first) at 1.
    rewrite split_go_no_hash by (auto; rewrite app_nil_r; lia).
    destruct (f - length first)%nat eqn:E; [lia|].
    simpl. now rewrite rev_app_distr, rev_involutive.
  - simpl concat. simpl map. cbn [concat map] in Hf |- *.
    rewrite split_go_no_hash by auto.
    rewrite length_app in Hf.
    destruct (f - length first)%nat as [|f'] eqn:E.
    { simpl in Hf. lia. }
    rewrite <- app_assoc. rewrite split_go_at_sep.
    rewrite rev_app_distr, rev_involutive.
    f_equal. rewrite IH with (cur := []); auto.
    pose proof sep_length. rewrite !length_app in Hf. rewrite length_app. lia.
Qed.

End SplitJoin.

Lemma replace_go_fuel (old new : pystr) : old <> [] -> forall f1 f2 s,
  (length s <= f1)%nat -> (length s <= f2)%nat ->
  replace_go f1 old new s = replace_go f2 old new s.
Proof.
  intros Hold. induction f1 as [|f1 IH]; intros f2 s H1 H2.
  - destruct s; [|simpl in H1; lia]. destruct f2; reflexivity.
  - destruct s as [|x r]; [destruct f2; reflexivity|].
    destruct f2 as [|f2]; [simpl in H2; lia|].
    cbn [replace_go].
    assert (1 <= length old)%nat by (destruct old; [congruence|simpl; lia]).
    pose proof (length_skipn (length old) (x :: r)).
    destruct (is_prefix old (x :: r)).
    + f_equal. apply IH; simpl length in *; lia.
    + f_equal. apply IH; simpl length in *; lia.
Qed.

Lemma replace_go_S (f : nat) (old new : pystr) (x : Z) (r : pystr) :
  replace_go (S f) old new (x :: r)
  = if is_prefix old (x :: r) then new ++ replace_go f old new (skipn (length old) (x :: r))
    else x :: replace_go f old new r.
Proof. reflexivity. Qed.

Lemma py_replace_header (h b : pystr) : h <> [] -> py_replace (h ++ b) h [] = py_replace b h [].
Proof.
  intro Hh. destruct h as [|x h']; [congruence|].
  unfold py_replace. rewrite <- app_comm_cons, replace_go_S, app_comm_cons.
  rewrite is_prefix_app, skipn_length_app', app_nil_l.
  apply replace_go_fuel; [congruence| |]; rewrite ?length_app; simpl; lia.
Qed.


Lemma py_split_join_sections (first : pystr) (rest : list pystr) :
  Forall no_hash (first :: rest) ->
  py_split (first ++ concat (map (fun q => t "## " ++ q) rest)) (t "## ") = first :: rest.
Proof.
  intro HF. unfold py_split. change (t "## ") with [35; 35; 32].
  cbn iota beta.
  rewrite split_go_join; [reflexivity| exists [35; 32]; reflexivity | exact HF | lia].
Qed.

Lemma no_hash_header (h b : pystr) : ~ In 35 h -> no_hash b -> no_hash (h ++ b).
Proof. unfold no_hash. intros Hh Hb Hin. apply in_app_or in Hin. tauto. Qed.

(** X2: a response laid out as the prompt asks (a preamble, then the five
    "## " headers in order, each followed by a newline and a body, with no
    '#' in the preamble or the bodies) is read back section by section: each
    field is its body with the header line removed and stripped. *)
Theorem therapy_sections_round_trip (pre b1 b2 b3 b4 b5 : pystr) :
  Forall (fun q => ~ In 35 q) [pre; b1; b2; b3; b4; b5] ->
  parse_therapy_sections
    (pre ++ t "## DISEASE SUMMARY" ++ [10] ++ b1 ++ t "## STAGING" ++ [10] ++ b2
         ++ t "## BIOMARKERS" ++ [10] ++ b3 ++ t "## TREATMENT ALGORITHM" ++ [10] ++ b4
         ++ t "## PATIENT JOURNEY" ++ [10] ++ b5)
  = mkSections (py_strip (py_replace b1 (t "DISEASE SUMMARY" ++ [10]) []))
               (py_strip (py_replace b2 (t "STAGING" ++ [10]) []))
               (py_strip (py_replace b3 (t "BIOMARKERS" ++ [10]) []))
               (py_strip (py_replace b4 (t "TREATMENT ALGORITHM" ++ [10]) []))
               (py_strip (py_replace b5 (t "PATIENT JOURNEY" ++ [10]) [])).
Proof.
  intro HF.
  inversion HF as [|? ? Hp HF1]; inversion HF1 as [|? ? Hb1 HF2];
  inversion HF2 as [|? ? Hb2 HF3]; inversion HF3 as [|? ? Hb3 HF4];
  inversion HF4 as [|? ? Hb4 HF5]; inversion HF5 as [|? ? Hb5 _]; subst.
  rewrite <- (py_replace_header (t "DISEASE SUMMARY" ++ [10]) b1) by discriminate.
  rewrite <- (py_replace_header (t "STAGING" ++ [10]) b2) by discriminate.
  rewrite <- (py_replace_header (t "BIOMARKERS" ++ [10]) b3) by discriminate.
  rewrite <- (py_replace_header (t "TREATMENT ALGORITHM" ++ [10]) b4) by discriminate.
  rewrite <- (py_replace_header (t "PATIENT JOURNEY" ++ [10]) b5) by discriminate.
  unfold parse_therapy_sections.
  replace (pre ++ t "## DISEASE SUMMARY" ++ [10] ++ b1 ++ t "## STAGING" ++ [10] ++ b2
         ++ t "## BIOMARKERS" ++ [10] ++ b3 ++ t "## TREATMENT ALGORITHM" ++ [10] ++ b4
         ++ t "## PATIENT JOURNEY" ++ [10] ++ b5)
    with (pre ++ concat (map (fun q => t "## " ++ q)
            [(t "DISEASE SUMMARY" ++ [10]) ++ b1; (t "STAGING" ++ [10]) ++ b2;
             (t "BIOMARKERS" ++ [10]) ++ b3; (t "TREATMENT ALGORITHM" ++ [10]) ++ b4;
             (t "PATIENT JOURNEY" ++ [10]) ++ b5]))
    by (simpl; rewrite ?app_nil_r, <- ?app_assoc; reflexivity).
  rewrite py_split_join_sections.
  - rewrite <- !app_assoc. reflexivity.
  - repeat constructor; try assumption;
      apply no_hash_header; try assumption; vm_compute; intuition discriminate.
Qed.

Lemma Forall_firstn' {A} (P : A -> Prop) (n : nat) (l : list A) : Forall P l -> Forall P (firstn n l).
Proof. revert l; induction n; intros [|x r] H; simpl; auto. inversion H; auto. Qed.

Lemma Forall_skipn' {A} (P : A -> Prop) (n : nat) (l : list A) : Forall P l -> Forall P (skipn n l).
Proof. revert l; induction n; intros [|x r] H; simpl; auto. inversion H; auto. Qed.

Lemma Forall_py_upto {A} (P : A -> Prop) (l : list A) (n : Z) : Forall P l -> Forall P (py_upto l n).
Proof. intro H. unfold py_upto, py_slice. apply Forall_firstn', Forall_skipn', H. Qed.

Lemma competitor_of_line_named (line : pystr) (e : pyval) :
  competitor_of_line line = Ok (Some e) -> named_entry e.
Proof.
  unfold competitor_of_line. intro H.
  destruct (_ || _); [|discriminate].
  destruct (split_colon line) as [cp dp].
  destruct (_ && _); [|discriminate].
  destruct (market_share_of (py_strip dp)) as [z|err]; cbn [bind] in H; [|discriminate].
  injection H as <-.
  do 3 eexists. split; [reflexivity|]. split; reflexivity.
Qed.

Lemma collect_competitors (st : comp_state) : cs_competitors (collect st) = cs_competitors st.
Proof. unfold collect. destruct (cs_content st); [reflexivity|]. destruct (cs_section st); reflexivity. Qed.

Lemma comp_step_named (st st' : comp_state) (line : pystr) :
  comp_step st line = Ok st' ->
  Forall named_entry (cs_competitors st) -> Forall named_entry (cs_competitors st').
Proof.
  intros Hs H. unfold comp_step in Hs. destruct (py_strip line) as [|c r] eqn:E;
    [injection Hs as <-; exact H|].
  repeat match type of Hs with context [if ?b then _ else _] =>
    destruct b; [cbn [bind] in Hs; injection Hs as <-; rewrite collect_competitors; exact H|] end.
  destruct (is_competitors (cs_section st)).
  - destruct (competitor_of_line (c :: r)) as [[e|]|err] eqn:Ec; cbn [bind] in Hs;
      [| |discriminate]; injection Hs as <-; rewrite collect_competitors; cbn [cs_competitors].
    + apply Forall_app; split; [exact H|]. constructor; [|constructor].
      eapply competitor_of_line_named; eassumption.
    + exact H.
  - cbn [bind] in Hs. injection Hs as <-. rewrite collect_competitors. exact H.
Qed.

Lemma fold_comp_step_named (lines : list pystr) :
  forall st st', comp_fold st lines = Ok st' ->
  Forall named_entry (cs_competitors st) -> Forall named_entry (cs_competitors st').
Proof.
  induction lines as [|l r IH]; intros st st' Hf H; cbn [comp_fold] in Hf.
  - injection Hf as <-. exact H.
  - destruct (comp_step st l) as [s1|e] eqn:Hs; cbn [bind] in Hf; [|discriminate].
    exact (IH s1 st' Hf (comp_step_named st s1 l Hs H)).
Qed.

Lemma known_company_pass_named (lines : list pystr) :
  forall acc, Forall named_entry acc -> Forall named_entry (known_company_pass acc lines).
Proof.
  induction lines as [|l r IH]; intros acc H; cbn [known_company_pass]; [exact H|].
  assert (H' : Forall named_entry (if any_in known_companies (py_upper l)
                                   then acc ++ [known_company_entry l] else acc)).
  { destruct (any_in _ _); [|exact H]. apply Forall_app; split; [exact H|].
    constructor; [|constructor]. do 3 eexists. split; [reflexivity|]. split; reflexivity. }
  destruct (5 <=? _)%nat; [exact H'|]. apply IH, H'.
Qed.

(** Every competitive analysis, parsed or the error fallback, is a dict whose
    ["competitors"] is a list of at most 7 named entries with a market share. *)
Lemma competitive_analysis_competitors (chat_response : res pystr) (cd : pyval) :
  generate_competitive_analysis chat_response = Ok cd ->
  exists d l, cd = PyDict d /\ dict_get d (t "competitors") = Some (PyList l)
              /\ (length l <= 7)%nat /\ Forall named_entry l.
Proof.
  unfold generate_competitive_analysis, try_except.
  destruct chat_response as [response|e]; cbn [bind]; intro H.
  - destruct (competitive_parse response) as [v|e] eqn:Hp; cbn [try_except] in *.
    + injection H as <-.
      unfold competitive_parse in Hp.
      destruct (comp_fold init_comp_state (py_split response [10])) as [st|e] eqn:Hf;
        cbn [bind] in Hp; [|discriminate].
      injection Hp as <-. unfold mkdict. eexists; eexists. split; [reflexivity|].
      split; [reflexivity|]. split.
      * match goal with |- (length (py_upto ?x 7) <= 7)%nat =>
          pose proof (py_upto_length x 7 ltac:(lia)); lia end.
      * apply Forall_py_upto.
        pose proof (fold_comp_step_named _ _ _ Hf (Forall_nil _)) as Hn.
        destruct (cs_competitors st); [apply known_company_pass_named; constructor | exact Hn].
    + injection H as <-.
      eexists; eexists. split; [reflexivity|]. split; [reflexivity|]. split; [simpl; lia|].
      constructor; [|constructor]. do 3 eexists. split; [reflexivity|]. split; reflexivity.
  - injection H as <-.
    eexists; eexists. split; [reflexivity|]. split; [reflexivity|]. split; [simpl; lia|].
    constructor; [|constructor]. do 3 eexists. split; [reflexivity|]. split; reflexivity.
Qed.

Lemma mapM_named_names (l : list pyval) :
  Forall named_entry l ->
  exists names, mapM (fun comp => py_get comp (t "name") (PyStr (t "Unknown"))) l = Ok names
                /\ length names = length l /\ Forall (fun v => exists s, v = PyStr s) names.
Proof.
  induction l as [|x r IH]; intro H; [exists []; repeat split; constructor|].
  inversion H as [|? ? [d [name [share [-> [Hn Hs]]]]] Hr]; subst.
  destruct (IH Hr) as [names [Em [El Ef]]].
  exists (PyStr name :: names). cbn [mapM py_get]. rewrite Hn. cbn [bind]. rewrite Em.
  cbn [bind]. split; [reflexivity|]. split; [simpl; congruence|]. constructor; eauto.
Qed.

Lemma mapM_named_shares (l : list pyval) :
  Forall named_entry l ->
  exists shares, mapM (fun comp => py_get comp (t "market_share") (PyInt 5)) l = Ok shares
                 /\ length shares = length l /\ Forall (fun v => exists z, v = PyInt z) shares.
Proof.
  induction l as [|x r IH]; intro H; [exists []; repeat split; constructor|].
  inversion H as [|? ? [d [name [share [-> [Hn Hs]]]]] Hr]; subst.
  destruct (IH Hr) as [shares [Em [El Ef]]].
  exists (PyInt share :: shares). cbn [mapM py_get]. rewrite Hs. cbn [bind]. rewrite Em.
  cbn [bind]. split; [reflexivity|]. split; [simpl; congruence|]. constructor; eauto.
Qed.

(** X3: for every competitive analysis the generator returns (parsed or
    the error fallback), the market chart is drawn from at most 7 competitors,
    each with a string name and an int market share (never the defaults
    'Unknown' or 5), and it fails only if the pie figure itself fails. *)
Theorem market_chart_of_competitive_analysis
  (pie_figure_json : list pyval -> list pyval -> res pystr)
  (chat_response : res pystr) (cd : pyval) :
  generate_competitive_analysis chat_response = Ok cd ->
  exists names shares,
    (length names <= 7)%nat /\ length shares = length names
    /\ Forall (fun v => exists s, v = PyStr s) names
    /\ Forall (fun v => exists z, v = PyInt z) shares
    /\ create_market_analysis_chart pie_figure_json cd
       = (fig <- pie_figure_json shares names ;; Ok (Some fig)).
Proof.
  intro H. destruct (competitive_analysis_competitors _ _ H) as [d [l [-> [Hc [Hl Hf]]]]].
  destruct (mapM_named_names l Hf) as [names [En [Eln Fn]]].
  destruct (mapM_named_shares l Hf) as [shares [Es [Els Fs]]].
  exists names, shares. repeat split; try assumption; try lia; try congruence.
  unfold create_market_analysis_chart.
  assert (Ht : py_truthy (PyDict d) = true).
  { destruct d; [discriminate|reflexivity]. }
  rewrite Ht. cbn [py_in bind py_getitem]. rewrite Hc. cbn [negb bind py_upto_val py_iter].
  rewrite (py_upto_short l 10) by lia. cbn [bind py_iter]. rewrite En. cbn [bind]. rewrite Es.
  reflexivity.
Qed.

(** X5: with the funnel handler's scenario list and an undecodable model
    response, the chart shows the optimistic scenario (green) with the lowest
    curve [60..540] and the pessimistic one (red) with the highest
    [180..1620], since the multipliers 0.6, 1.0, 1.8 follow the list order. *)
Theorem funnel_fallback_scenario_chart (scatter_figure_json : list trace -> res pystr)
  (lim : nat) (response : pystr) :
  json_loads lim response = None ->
  exists v,
    generate_scenario_models lim [t "optimistic"; t "realistic"; t "pessimistic"] (Ok response) = Ok v /\
    create_scenario_comparison_chart scatter_figure_json v
    = (fig <- scatter_figure_json
                [mkTrace years (PyList (map PyInt [60; 150; 300; 450; 540; 480]))
                         (t "Optimistic") (t "green");
                 mkTrace years (PyList (map PyInt [100; 250; 500; 750; 900; 800]))
                         (t "Realistic") (t "blue");
                 mkTrace years (PyList (map PyInt [180; 450; 900; 1350; 1620; 1440]))
                         (t "Pessimistic") (t "red")] ;;
       Ok (Some fig)).
Proof.
  intro H. unfold generate_scenario_models, try_except. cbn [bind]. rewrite H.
  match goal with |- exists v, ?x = Ok v /\ _ =>
    let y := eval vm_compute in x in change x with y end.
  eexists. split; [reflexivity|]. vm_compute. reflexivity.
Qed.

Lemma funnel_fallback_scenario_chart_witness :
  exists v,
    generate_scenario_models 1000 [t "optimistic"; t "realistic"; t "pessimistic"]
      (Ok (t "Scenarios: see table below")) = Ok v /\
    create_scenario_comparison_chart (fun _ => Ok (t "fig")) v
    = (fig <- (fun _ => Ok (t "fig"))
                [mkTrace years (PyList (map PyInt [60; 150; 300; 450; 540; 480]))
                         (t "Optimistic") (t "green");
                 mkTrace years (PyList (map PyInt [100; 250; 500; 750; 900; 800]))
                         (t "Realistic") (t "blue");
                 mkTrace years (PyList (map PyInt [180; 450; 900; 1350; 1620; 1440]))
                         (t "Pessimistic") (t "red")] ;;
       Ok (Some fig)).
Proof.
  apply funnel_fallback_scenario_chart. vm_compute. reflexivity.
Defined.

(** X6: the export endpoint answers 500 "Export failed: 404: Analysis not
    found" for an unknown id, and 500 "Export failed: 400: Invalid export type
    or generation failed" for an export type other than "pdf" and "excel":
    its own HTTP errors are caught and rewrapped. *)
Theorem export_errors (pdf_export excel_export : pyval -> pyval -> res (option pystr))
  (d : db) (request : export_request) :
  (find_one (therapy_analyses d) (t "id") (er_analysis_id request) = None ->
   export_analysis pdf_export excel_export d request
   = HttpError 500 (t "Export failed: 404: Analysis not found")) /\
  (forall analysis,
   find_one (therapy_analyses d) (t "id") (er_analysis_id request) = Some analysis ->
   py_truthy analysis = true ->
   pystr_eqb (er_export_type request) (t "pdf") = false ->
   pystr_eqb (er_export_type request) (t "excel") = false ->
   export_analysis pdf_export excel_export d request
   = HttpError 500 (t "Export failed: 400: Invalid export type or generation failed")).
Proof.
  split.
  - intro H. unfold export_analysis, export_body. rewrite H. reflexivity.
  - intros analysis H Ht Hp He. unfold export_analysis, export_body.
    rewrite H. cbn [found]. rewrite Ht, Hp, He. reflexivity.
Qed.

Lemma b64encode_nonempty (data : list Z) : data <> [] -> b64encode data <> [].
Proof. destruct data as [|a [|b [|c r]]]; intro H; [congruence| discriminate..]. Qed.

Lemma py_truthy_nonempty_str (s : pystr) : s <> [] -> py_truthy (PyStr s) = true.
Proof. destruct s; [congruence|reflexivity]. Qed.

(** X7: a PDF export of a stored analysis answers with the base64 of the
    built PDF and the file name [therapy_area.replace(' ', '_')] followed by
    "_analysis.pdf" when the PDF has bytes; a failed or empty build gives the
    rewrapped 400 as a 500. *)
Theorem export_pdf_outcome (flowable : Type) (Paragraph : pyval -> pystr -> res flowable)
  (Spacer : Z -> Z -> flowable) (py_format : pyval -> pystr)
  (pdf_build : list flowable -> res (list Z))
  (excel_export : pyval -> pyval -> res (option pystr))
  (d : db) (request : export_request) (analysis : pyval) (therapy_area : pystr) :
  find_one (therapy_analyses d) (t "id") (er_analysis_id request) = Some analysis ->
  py_truthy analysis = true ->
  er_export_type request = t "pdf" ->
  lookup analysis "therapy_area" = Some (PyStr therapy_area) ->
  export_analysis (@generate_pdf_report flowable Paragraph Spacer py_format pdf_build) excel_export d request
  = match @pdf_payload flowable Paragraph Spacer py_format pdf_build analysis with
    | Ok ((_ :: _) as data) =>
        HttpOk (mkdict [("status", PyStr (t "success")); ("export_type", PyStr (t "pdf"));
                        ("data", PyStr (b64encode data));
                        ("filename", PyStr (py_replace therapy_area [32] [95] ++ t "_analysis.pdf"))])
    | _ => HttpError 500 (t "Export failed: 400: Invalid export type or generation failed")
    end.
Proof.
  intros Hf Ht Hp Hta. unfold export_analysis, export_body. rewrite Hf. cbn [found]. rewrite Ht, Hp.
  cbn [negb]. replace (pystr_eqb (t "pdf") (t "pdf")) with true by reflexivity.
  unfold generate_pdf_report, try_except.
  destruct (@pdf_payload flowable Paragraph Spacer py_format pdf_build analysis) as [[|b r]|e]; cbn [bind].
  - reflexivity.
  - unfold export_reply. rewrite py_truthy_nonempty_str by (apply b64encode_nonempty; discriminate).
    unfold lookup, lookup_key in Hta. destruct analysis; try discriminate.
    cbn [py_getitem]. rewrite Hta. reflexivity.
  - reflexivity.
Qed.

(** X8: for an unknown analysis id the competitive-analysis and
    scenario-modeling endpoints answer 500 with the 404 text in the detail,
    and leave the database unchanged. *)
Theorem update_endpoints_unknown_analysis
  (competitive_chat : pystr -> pystr -> res pystr) (trials_get : pystr -> res (Z * res pyval))
  (scenario_chat : pystr -> pystr -> pyval -> res pystr)
  (scatter_figure_json : list trace -> res pystr) (now_stored now_returned : pyval)
  (scenario_json_depth : nat) (mongo_update : pyval -> pyval -> res unit)
  (d : db) (creq : competitive_request) (sreq : scenario_request) :
  (find_one (therapy_analyses d) (t "id") (cr_analysis_id creq) = None ->
   generate_competitive_intel competitive_chat trials_get now_stored now_returned mongo_update d creq
   = (d, HttpError 500 (t "Competitive analysis failed: 404: Analysis not found"))) /\
  (find_one (therapy_analyses d) (t "id") (sr_analysis_id sreq) = None ->
   generate_scenario_analysis scenario_chat scatter_figure_json now_stored now_returned
     scenario_json_depth mongo_update d sreq
   = (d, HttpError 500 (t "Scenario modeling failed: 404: Analysis not found"))).
Proof.
  split; intro H.
  - unfold generate_competitive_intel, competitive_intel_body. rewrite H. reflexivity.
  - unfold generate_scenario_analysis, scenario_analysis_body. rewrite H. reflexivity.
Qed.

(** X9: when the trials API answers 200 with a list of studies, the
    competitive-analysis endpoint sends [update_one] the first 15 studies
    only but reports the count of all of them; the stored landscape is the
    generator's output, whatever the model call did.  If [update_one]
    raises (an [int] beyond 64 bits in the landscape, a lost connection),
    the endpoint answers 500 with the error text and the database is
    unchanged. *)
Theorem competitive_intel_trials (competitive_chat : pystr -> pystr -> res pystr)
  (trials_get : pystr -> res (Z * res pyval)) (now_stored now_returned : pyval)
  (mongo_update : pyval -> pyval -> res unit)
  (d : db) (request : competitive_request) (analysis : pyval) (studies : list pyval)
  (body : list (pystr * pyval)) :
  find_one (therapy_analyses d) (t "id") (cr_analysis_id request) = Some analysis ->
  py_truthy analysis = true ->
  trials_get (py_replace (cr_therapy_area request) [32] [43]) = Ok (200, Ok (PyDict body)) ->
  dict_get body (t "studies") = Some (PyList studies) ->
  exists competitive_data,
    generate_competitive_analysis (competitive_chat (cr_api_key request) (cr_therapy_area request))
    = Ok competitive_data /\
    generate_competitive_intel competitive_chat trials_get now_stored now_returned mongo_update
      d request
    = match mongo_update (mkdict [("id", PyStr (cr_analysis_id request))])
              (mkdict [("$set", PyDict [(t "competitive_landscape", competitive_data);
                                        (t "clinical_trials_data", PyList (py_upto studies 15));
                                        (t "updated_at", now_stored)])]) with
      | Ok _ =>
          (mkDb (update_one (therapy_analyses d) (t "id") (cr_analysis_id request)
                   [(t "competitive_landscape", competitive_data);
                    (t "clinical_trials_data", PyList (py_upto studies 15));
                    (t "updated_at", now_stored)])
                (patient_flow_funnels d),
           HttpOk (mkdict [("status", PyStr (t "success"));
                           ("competitive_landscape", competitive_data);
                           ("clinical_trials_count", PyInt (Z.of_nat (length studies)));
                           ("updated_at", now_returned)]))
      | Raise e => (d, HttpError 500 (t "Competitive analysis failed: " ++ exc_str e))
      end.
Proof.
  intros Hf Ht Hg Hs.
  assert (Hc : exists cd, generate_competitive_analysis
                            (competitive_chat (cr_api_key request) (cr_therapy_area request)) = Ok cd).
  { unfold generate_competitive_analysis, try_except.
    destruct (competitive_chat _ _) as [r|e]; cbn [bind];
      [destruct (competitive_parse r)|]; eexists; reflexivity. }
  destruct Hc as [cd Hc]. exists cd. split; [exact Hc|].
  unfold generate_competitive_intel, competitive_intel_body. rewrite Hf. cbn [found].
  rewrite Ht. cbn [negb]. rewrite Hc. cbn [bind].
  unfold search_clinical_trials, try_except. rewrite Hg. cbn [bind Z.eqb]. cbn [py_get]. rewrite Hs.
  cbn [bind Pos.eqb try_except py_upto_val].
  destruct (mongo_update _ _); reflexivity.
Qed.

(** X10: when the scenario model call raises, the scenario-modeling endpoint
    overwrites the stored scenario models with an empty dict and still answers
    success, with no visualization; only a failure of [update_one] itself
    turns it into a 500, with the database unchanged. *)
Theorem scenario_analysis_model_error (scenario_chat : pystr -> pystr -> pyval -> res pystr)
  (scatter_figure_json : list trace -> res pystr) (now_stored now_returned : pyval)
  (scenario_json_depth : nat) (mongo_update : pyval -> pyval -> res unit)
  (d : db) (request : scenario_request) (analysis : pyval) (e : exc) :
  find_one (therapy_analyses d) (t "id") (sr_analysis_id request) = Some analysis ->
  py_truthy analysis = true ->
  scenario_chat (sr_api_key request) (sr_therapy_area request) analysis = Raise e ->
  generate_scenario_analysis scenario_chat scatter_figure_json now_stored now_returned
    scenario_json_depth mongo_update d request
  = match mongo_update (mkdict [("id", PyStr (sr_analysis_id request))])
            (mkdict [("$set", PyDict [(t "scenario_models", PyDict []);
                                      (t "updated_at", now_stored)])]) with
    | Ok _ =>
        (mkDb (update_one (therapy_analyses d) (t "id") (sr_analysis_id request)
                 [(t "scenario_models", PyDict []); (t "updated_at", now_stored)])
              (patient_flow_funnels d),
         HttpOk (mkdict [("status", PyStr (t "success")); ("scenario_models", PyDict []);
                         ("visualization", PyNone); ("updated_at", now_returned)]))
    | Raise e' => (d, HttpError 500 (t "Scenario modeling failed: " ++ exc_str e'))
    end.
Proof.
  intros Hf Ht Hc. unfold generate_scenario_analysis, scenario_analysis_body.
  rewrite Hf. cbn [found]. rewrite Ht. cbn [negb].
  unfold generate_scenario_models, try_except. rewrite Hc. cbn [bind].
  destruct (mongo_update _ _); reflexivity.
Qed.

(** X11: when the model returns JSON (within the decoder's depth allowance)
    that is a non-empty value other than an object (a list, say), the
    endpoint sends it to [update_one] as the scenario models; if the update
    goes through, the endpoint then fails with 500, because the chart calls
    [.keys()] on it, the update staying in the database; if the update
    raises, the 500 carries its error and the database is unchanged. *)
Theorem scenario_analysis_non_dict_model (scenario_chat : pystr -> pystr -> pyval -> res pystr)
  (scatter_figure_json : list trace -> res pystr) (now_stored now_returned : pyval)
  (scenario_json_depth : nat) (mongo_update : pyval -> pyval -> res unit)
  (d : db) (request : scenario_request) (analysis : pyval) (response : pystr) (v : pyval) :
  find_one (therapy_analyses d) (t "id") (sr_analysis_id request) = Some analysis ->
  py_truthy analysis = true ->
  scenario_chat (sr_api_key request) (sr_therapy_area request) analysis = Ok response ->
  json_loads scenario_json_depth response = Some v ->
  py_truthy v = true ->
  (forall kvs, v <> PyDict kvs) ->
  generate_scenario_analysis scenario_chat scatter_figure_json now_stored now_returned
    scenario_json_depth mongo_update d request
  = match mongo_update (mkdict [("id", PyStr (sr_analysis_id request))])
            (mkdict [("$set", PyDict [(t "scenario_models", v);
                                      (t "updated_at", now_stored)])]) with
    | Ok _ =>
        (mkDb (update_one (therapy_analyses d) (t "id") (sr_analysis_id request)
                 [(t "scenario_models", v); (t "updated_at", now_stored)])
              (patient_flow_funnels d),
         HttpError 500 (t "Scenario modeling failed: " ++
                        t ("'" ++ type_name v ++ "' object has no attribute 'keys'")))
    | Raise e => (d, HttpError 500 (t "Scenario modeling failed: " ++ exc_str e))
    end.
Proof.
  intros Hf Ht Hc Hj Hv Hnd. unfold generate_scenario_analysis, scenario_analysis_body.
  rewrite Hf. cbn [found]. rewrite Ht. cbn [negb].
  unfold generate_scenario_models, try_except. rewrite Hc. cbn [bind]. rewrite Hj.
  destruct (mongo_update _ _); [|reflexivity].
  unfold create_scenario_comparison_chart. rewrite Hv. cbn [negb].
  destruct v; try (exfalso; eapply Hnd; reflexivity); reflexivity.
Qed.

Lemma bind_ok {A B} (m : res A) (k : A -> res B) (x : B) :
  bind m k = Ok x -> exists a, m = Ok a /\ k a = Ok x.
Proof. destruct m as [a|e]; cbn [bind]; [intro H; exists a; auto | discriminate]. Qed.

(** Peels the successful binds off a hypothesis [bind m k = Ok x]. *)
Ltac peel_binds H :=
  repeat (apply bind_ok in H; let a := fresh "a" in destruct H as [a [_ H]]; cbv beta in H).

Lemma funnel_body_db
  (funnel_figure_json : list pyval -> list pyval -> list pystr -> res pystr)
  (funnel_chat : pystr -> pystr -> pyval -> pyval -> pyval -> res pystr)
  (scenario_chat : pystr -> pystr -> pyval -> res pystr)
  (scenario_chart market_chart : pyval -> res pystr)
  (PatientFlowFunnel : pystr -> pystr -> pyval -> pyval -> pyval -> pyval -> pyval -> res pyval)
  (funnel_json_depth scenario_json_depth : nat) (mongo_insert : pyval -> res unit)
  (d d' : db) (request : funnel_request) (funnel : pyval) :
  funnel_body funnel_figure_json funnel_chat scenario_chat scenario_chart market_chart
    PatientFlowFunnel funnel_json_depth scenario_json_depth mongo_insert d request = Ok (d', funnel) ->
  d' = mkDb (therapy_analyses d) (patient_flow_funnels d ++ [funnel]).
Proof.
  unfold funnel_body. destruct (negb _); [discriminate|]. intro H.
  peel_binds H. injection H as <- <-. reflexivity.
Qed.

(** X12: funnel generation never changes the stored analyses: on success it
    appends exactly the returned funnel to the funnels, on failure it leaves
    the database as it was. *)
Theorem funnel_generation_db
  (funnel_figure_json : list pyval -> list pyval -> list pystr -> res pystr)
  (funnel_chat : pystr -> pystr -> pyval -> pyval -> pyval -> res pystr)
  (scenario_chat : pystr -> pystr -> pyval -> res pystr)
  (scenario_chart market_chart : pyval -> res pystr)
  (PatientFlowFunnel : pystr -> pystr -> pyval -> pyval -> pyval -> pyval -> pyval -> res pyval)
  (funnel_json_depth scenario_json_depth : nat) (mongo_insert : pyval -> res unit)
  (d : db) (request : funnel_request) :
  match generate_patient_flow_funnel funnel_figure_json funnel_chat scenario_chat scenario_chart
          market_chart PatientFlowFunnel funnel_json_depth scenario_json_depth mongo_insert
          d request with
  | (d', HttpOk funnel) => d' = mkDb (therapy_analyses d) (patient_flow_funnels d ++ [funnel])
  | (d', HttpError _ _) => d' = d
  end.
Proof.
  unfold generate_patient_flow_funnel.
  destruct (funnel_body _ _ _ _ _ _ _ _ _ d request) as [[d' funnel]|e] eqn:E; [|reflexivity].
  eapply funnel_body_db. exact E.
Qed.

Lemma find_one_snoc (l : list pyval) (x : pyval) (key value : pystr) :
  find_one (l ++ [x]) key value
  = match find_one l key value with
    | Some y => Some y
    | None => if field_matches key value x then Some x else None
    end.
Proof.
  unfold find_one. induction l as [|y r IH]; simpl; [reflexivity|].
  destruct (field_matches key value y); [reflexivity|exact IH].
Qed.

(** X13: after a successful funnel generation, GET /funnels for an id that
    had no funnel returns the new one (when it carries that id); for an id
    that already had one it returns the same as before, so a regenerated
    funnel is never served by that endpoint. *)
Theorem funnel_lookup_after_generation
  (funnel_figure_json : list pyval -> list pyval -> list pystr -> res pystr)
  (funnel_chat : pystr -> pystr -> pyval -> pyval -> pyval -> res pystr)
  (scenario_chat : pystr -> pystr -> pyval -> res pystr)
  (scenario_chart market_chart : pyval -> res pystr)
  (PatientFlowFunnel : pystr -> pystr -> pyval -> pyval -> pyval -> pyval -> pyval -> res pyval)
  (funnel_json_depth scenario_json_depth : nat) (mongo_insert : pyval -> res unit)
  (funnel_view : pyval -> res pyval)
  (d d' : db) (request : funnel_request) (funnel : pyval) (analysis_id : pystr) :
  generate_patient_flow_funnel funnel_figure_json funnel_chat scenario_chat scenario_chart
    market_chart PatientFlowFunnel funnel_json_depth scenario_json_depth mongo_insert
    d request = (d', HttpOk funnel) ->
  (find_one (patient_flow_funnels d) (t "analysis_id") analysis_id = None ->
   field_matches (t "analysis_id") analysis_id funnel = true ->
   get_funnel_by_analysis funnel_view d' analysis_id
   = to_http (if negb (py_truthy funnel) then Ok PyNone else funnel_view funnel)) /\
  (forall old, find_one (patient_flow_funnels d) (t "analysis_id") analysis_id = Some old ->
   get_funnel_by_analysis funnel_view d' analysis_id
   = get_funnel_by_analysis funnel_view d analysis_id).
Proof.
  unfold generate_patient_flow_funnel.
  destruct (funnel_body _ _ _ _ _ _ _ _ _ d request) as [[d1 f1]|e] eqn:E; intro H;
    [|discriminate]. injection H as <- <-. rewrite (funnel_body_db _ _ _ _ _ _ _ _ _ _ _ _ _ E).
  unfold get_funnel_by_analysis. cbn [patient_flow_funnels]. rewrite find_one_snoc.
  split.
  - intros Hn Hm. rewrite Hn, Hm. reflexivity.
  - intros old Ho. rewrite Ho. reflexivity.
Qed.

Lemma mapM_app {A B} (f : A -> res B) (l1 l2 : list A) :
  mapM f (l1 ++ l2) = (xs <- mapM f l1 ;; ys <- mapM f l2 ;; Ok (xs ++ ys)).
Proof.
  induction l1 as [|x r IH]; cbn [mapM app].
  - cbn [bind]. destruct (mapM f l2); reflexivity.
  - rewrite IH. destruct (f x); cbn [bind]; [|reflexivity].
    destruct (mapM f r); cbn [bind]; [|reflexivity].
    destruct (mapM f l2); reflexivity.
Qed.

(** X14: after a status check is created, listing the checks gives the
    previous listing followed by the new check while fewer than 1000 were
    stored; from 1000 on the listing no longer changes.  A failed creation
    stores nothing. *)
Theorem status_checks_round_trip (new_status_check status_check_view : pyval -> res pyval)
  (mongo_insert : pyval -> res unit) (status_checks : list pyval) (client_name : pystr) :
  match create_status_check new_status_check mongo_insert status_checks client_name with
  | (status_checks', Ok status_obj) =>
      get_status_checks status_check_view status_checks'
      = if (length status_checks <? 1000)%nat
        then (xs <- get_status_checks status_check_view status_checks ;;
              y <- status_check_view status_obj ;; Ok (xs ++ [y]))
        else get_status_checks status_check_view status_checks
  | (status_checks', Raise _) => status_checks' = status_checks
  end.
Proof.
  unfold create_status_check.
  destruct (new_status_check _) as [obj|e]; [|reflexivity].
  destruct (mongo_insert obj); [|reflexivity].
  unfold get_status_checks. rewrite firstn_app.
  destruct (Nat.ltb_spec (length status_checks) 1000).
  - rewrite firstn_all2 by lia.
    replace (1000 - length status_checks)%nat with (S (999 - length status_checks))%nat by lia.
    cbn [firstn]. rewrite firstn_nil, mapM_app. cbn [mapM].
    destruct (mapM status_check_view status_checks); cbn [bind]; [|reflexivity].
    destruct (status_check_view obj); reflexivity.
  - replace (1000 - length status_checks)%nat with 0%nat by lia. cbn [firstn].
    rewrite app_nil_r. reflexivity.
Qed.


(** X17: when the main model call of the therapy analysis raises, the
    endpoint answers 500 "Analysis failed: " with the error text and stores
    nothing. *)
Theorem analyze_main_chat_error
  (analysis_chat : pystr -> pystr -> option pystr -> res pystr)
  (competitive_chat regulatory_chat : pystr -> pystr -> res pystr)
  (risk_chat : pystr -> pystr -> pyval -> res pystr)
  (trials_get : pystr -> res (Z * res pyval))
  (TherapyAreaAnalysis : pystr -> option pystr -> therapy_sections -> pyval -> pyval -> pyval -> res pyval)
  (regulatory_json_depth risk_json_depth : nat) (mongo_insert : pyval -> res unit)
  (d : db) (request : therapy_request) (e : exc) :
  analysis_chat (tr_api_key request) (tr_therapy_area request) (tr_product_name request) = Raise e ->
  analyze_therapy_area analysis_chat competitive_chat regulatory_chat risk_chat trials_get
    TherapyAreaAnalysis regulatory_json_depth risk_json_depth mongo_insert d request
  = (d, HttpError 500 (t "Analysis failed: " ++ exc_str e)).
Proof. intro H. unfold analyze_therapy_area. rewrite H. reflexivity. Qed.


Section WorkbookTitles.

Variable py_format : pyval -> pystr.
Variable cell_value : pyval -> res pyval.

Lemma write_cell_title (ws ws' : sheet) (ref : pystr) (v : pyval) :
  write_cell cell_value ws ref v = Ok ws' -> sheet_title ws' = sheet_title ws.
Proof.
  unfold write_cell. destruct (cell_value v); cbn [bind]; [|discriminate].
  intro H; injection H as <-. reflexivity.
Qed.

Lemma write_sections_title (sections : list (string * pyval)) :
  forall ws ws' row, write_sections cell_value ws row sections = Ok ws' ->
  sheet_title ws' = sheet_title ws.
Proof.
  induction sections as [|[title content] rest IH]; intros ws ws' row H; cbn [write_sections] in H.
  - injection H as <-. reflexivity.
  - destruct (write_cell cell_value ws _ _) as [w1|] eqn:E1; cbn [bind] in H; [|discriminate].
    destruct (write_cell cell_value w1 _ _) as [w2|] eqn:E2; cbn [bind] in H; [|discriminate].
    apply write_cell_title in E1, E2. rewrite (IH _ _ _ H). congruence.
Qed.

Lemma write_stages_title (stages : list pyval) :
  forall ws ws' i, write_stages cell_value ws i stages = Ok ws' -> sheet_title ws' = sheet_title ws.
Proof.
  induction stages as [|stage rest IH]; intros ws ws' i H; cbn [write_stages] in H.
  - injection H as <-. reflexivity.
  - destruct (py_get stage _ _); cbn [bind] in H; [|discriminate].
    destruct (write_cell cell_value ws _ _) as [w1|] eqn:E1; cbn [bind] in H; [|discriminate].
    destruct (py_get stage _ _); cbn [bind] in H; [|discriminate].
    destruct (write_cell cell_value w1 _ _) as [w2|] eqn:E2; cbn [bind] in H; [|discriminate].
    destruct (py_get stage _ _); cbn [bind] in H; [|discriminate].
    destruct (write_cell cell_value w2 _ _) as [w3|] eqn:E3; cbn [bind] in H; [|discriminate].
    apply write_cell_title in E1, E2, E3. rewrite (IH _ _ _ H). congruence.
Qed.

Lemma write_years_title (ys : list Z) :
  forall ws ws', write_years cell_value ws ys = Ok ws' -> sheet_title ws' = sheet_title ws.
Proof.
  induction ys as [|y rest IH]; intros ws ws' H; cbn [write_years] in H.
  - injection H as <-. reflexivity.
  - destruct (write_cell cell_value ws _ _) as [w1|] eqn:E1; cbn [bind] in H; [|discriminate].
    apply write_cell_title in E1. rewrite (IH _ _ H). congruence.
Qed.

Lemma write_projections_title (ps : list pyval) :
  forall ws ws' row i, write_projections cell_value ws row i ps = Ok ws' ->
  sheet_title ws' = sheet_title ws.
Proof.
  induction ps as [|p rest IH]; intros ws ws' row i H; cbn [write_projections] in H.
  - injection H as <-. reflexivity.
  - destruct (write_cell cell_value ws _ _) as [w1|] eqn:E1; cbn [bind] in H; [|discriminate].
    apply write_cell_title in E1. rewrite (IH _ _ _ _ H). congruence.
Qed.

Lemma write_scenarios_title (items : list (pystr * pyval)) :
  forall ws ws' row, write_scenarios cell_value ws row items = Ok ws' ->
  sheet_title ws' = sheet_title ws.
Proof.
  induction items as [|[scenario data] rest IH]; intros ws ws' row H; cbn [write_scenarios] in H.
  - injection H as <-. reflexivity.
  - destruct (write_cell cell_value ws _ _) as [w1|] eqn:E1; cbn [bind] in H; [|discriminate].
    apply write_cell_title in E1.
    destruct (py_in _ data) as [[|]|]; cbn [bind] in H; [| |discriminate].
    + destruct (py_getitem data _); cbn [bind] in H; [|discriminate].
      destruct (py_upto_val _ 6); cbn [bind] in H; [|discriminate].
      destruct (py_iter _); cbn [bind] in H; [|discriminate].
      destruct (write_projections cell_value w1 row 0 _) as [w2|] eqn:E2; cbn [bind] in H;
        [|discriminate].
      apply write_projections_title in E2. rewrite (IH _ _ _ H). congruence.
    + cbn [bind] in H. rewrite (IH _ _ _ H). congruence.
Qed.

End WorkbookTitles.

Lemma summary_sheet_title (py_format : pyval -> pystr) (cell_value : pyval -> res pyval)
  (analysis : pyval) (ws : sheet) :
  summary_sheet py_format cell_value analysis = Ok ws -> sheet_title ws = t "Analysis Summary".
Proof.
  unfold summary_sheet. intro H.
  destruct (py_getitem analysis _); cbn [bind] in H; [|discriminate].
  destruct (write_cell cell_value _ _ _) as [w1|] eqn:E1; cbn [bind] in H; [|discriminate].
  apply write_cell_title in E1.
  do 6 (match type of H with bind ?m _ = Ok _ => destruct m; cbn [bind] in H; [|discriminate] end).
  rewrite (write_sections_title _ _ _ _ _ H). exact E1.
Qed.

Lemma funnel_sheet_title (cell_value : pyval -> res pyval) (funnel : pyval) (o : option sheet) :
  funnel_sheet cell_value funnel = Ok o ->
  map sheet_title (option_list o)
  = if py_truthy funnel && (match py_in (t "funnel_stages") funnel with Ok b => b | Raise _ => false end)
    then [t "Patient Flow Funnel"] else [].
Proof.
  unfold funnel_sheet. destruct (py_truthy funnel); cbn [andb];
    [|intro H; injection H as <-; reflexivity].
  destruct (py_in _ funnel) as [[|]|]; cbn [bind]; [| intro H; injection H as <-; reflexivity
                                                     | discriminate].
  intro H.
  destruct (write_cell cell_value _ _ _) as [w1|] eqn:E1; cbn [bind] in H; [|discriminate].
  destruct (write_cell cell_value w1 _ _) as [w2|] eqn:E2; cbn [bind] in H; [|discriminate].
  destruct (write_cell cell_value w2 _ _) as [w3|] eqn:E3; cbn [bind] in H; [|discriminate].
  destruct (py_getitem funnel _); cbn [bind] in H; [|discriminate].
  destruct (py_iter _); cbn [bind] in H; [|discriminate].
  destruct (write_stages cell_value w3 2 _) as [w4|] eqn:E4; cbn [bind] in H; [|discriminate].
  injection H as <-. apply write_cell_title in E1, E2, E3. apply write_stages_title in E4.
  cbn [option_list map]. rewrite E4, E3, E2, E1. reflexivity.
Qed.

Lemma scenario_sheet_title (cell_value : pyval -> res pyval) (analysis : pyval) (o : option sheet) :
  scenario_sheet cell_value analysis = Ok o ->
  map sheet_title (option_list o)
  = match py_get analysis (t "scenario_models") PyNone with
    | Ok m => if py_truthy m then [t "Scenario Models"] else []
    | Raise _ => []
    end.
Proof.
  unfold scenario_sheet. destruct (py_get analysis _ _) as [m|]; cbn [bind]; [|discriminate].
  destruct (py_truthy m); [|intro H; injection H as <-; reflexivity].
  intro H.
  destruct (write_cell cell_value _ _ _) as [w1|] eqn:E1; cbn [bind] in H; [|discriminate].
  destruct (write_years cell_value w1 _) as [w2|] eqn:E2; cbn [bind] in H; [|discriminate].
  destruct (py_getitem analysis _); cbn [bind] in H; [|discriminate].
  destruct (py_items _); cbn [bind] in H; [|discriminate].
  destruct (write_scenarios cell_value w2 2 _) as [w3|] eqn:E3; cbn [bind] in H; [|discriminate].
  injection H as <-. apply write_cell_title in E1. apply write_years_title in E2.
  apply write_scenarios_title in E3. cbn [option_list map]. rewrite E3, E2, E1. reflexivity.
Qed.

(** X20: a generated Excel workbook always starts with the "Analysis
    Summary" sheet, has the "Patient Flow Funnel" sheet exactly when the
    funnel is non-empty and has "funnel_stages", and the "Scenario Models"
    sheet exactly when the analysis has non-empty scenario models. *)
Theorem excel_workbook_sheets (py_format : pyval -> pystr) (cell_value : pyval -> res pyval)
  (analysis funnel : pyval) (sheets : list sheet) :
  workbook py_format cell_value analysis funnel = Ok sheets ->
  map sheet_title sheets
  = t "Analysis Summary"
    :: (if py_truthy funnel
           && (match py_in (t "funnel_stages") funnel with Ok b => b | Raise _ => false end)
        then [t "Patient Flow Funnel"] else [])
       ++ (match py_get analysis (t "scenario_models") PyNone with
           | Ok m => if py_truthy m then [t "Scenario Models"] else []
           | Raise _ => []
           end).
Proof.
  unfold workbook. intro H.
  destruct (summary_sheet py_format cell_value analysis) as [ws1|] eqn:E1; cbn [bind] in H;
    [|discriminate].
  destruct (funnel_sheet cell_value funnel) as [o2|] eqn:E2; cbn [bind] in H; [|discriminate].
  destruct (scenario_sheet cell_value analysis) as [o3|] eqn:E3; cbn [bind] in H; [|discriminate].
  injection H as <-. cbn [map]. rewrite map_app.
  rewrite (summary_sheet_title _ _ _ _ E1), (funnel_sheet_title _ _ _ E2),
          (scenario_sheet_title _ _ _ E3).
  reflexivity.
Qed.

Lemma funnel_parse_unbalanced_fallback_witness :
  parse_funnel_response 1000 (t "Funnel stages follow } below")
  = funnel_fallback (t "Funnel stages follow } below").
Proof.
  apply (funnel_parse_unbalanced_fallback 1000). left. vm_compute. intuition discriminate.
Defined.

Lemma therapy_sections_round_trip_witness :
  parse_therapy_sections
    (t "Intro" ++ t "## DISEASE SUMMARY" ++ [10] ++ t "Common." ++ t "## STAGING" ++ [10]
         ++ t "I-IV" ++ t "## BIOMARKERS" ++ [10] ++ t "EGFR" ++ t "## TREATMENT ALGORITHM"
         ++ [10] ++ t "Surgery" ++ t "## PATIENT JOURNEY" ++ [10] ++ t "Screening")
  = mkSections (py_strip (py_replace (t "Common.") (t "DISEASE SUMMARY" ++ [10]) []))
               (py_strip (py_replace (t "I-IV") (t "STAGING" ++ [10]) []))
               (py_strip (py_replace (t "EGFR") (t "BIOMARKERS" ++ [10]) []))
               (py_strip (py_replace (t "Surgery") (t "TREATMENT ALGORITHM" ++ [10]) []))
               (py_strip (py_replace (t "Screening") (t "PATIENT JOURNEY" ++ [10]) [])).
Proof.
  apply therapy_sections_round_trip. repeat constructor; vm_compute; intuition discriminate.
Defined.

Lemma market_chart_of_competitive_analysis_witness :
  exists names shares,
    (length names <= 7)%nat /\ length shares = length names
    /\ Forall (fun v => exists s, v = PyStr s) names
    /\ Forall (fun v => exists z, v = PyInt z) shares
    /\ create_market_analysis_chart (fun _ _ => Ok (t "fig")) (competitive_error (External (t "timeout")))
       = (fig <- (fun _ _ => Ok (t "fig")) shares names ;; Ok (Some fig)).
Proof.
  apply (market_chart_of_competitive_analysis (fun _ _ => Ok (t "fig")) (Raise (External (t "timeout")))).
  reflexivity.
Defined.

Lemma export_errors_witness :
  export_analysis (fun _ _ => Ok None) (fun _ _ => Ok None) sample_db (mkExportRequest (t "a-2") (t "pdf"))
  = HttpError 500 (t "Export failed: 404: Analysis not found") /\
  export_analysis (fun _ _ => Ok None) (fun _ _ => Ok None) sample_db (mkExportRequest (t "a-1") (t "pptx"))
  = HttpError 500 (t "Export failed: 400: Invalid export type or generation failed").
Proof.
  split.
  - apply (proj1 (export_errors (fun _ _ => Ok None) (fun _ _ => Ok None) sample_db
                                (mkExportRequest (t "a-2") (t "pdf")))).
    vm_compute. reflexivity.
  - apply (proj2 (export_errors (fun _ _ => Ok None) (fun _ _ => Ok None) sample_db
                                (mkExportRequest (t "a-1") (t "pptx"))) sample_analysis);
      vm_compute; reflexivity.
Defined.

Lemma export_pdf_outcome_witness :
  export_analysis (@generate_pdf_report unit (fun _ _ => Ok tt) (fun _ _ => tt) (fun _ => [])
                                        (fun _ => Ok [37; 80; 68; 70]))
                  (fun _ _ => Ok None) sample_db (mkExportRequest (t "a-1") (t "pdf"))
  = match @pdf_payload unit (fun _ _ => Ok tt) (fun _ _ => tt) (fun _ => [])
                       (fun _ => Ok [37; 80; 68; 70]) sample_analysis with
    | Ok ((_ :: _) as data) =>
        HttpOk (mkdict [("status", PyStr (t "success")); ("export_type", PyStr (t "pdf"));
                        ("data", PyStr (b64encode data));
                        ("filename", PyStr (py_replace (t "Lung cancer") [32] [95] ++ t "_analysis.pdf"))])
    | _ => HttpError 500 (t "Export failed: 400: Invalid export type or generation failed")
    end.
Proof.
  apply export_pdf_outcome; vm_compute; reflexivity.
Defined.

Lemma update_endpoints_unknown_analysis_witness :
  generate_competitive_intel (fun _ _ => Ok (t "none")) (fun _ => Ok (200, Ok (PyDict [])))
    PyNone PyNone bson_update_check sample_db
    (mkCompetitiveRequest (t "Lung cancer") (t "a-2") (t "key"))
  = (sample_db, HttpError 500 (t "Competitive analysis failed: 404: Analysis not found")) /\
  generate_scenario_analysis (fun _ _ _ => Ok (t "{}")) (fun _ => Ok (t "fig")) PyNone PyNone
    1000 bson_update_check sample_db
    (mkScenarioRequest (t "Lung cancer") (t "a-2") [t "realistic"] (t "key"))
  = (sample_db, HttpError 500 (t "Scenario modeling failed: 404: Analysis not found")).
Proof.
  split.
  - apply (proj1 (update_endpoints_unknown_analysis (fun _ _ => Ok (t "none"))
             (fun _ => Ok (200, Ok (PyDict []))) (fun _ _ _ => Ok (t "{}")) (fun _ => Ok (t "fig"))
             PyNone PyNone 1000 bson_update_check sample_db
             (mkCompetitiveRequest (t "Lung cancer") (t "a-2") (t "key"))
             (mkScenarioRequest (t "Lung cancer") (t "a-2") [t "realistic"] (t "key")))).
    vm_compute. reflexivity.
  - apply (proj2 (update_endpoints_unknown_analysis (fun _ _ => Ok (t "none"))
             (fun _ => Ok (200, Ok (PyDict []))) (fun _ _ _ => Ok (t "{}")) (fun _ => Ok (t "fig"))
             PyNone PyNone 1000 bson_update_check sample_db
             (mkCompetitiveRequest (t "Lung cancer") (t "a-2") (t "key"))
             (mkScenarioRequest (t "Lung cancer") (t "a-2") [t "realistic"] (t "key")))).
    vm_compute. reflexivity.
Defined.

Lemma competitive_intel_trials_witness :
  generate_competitive_intel (fun _ _ => Raise (External (t "timeout")))
    (fun _ => Ok (200, Ok (PyDict [(t "studies", PyList (map PyInt (seq_z 20)))])))
    PyNone PyNone bson_update_check sample_db
    (mkCompetitiveRequest (t "Lung cancer") (t "a-1") (t "key"))
  = (mkDb (update_one (therapy_analyses sample_db) (t "id") (t "a-1")
             [(t "competitive_landscape", competitive_error (External (t "timeout")));
              (t "clinical_trials_data", PyList (map PyInt (seq_z 15)));
              (t "updated_at", PyNone)])
          (patient_flow_funnels sample_db),
     HttpOk (mkdict [("status", PyStr (t "success"));
                     ("competitive_landscape", competitive_error (External (t "timeout")));
                     ("clinical_trials_count", PyInt 20);
                     ("updated_at", PyNone)])) /\
  generate_competitive_intel (fun _ _ => Ok big_share_response)
    (fun _ => Ok (200, Ok (PyDict [(t "studies", PyList [])])))
    PyNone PyNone bson_update_check sample_db
    (mkCompetitiveRequest (t "Lung cancer") (t "a-1") (t "key"))
  = (sample_db, HttpError 500 (t "Competitive analysis failed: MongoDB can only handle up to 8-byte ints")).
Proof.
  split.
  - destruct (competitive_intel_trials (fun _ _ => Raise (External (t "timeout")))
                (fun _ => Ok (200, Ok (PyDict [(t "studies", PyList (map PyInt (seq_z 20)))])))
                PyNone PyNone bson_update_check sample_db
                (mkCompetitiveRequest (t "Lung cancer") (t "a-1") (t "key")) sample_analysis
                (map PyInt (seq_z 20)) [(t "studies", PyList (map PyInt (seq_z 20)))]
                ltac:(vm_compute; reflexivity) ltac:(vm_compute; reflexivity)
                ltac:(vm_compute; reflexivity) ltac:(vm_compute; reflexivity))
      as [cd [Hc H]].
    vm_compute in Hc. injection Hc as <-. rewrite H. vm_compute. reflexivity.
  - destruct (competitive_intel_trials (fun _ _ => Ok big_share_response)
                (fun _ => Ok (200, Ok (PyDict [(t "studies", PyList [])])))
                PyNone PyNone bson_update_check sample_db
                (mkCompetitiveRequest (t "Lung cancer") (t "a-1") (t "key")) sample_analysis
                [] [(t "studies", PyList [])]
                ltac:(vm_compute; reflexivity) ltac:(vm_compute; reflexivity)
                ltac:(vm_compute; reflexivity) ltac:(vm_compute; reflexivity))
      as [cd [Hc H]].
    vm_compute in Hc. injection Hc as <-. rewrite H. vm_compute. reflexivity.
Defined.

Lemma scenario_analysis_model_error_witness :
  generate_scenario_analysis (fun _ _ _ => Raise (External (t "invalid x-api-key")))
    (fun _ => Ok (t "fig")) PyNone PyNone 1000 bson_update_check sample_db
    (mkScenarioRequest (t "Lung cancer") (t "a-1") [t "realistic"] (t "key"))
  = (mkDb (update_one (therapy_analyses sample_db) (t "id") (t "a-1")
             [(t "scenario_models", PyDict []); (t "updated_at", PyNone)])
          (patient_flow_funnels sample_db),
     HttpOk (mkdict [("status", PyStr (t "success")); ("scenario_models", PyDict []);
                     ("visualization", PyNone); ("updated_at", PyNone)])).
Proof.
  rewrite (scenario_analysis_model_error (fun _ _ _ => Raise (External (t "invalid x-api-key")))
             (fun _ => Ok (t "fig")) PyNone PyNone 1000 bson_update_check sample_db
             (mkScenarioRequest (t "Lung cancer") (t "a-1") [t "realistic"] (t "key"))
             sample_analysis (External (t "invalid x-api-key"))
             ltac:(vm_compute; reflexivity) ltac:(vm_compute; reflexivity)
             ltac:(vm_compute; reflexivity)).
  vm_compute. reflexivity.
Defined.

Lemma scenario_analysis_non_dict_model_witness :
  generate_scenario_analysis (fun _ _ _ => Ok (t "[1, 2]"))
    (fun _ => Ok (t "fig")) PyNone PyNone 1000 bson_update_check sample_db
    (mkScenarioRequest (t "Lung cancer") (t "a-1") [t "realistic"] (t "key"))
  = (mkDb (update_one (therapy_analyses sample_db) (t "id") (t "a-1")
             [(t "scenario_models", PyList [PyInt 1; PyInt 2]); (t "updated_at", PyNone)])
          (patient_flow_funnels sample_db),
     HttpError 500 (t "Scenario modeling failed: 'list' object has no attribute 'keys'")) /\
  generate_scenario_analysis (fun _ _ _ => Ok (t "[99999999999999999999]"))
    (fun _ => Ok (t "fig")) PyNone PyNone 1000 bson_update_check sample_db
    (mkScenarioRequest (t "Lung cancer") (t "a-1") [t "realistic"] (t "key"))
  = (sample_db, HttpError 500 (t "Scenario modeling failed: MongoDB can only handle up to 8-byte ints")).
Proof.
  split.
  - rewrite (scenario_analysis_non_dict_model (fun _ _ _ => Ok (t "[1, 2]")) (fun _ => Ok (t "fig"))
               PyNone PyNone 1000 bson_update_check sample_db
               (mkScenarioRequest (t "Lung cancer") (t "a-1") [t "realistic"] (t "key"))
               sample_analysis (t "[1, 2]") (PyList [PyInt 1; PyInt 2])
               ltac:(vm_compute; reflexivity) ltac:(vm_compute; reflexivity)
               ltac:(vm_compute; reflexivity) ltac:(vm_compute; reflexivity)
               ltac:(vm_compute; reflexivity) ltac:(intros kvs; discriminate)).
    vm_compute. reflexivity.
  - rewrite (scenario_analysis_non_dict_model (fun _ _ _ => Ok (t "[99999999999999999999]"))
               (fun _ => Ok (t "fig")) PyNone PyNone 1000 bson_update_check sample_db
               (mkScenarioRequest (t "Lung cancer") (t "a-1") [t "realistic"] (t "key"))
               sample_analysis (t "[99999999999999999999]") (PyList [PyInt 99999999999999999999])
               ltac:(vm_compute; reflexivity) ltac:(vm_compute; reflexivity)
               ltac:(vm_compute; reflexivity) ltac:(vm_compute; reflexivity)
               ltac:(vm_compute; reflexivity) ltac:(intros kvs; discriminate)).
    vm_compute. reflexivity.
Defined.

Lemma funnel_lookup_after_generation_witness :
  get_funnel_by_analysis (fun f => Ok f)
    (mkDb [sample_analysis] [mkdict [("analysis_id", PyStr (t "a-1"))]]) (t "a-1")
  = to_http (if negb (py_truthy (mkdict [("analysis_id", PyStr (t "a-1"))])) then Ok PyNone
             else (fun f => Ok f) (mkdict [("analysis_id", PyStr (t "a-1"))])).
Proof.
  apply (proj1 (funnel_lookup_after_generation (fun _ _ _ => Ok (t "f"))
                  (fun _ _ _ _ _ => Ok (t "{}")) (fun _ _ _ => Ok (t "{}"))
                  (fun _ => Ok (t "s")) (fun _ => Ok (t "m"))
                  (fun _ id _ _ _ _ _ => Ok (mkdict [("analysis_id", PyStr id)]))
                  1000 1000 bson_int_check (fun f => Ok f) sample_db
                  (mkDb [sample_analysis] [mkdict [("analysis_id", PyStr (t "a-1"))]])
                  (mkFunnelRequest (t "Lung cancer") (t "a-1") (t "key"))
                  (mkdict [("analysis_id", PyStr (t "a-1"))]) (t "a-1")
                  ltac:(vm_compute; reflexivity)));
    vm_compute; reflexivity.
Defined.

Lemma analyze_main_chat_error_witness :
  analyze_therapy_area (fun _ _ _ => Raise (External (t "401 Unauthorized")))
    (fun _ _ => Ok []) (fun _ _ => Ok []) (fun _ _ _ => Ok []) (fun _ => Ok (200, Ok (PyDict [])))
    (fun _ _ _ _ _ _ => Ok (PyDict [])) 1000 1000 bson_int_check sample_db
    (mkTherapyRequest (t "Lung cancer") None (t "key"))
  = (sample_db, HttpError 500 (t "Analysis failed: " ++ exc_str (External (t "401 Unauthorized")))).
Proof.
  apply analyze_main_chat_error. reflexivity.
Defined.


Lemma excel_workbook_sheets_witness :
  map sheet_title (match workbook (fun _ => []) (fun v => Ok v)
                           analysis_with_scenarios funnel_with_stages with
                   | Ok sheets => sheets | Raise _ => [] end)
  = [t "Analysis Summary"; t "Patient Flow Funnel"; t "Scenario Models"] /\
  map sheet_title (match workbook (fun _ => []) (fun v => Ok v) sample_analysis PyNone with
                   | Ok sheets => sheets | Raise _ => [] end)
  = [t "Analysis Summary"].
Proof.
  split.
  - destruct (workbook (fun _ => []) (fun v => Ok v) analysis_with_scenarios funnel_with_stages)
      as [sheets|e] eqn:E; [|vm_compute in E; discriminate].
    rewrite (excel_workbook_sheets (fun _ => []) (fun v => Ok v) _ _ _ E).
    vm_compute. reflexivity.
  - destruct (workbook (fun _ => []) (fun v => Ok v) sample_analysis PyNone)
      as [sheets|e] eqn:E; [|vm_compute in E; discriminate].
    rewrite (excel_workbook_sheets (fun _ => []) (fun v => Ok v) _ _ _ E).
    vm_compute. reflexivity.
Defined.


Lemma search_clinical_trials_eq (trials_get : pystr -> res (Z * res pyval)) (therapy_area : pystr) :
  search_clinical_trials trials_get therapy_area
  = Ok (match trials_get (py_replace therapy_area [32] [43]) with
        | Ok (200, Ok (PyDict body)) =>
            match dict_get body (t "studies") with Some v => v | None => PyList [] end
        | _ => PyList []
        end).
Proof.
  unfold search_clinical_trials, try_except.
  destruct (trials_get _) as [[code body]|e]; cbn [bind]; [|reflexivity].
  destruct (Z.eqb_spec code 200) as [->|Hc].
  - destruct body as [v|e]; cbn [bind]; [|reflexivity].
    destruct v; reflexivity.
  - destruct code as [|p|p]; try reflexivity.
    repeat (destruct p as [p|p|]; try reflexivity). all: exfalso; apply Hc; reflexivity.
Qed.

(** X16: the trials search endpoint answers the studies and their count
    when the API returns a list of studies, and an empty list with count 0
    when the API does not answer 200 with a JSON object. *)
Theorem search_trials_endpoint_outcome (trials_get : pystr -> res (Z * res pyval))
  (therapy_area : pystr) :
  (forall body studies,
     trials_get (py_replace therapy_area [32] [43]) = Ok (200, Ok (PyDict body)) ->
     dict_get body (t "studies") = Some (PyList studies) ->
     search_trials_endpoint trials_get therapy_area
     = HttpOk (mkdict [("trials", PyList studies); ("count", PyInt (Z.of_nat (length studies)))])) /\
  ((forall body, trials_get (py_replace therapy_area [32] [43]) <> Ok (200, Ok (PyDict body))) ->
   search_trials_endpoint trials_get therapy_area
   = HttpOk (mkdict [("trials", PyList []); ("count", PyInt 0)])).
Proof.
  unfold search_trials_endpoint. rewrite search_clinical_trials_eq. split.
  - intros body studies Hg Hs. rewrite Hg, Hs. reflexivity.
  - intro Hn. destruct (trials_get _) as [[code body]|e]; [|reflexivity].
    destruct (Z.eqb_spec code 200) as [->|Hc].
    + destruct body as [v|e]; [|reflexivity].
      destruct v; try reflexivity. exfalso. eapply Hn. reflexivity.
    + destruct code as [|p|p]; try reflexivity.
      repeat (destruct p as [p|p|]; try reflexivity). all: exfalso; apply Hc; reflexivity.
Qed.

Lemma search_trials_endpoint_outcome_witness :
  search_trials_endpoint (fun _ => Ok (200, Ok (PyDict [(t "studies", PyList [PyInt 1; PyInt 2])])))
    (t "Lung cancer")
  = HttpOk (mkdict [("trials", PyList [PyInt 1; PyInt 2]); ("count", PyInt (Z.of_nat (length [PyInt 1; PyInt 2])))]) /\
  search_trials_endpoint (fun _ => Ok (503, Ok (PyDict []))) (t "Lung cancer")
  = HttpOk (mkdict [("trials", PyList []); ("count", PyInt 0)]).
Proof.
  split.
  - apply (proj1 (search_trials_endpoint_outcome
                    (fun _ => Ok (200, Ok (PyDict [(t "studies", PyList [PyInt 1; PyInt 2])])))
                    (t "Lung cancer")) [(t "studies", PyList [PyInt 1; PyInt 2])]); reflexivity.
  - apply (proj2 (search_trials_endpoint_outcome (fun _ => Ok (503, Ok (PyDict []))) (t "Lung cancer"))).
    intros body H. discriminate.
Defined.
